(** * Shopping Behavior Analytics dashboard (streamlit_app.py)

    A shallow embedding of the dashboard script: the fragment of pandas it
    uses, the warehouse queries it sends, the Streamlit runtime it runs in
    (page output, object store, data cache) and the script itself, followed
    by the properties of the specification settled against that embedding.

    Numbers are exact rationals ([Q]), compared with [==].  The script's
    amounts are float64: a sum of whole numbers below 2^53 is exact there
    too, any other sum is rounded, so a statement that relates two
    different sums of amounts is made for whole amounts only
    ([exact_amounts]); counts and flags are integers.  Charts
    appear on the page as their titles; page furniture (titles, markdown,
    column layout) and number formatting are left out. *)

From Stdlib Require Import ZArith QArith Qround Qabs Lqa Lia Permutation Ascii.
From stdpp Require Import base option list gmap strings sorting.

Local Open Scope string_scope.

(** ** The fragment of pandas used by the script *)

Module Pandas.

(** A cell of a frame.  [Null] stands for None / NaN / NaT. *)
Inductive cell :=
| Null
| Num (q : Q)
| Str (s : string)
| Bool (b : bool)
| Time (t : Z).

(** The Python exceptions that can reach the script. *)
Inductive exn :=
| KeyError (what : string)
| ValueError (what : string)
| ZeroDivisionError
| WarehouseError (msg : string)
| AuthError (msg : string).

Inductive result (A : Type) :=
| Ok (a : A)
| Raise (e : exn).
Arguments Ok {A} a.
Arguments Raise {A} e.

Definition rbind {A B} (r : result A) (k : A -> result B) : result B :=
  match r with
  | Ok a => k a
  | Raise e => Raise e
  end.

(** [str(e)]; a KeyError shows its key quoted. *)
Definition str_of_exn (e : exn) : string :=
  match e with
  | KeyError s => "'" ++ s ++ "'"
  | ValueError s => s
  | ZeroDivisionError => "division by zero"
  | WarehouseError s => s
  | AuthError s => s
  end.

(** A row binds column names to cells; a frame is its column index and its
    rows, in order. *)
Definition row := list (string * cell).

Record DataFrame := mkDF {
  columns : list string;
  rows : list row
}.

Definition Series := list cell.

Fixpoint at_ (r : row) (c : string) : cell :=
  match r with
  | [] => Null
  | (k, v) :: r' => if String.eqb k c then v else at_ r' c
  end.

Fixpoint row_set (c : string) (v : cell) (r : row) : row :=
  match r with
  | [] => [(c, v)]
  | (k, w) :: r' => if String.eqb k c then (k, v) :: r' else (k, w) :: row_set c v r'
  end.

(** [pd.DataFrame()] *)
Definition empty_frame : DataFrame := mkDF [] [].

(** [len(df)] *)
Definition len (df : DataFrame) : nat := length (rows df).

(** [df.empty]: some axis has length zero. *)
Definition empty (df : DataFrame) : bool :=
  match columns df, rows df with
  | [], _ => true
  | _, [] => true
  | _, _ => false
  end.

(** [c in df.columns] *)
Definition has_column (c : string) (df : DataFrame) : bool :=
  existsb (String.eqb c) (columns df).

(** [df[c]] *)
Definition getitem (df : DataFrame) (c : string) : result Series :=
  if has_column c df then Ok (map (fun r => at_ r c) (rows df))
  else Raise (KeyError c).

(** [df[c] = series], in place on the frame object: the caller stores the
    result back at the same location. *)
Definition setitem (c : string) (v : Series) (df : DataFrame) : DataFrame :=
  mkDF (if has_column c df then columns df else columns df ++ [c])
       (zip_with (fun r x => row_set c x r) (rows df) v).

(** [df[mask]]: a new frame with the rows the mask keeps. *)
Definition mask_rows (p : row -> bool) (df : DataFrame) : DataFrame :=
  mkDF (columns df) (List.filter p (rows df)).

(** [df[[c1; ...]]] for columns known to be present. *)
Definition project (cs : list string) (df : DataFrame) : DataFrame :=
  mkDF cs (map (fun r => map (fun c => (c, at_ r c)) cs) (rows df)).

(** [df.head(n)]; a negative [n] is not used by the script. *)
Definition head (n : nat) (df : DataFrame) : DataFrame :=
  mkDF (columns df) (firstn n (rows df)).

(** The numeric reading of a cell in an aggregation: missing values are
    skipped, booleans count as 0 and 1.  Text and timestamps do not occur in
    the columns the script aggregates (the SELECT list fixes their types) and
    are skipped too. *)
Definition to_num (c : cell) : option Q :=
  match c with
  | Num q => Some q
  | Bool true => Some 1%Q
  | Bool false => Some 0%Q
  | _ => None
  end.

(** Equality of cells as Python compares values: numbers by value, True as
    1 and False as 0, and nothing equals a missing value. *)
Definition cell_eqb (a b : cell) : bool :=
  match to_num a, to_num b with
  | Some p, Some q => Qeq_bool p q
  | _, _ =>
    match a, b with
    | Str s, Str t => String.eqb s t
    | Time s, Time t => Z.eqb s t
    | _, _ => false
    end
  end.

Definition notnull (c : cell) : bool :=
  match c with Null => false | _ => true end.

(** [series.isin(values)]: a cell is kept when it equals a listed value;
    unlike [==], a missing cell is kept when the list holds the missing
    value (the multiselects offer it, their options being [unique()]). *)
Definition isin (vals : list cell) (c : cell) : bool :=
  existsb (fun v => match c, v with
                    | Null, Null => true
                    | _, _ => cell_eqb c v
                    end) vals.

Definition Qsum (l : list Q) : Q := fold_right Qplus 0%Q l.

(** Python's [a / b] *)
Definition truediv (a b : Q) : result Q :=
  if Qeq_bool b 0 then Raise ZeroDivisionError else Ok (a / b)%Q.

Definition nums (s : Series) : list Q := omap to_num s.

(** [series.sum()] (skipna), added exactly: equal to the script's float64
    sum where that one is exact (flags, counts, whole amounts), and its
    value before rounding elsewhere. *)
Definition sum (s : Series) : Q := Qsum (nums s).

(** A cell that adds exactly in float64: a whole number, a flag, or a
    cell the sum skips. *)
Definition whole (c : cell) : bool :=
  match to_num c with
  | Some q => Qeq_bool q (inject_Z (Qfloor q))
  | None => true
  end.

(** The model adds exactly.  The script's float64 sums do so too on whole
    numbers whose absolute values add up to at most 2^53, in whatever order
    and grouping they are added; that is the case in which an identity
    between different sums of the same cells is also one of the script. *)
Definition exact_amounts (s : Series) : bool :=
  forallb whole s && Qle_bool (Qsum (map Qabs (nums s))) (inject_Z (2 ^ 53)).

(** [series.count()]: the non-missing cells. *)
Definition count (s : Series) : nat := length (List.filter notnull s).

(** [series.mean()] (skipna); NaN when nothing is left.  The quotient is
    exact, the script's is a float64 division of a float64 sum. *)
Definition mean (s : Series) : cell :=
  match nums s with
  | [] => Null
  | l => Num (Qsum l / inject_Z (Z.of_nat (length l)))
  end.

(** An order on cells for sorting: by kind, then by value. *)
Definition kind (c : cell) : nat :=
  match c with
  | Bool _ => 0 | Num _ => 1 | Time _ => 2 | Str _ => 3 | Null => 4
  end.

Definition cell_leb (a b : cell) : bool :=
  match a, b with
  | Num p, Num q => Qle_bool p q
  | Str s, Str t => String.leb s t
  | Bool x, Bool y => implb x y
  | Time s, Time t => Z.leb s t
  | _, _ => Nat.leb (kind a) (kind b)
  end.

(** Descending order with missing values last ([ascending=False],
    [na_position='last'], also BigQuery's ORDER BY ... DESC). *)
Definition cell_geb_nulls_last (a b : cell) : bool :=
  match a, b with
  | _, Null => true
  | Null, _ => false
  | _, _ => cell_leb b a
  end.

(** Ascending order with missing values first (BigQuery's ORDER BY ... ASC). *)
Definition cell_leb_nulls_first (a b : cell) : bool :=
  match a, b with
  | Null, _ => true
  | _, Null => false
  | _, _ => cell_leb a b
  end.

Definition by_desc (c : string) : relation row :=
  fun r1 r2 => cell_geb_nulls_last (at_ r1 c) (at_ r2 c) = true.

Definition by_asc (c : string) : relation row :=
  fun r1 r2 => cell_leb_nulls_first (at_ r1 c) (at_ r2 c) = true.

#[global] Instance by_desc_dec c r1 r2 : Decision (by_desc c r1 r2).
Proof. unfold by_desc. apply _. Defined.

#[global] Instance by_asc_dec c r1 r2 : Decision (by_asc c r1 r2).
Proof. unfold by_asc. apply _. Defined.

(** [df.sort_values(c, ascending=False)].  The order pandas leaves between
    rows with equal keys is not specified; the model's is merge sort's. *)
Definition sort_values_desc (c : string) (df : DataFrame) : result DataFrame :=
  if has_column c df
  then Ok (mkDF (columns df) (merge_sort (by_desc c) (rows df)))
  else Raise (KeyError c).

(** *** Group-by *)

(** A group key is the tuple of the key columns' cells. *)
Definition key := list cell.

Fixpoint key_eqb (k1 k2 : key) : bool :=
  match k1, k2 with
  | [], [] => true
  | a :: k1', b :: k2' => cell_eqb a b && key_eqb k1' k2'
  | _, _ => false
  end.

Fixpoint key_leb (k1 k2 : key) : bool :=
  match k1, k2 with
  | [], _ => true
  | _ :: _, [] => false
  | a :: k1', b :: k2' =>
      if cell_eqb a b then key_leb k1' k2' else cell_leb a b
  end.

Definition key_le : relation key := fun k1 k2 => key_leb k1 k2 = true.

#[global] Instance key_le_dec k1 k2 : Decision (key_le k1 k2).
Proof. unfold key_le. apply _. Defined.

Definition key_of (by_ : list string) (r : row) : key :=
  map (at_ r) by_.

(** [dropna=True]: a row with a missing value in a key column is in no
    group. *)
Definition keyed (by_ : list string) (r : row) : bool :=
  forallb notnull (key_of by_ r).

Fixpoint nub (l : list key) : list key :=
  match l with
  | [] => []
  | k :: l' => k :: List.filter (fun k' => negb (key_eqb k k')) (nub l')
  end.

(** The group keys, sorted ([sort=True]). *)
Definition group_keys (by_ : list string) (rs : list row) : list key :=
  merge_sort key_le
             (nub (map (key_of by_) (List.filter (keyed by_) rs))).

Definition group (by_ : list string) (rs : list row) (k : key) : list row :=
  List.filter (fun r => key_eqb (key_of by_ r) k) rs.

Inductive aggfunc := AggSum | AggMean | AggCount.

Definition agg_apply (f : aggfunc) (s : Series) : cell :=
  match f with
  | AggSum => Num (sum s)
  | AggMean => mean s
  | AggCount => Num (inject_Z (Z.of_nat (count s)))
  end.

(** The aggregation dictionary [{col: [f1; ...]; ...}]. *)
Definition aggspec := list (string * list aggfunc).

Definition agg_cells (spec : aggspec) (g : list row) : list cell :=
  flat_map (fun '(c, fs) => map (fun f => agg_apply f (map (fun r => at_ r c) g)) fs) spec.

Definition missing_columns (cs : list string) (df : DataFrame) : list string :=
  List.filter (fun c => negb (has_column c df)) cs.

(** [df.groupby(by).agg(spec).reset_index()] followed by
    [.columns = names].  A key column that is absent, or a column of the
    dictionary that is absent, raises KeyError whatever function is asked of
    it; a list of names of the wrong length raises ValueError. *)
Definition groupby_agg (by_ : list string) (spec : aggspec) (names : list string)
    (df : DataFrame) : result DataFrame :=
  match missing_columns by_ df with
  | c :: _ => Raise (KeyError c)
  | [] =>
    match missing_columns (map fst spec) df with
    | c :: _ => Raise (KeyError ("Column(s) do not exist: " ++ c))
    | [] =>
      if Nat.eqb (length names) (length by_ + length (flat_map snd spec))
      then Ok (mkDF names
                 (map (fun k => combine names (k ++ agg_cells spec (group by_ (rows df) k)))
                      (group_keys by_ (rows df))))
      else Raise (ValueError "Length mismatch")
    end
  end.

Definition more_frequent : relation (cell * nat) :=
  fun a b => Nat.leb (snd b) (snd a) = true.

#[global] Instance more_frequent_dec a b : Decision (more_frequent a b).
Proof. unfold more_frequent. apply _. Defined.

(** [series.value_counts()]: the distinct non-missing values with their
    frequencies, most frequent first. *)
Definition value_counts (s : Series) : list (cell * nat) :=
  let vals := List.filter notnull s in
  let ks := nub (map (fun c => [c]) vals) in
  merge_sort more_frequent
    (map (fun k => (hd Null k, length (List.filter (fun c => key_eqb [c] k) vals))) ks).

(** [pd.to_datetime] on a cell: a timestamp is kept, a missing value is NaT,
    a number is an epoch offset.  Text is refused here; pandas would try to
    parse it, but [processed_time] is a TIMESTAMP of the table and arrives
    as timestamps. *)
Definition to_datetime (c : cell) : result cell :=
  match c with
  | Time t => Ok (Time t)
  | Null => Ok Null
  | Num q => Ok (Time (Qfloor q))
  | Str s => Raise (ValueError ("Unknown datetime string format: " ++ s))
  | Bool _ => Raise (ValueError "bool is not convertible to datetime")
  end.

(** [.dt.floor('H')], timestamps counted in seconds. *)
Definition floor_hour (c : cell) : cell :=
  match c with
  | Time t => Time (t - t mod 3600)%Z
  | _ => Null
  end.

(** [df[c]] once [c in df.columns] has been checked. *)
Definition col (df : DataFrame) (c : string) : Series :=
  map (fun r => at_ r c) (rows df).

Fixpoint traverse {A B} (f : A -> result B) (l : list A) : result (list B) :=
  match l with
  | [] => Ok []
  | a :: l' => rbind (f a) (fun b => rbind (traverse f l') (fun bs => Ok (b :: bs)))
  end.

(** *** Pivot tables *)

(** A pivot has cell-valued row and column labels. *)
Record Pivot := mkPivot {
  pindex : list cell;
  pcolumns : list cell;
  pvalues : list (list Q)
}.

Definition levels (c : string) (rs : list row) : list cell :=
  map (hd Null) (group_keys [c] rs).

(** [df.pivot_table(index=i, columns=c, values=v, aggfunc='sum',
    fill_value=0)]: rows with a missing label are left out, labels are
    sorted. *)
Definition pivot_table (i c v : string) (df : DataFrame) : result Pivot :=
  match missing_columns [v; i; c] df with
  | m :: _ => Raise (KeyError m)
  | [] =>
    let rs := List.filter (keyed [i; c]) (rows df) in
    let cs := levels c rs in
    let is_ := levels i rs in
    Ok (mkPivot is_ cs
          (map (fun x => map (fun y => sum (map (fun r => at_ r v) (group [i; c] rs [x; y]))) cs) is_))
  end.

(** [pivot[labels]]: the listed columns, in the order listed. *)
Definition pivot_select (labels : list cell) (p : Pivot) : Pivot :=
  mkPivot (pindex p) labels
    (map (fun vs =>
            map (fun l => Qsum (map snd (List.filter (fun cv => cell_eqb (fst cv) l)
                                           (combine (pcolumns p) vs)))) labels)
         (pvalues p)).

End Pandas.

(** ** The warehouse behind [client.query(...).to_dataframe()] *)

Module BigQuery.
Import Pandas.

Inductive direction := Asc | Desc.

(** The queries the script sends all have the shape
    [SELECT cols FROM relation ORDER BY col dir LIMIT n]. *)
Record select := mkSelect {
  sel_columns : option (list string);      (* None: SELECT * *)
  sel_from : string;
  sel_order_by : option (string * direction);
  sel_limit : option Z
}.

(** Tables and views by fully qualified name. *)
Abbreviation warehouse := (gmap string DataFrame).

Definition order_rows (ob : option (string * direction)) (rs : list row) : list row :=
  match ob with
  | None => rs
  | Some (c, Desc) => merge_sort (by_desc c) rs
  | Some (c, Asc) => merge_sort (by_asc c) rs
  end.

Definition limit_rows (l : option Z) (rs : list row) : list row :=
  match l with
  | None => rs
  | Some n => firstn (Z.to_nat n) rs
  end.

Definition referenced (q : select) (t : DataFrame) : list string :=
  default (columns t) (sel_columns q) ++
  match sel_order_by q with Some (c, _) => [c] | None => [] end.

(** A relation that does not exist, a name it does not have, or a negative
    LIMIT makes the query fail; BigQuery leaves the order between rows with
    equal sort keys open, the model's is merge sort's. *)
Definition run_query (w : warehouse) (q : select) : result DataFrame :=
  match w !! sel_from q with
  | None => Raise (WarehouseError ("Not found: " ++ sel_from q))
  | Some t =>
    match missing_columns (referenced q t) t with
    | c :: _ => Raise (WarehouseError ("Unrecognized name: " ++ c))
    | [] =>
      match sel_limit q with
      | Some (Zneg _) => Raise (WarehouseError "LIMIT expects a non-negative integer")
      | _ =>
        Ok (project (default (columns t) (sel_columns q))
              (mkDF (columns t)
                    (limit_rows (sel_limit q) (order_rows (sel_order_by q) (rows t)))))
      end
    end
  end.

End BigQuery.

(** ** The Streamlit runtime: output, object store, data cache *)

Module Streamlit.
Import Pandas.

(** What a run writes to the page. *)
Inductive event :=
| StWarning (msg : string)
| StError (msg : string)
| StInfo (msg : string)
| StSuccess (msg : string)
| StMetric (label : string) (value : cell) (delta : option cell)
| StPlot (title : string)
| StDataframe (df : DataFrame)
| StCaption (shown total : nat)
| StException (e : exn).

(** Frames are Python objects: a variable holds a reference, and an
    assignment to a column changes the object every alias sees. *)
Abbreviation loc := nat.

(** A cached call: the function's name and its argument values. *)
Abbreviation cache_key := (string * list Z)%type.

Record entry := mkEntry {
  payload : DataFrame;
  fetched : Z
}.

Record state := mkState {
  heap : gmap loc DataFrame;
  log : list event;
  cache : gmap cache_key entry
}.

Definition M (A : Type) : Type := state -> result A * state.

Definition ret {A} (a : A) : M A := fun s => (Ok a, s).

Definition bind {A B} (m : M A) (k : A -> M B) : M B :=
  fun s =>
    match m s with
    | (Ok a, s') => k a s'
    | (Raise e, s') => (Raise e, s')
    end.

Definition raise {A} (e : exn) : M A := fun s => (Raise e, s).

(** [try: body except Exception as e: handler(e)] *)
Definition try_except {A} (body : M A) (handler : exn -> M A) : M A :=
  fun s =>
    match body s with
    | (Ok a, s') => (Ok a, s')
    | (Raise e, s') => handler e s'
    end.

(** A pandas call that may raise. *)
Definition lift {A} (r : result A) : M A := fun s => (r, s).

Definition emit (e : event) : M unit :=
  fun s => (Ok tt, mkState (heap s) (log s ++ [e]) (cache s)).

(** Object store. *)
Definition alloc (df : DataFrame) : M loc :=
  fun s =>
    let l := fresh (dom (heap s)) in
    (Ok l, mkState (<[l := df]> (heap s)) (log s) (cache s)).

Definition deref (l : loc) : M DataFrame :=
  fun s => (Ok (default empty_frame (heap s !! l)), s).

Definition assign (l : loc) (df : DataFrame) : M unit :=
  fun s => (Ok tt, mkState (<[l := df]> (heap s)) (log s) (cache s)).

(** [df.copy()]: a new object with the same content. *)
Definition copy (l : loc) : M loc :=
  bind (deref l) alloc.

(** An entry is live while its age is below the ttl. *)
Definition live (now ttl : Z) (e : entry) : bool :=
  (now - fetched e <? ttl)%Z.

Definition cache_lookup (now ttl : Z) (k : cache_key) (s : state) : option DataFrame :=
  match cache s !! k with
  | Some e => if live now ttl e then Some (payload e) else None
  | None => None
  end.

(** Whether a call at [now] runs the wrapped function: it does exactly when
    no live entry answers it. *)
Definition invokes (now ttl : Z) (k : cache_key) (s : state) : bool :=
  match cache_lookup now ttl k s with
  | Some _ => false
  | None => true
  end.

Definition cache_store (now : Z) (k : cache_key) (df : DataFrame) (s : state) : state :=
  mkState (heap s) (log s) (<[k := mkEntry df now]> (cache s)).

(** Modelled from the spec: the data cache behind [@st.cache_data(ttl=...)]
    is Streamlit's and its code is not part of the script.  Section 4.1
    gives the contract followed here: a live entry is returned without
    running the function; otherwise the function runs and its result is
    stored with the current time; when the function fails nothing is
    stored. *)
Definition cache_data (now ttl : Z) (k : cache_key) (f : M DataFrame) : M DataFrame :=
  fun s =>
    match cache_lookup now ttl k s with
    | Some df => (Ok df, s)
    | None =>
      match f s with
      | (Ok df, s') => (Ok df, cache_store now k df s')
      | (Raise e, s') => (Raise e, s')
      end
    end.

(** Modelled from the spec: [st.cache_data.clear()] evicts every entry. *)
Definition cache_clear : M unit :=
  fun s => (Ok tt, mkState (heap s) (log s) ∅).

(** A call is served from the cache when its outcome does not depend on
    the wrapped function: whatever function is given, the call returns the
    same value and leaves the same state, so the function is not run. *)
Definition served (now ttl : Z) (k : cache_key) (s : state) : Prop :=
  forall f g : M DataFrame, cache_data now ttl k f s = cache_data now ttl k g s.

End Streamlit.

(** ** The dashboard script *)

Module Dashboard.
Import Pandas BigQuery Streamlit.

Notation "'let*' x ':=' m 'in' k" := (bind m (fun x => k))
  (at level 10, x name, m at level 100, k at level 200).
Notation "m >> k" := (bind m (fun _ => k))
  (at level 100, k at level 200, right associativity).

(** What a run reads from outside: the configuration, the outcome of client
    creation ([Some e]: it raises [e]), the warehouse, the time of the run. *)
Record env := mkEnv {
  PROJECT_ID : string;
  DATASET : string;
  TABLE : string;
  auth : option exn;
  wh : warehouse;
  now : Z
}.

(** The state of the page's widgets. *)
Record widgets := mkWidgets {
  auto_refresh : bool;
  refresh_interval : Z;
  refresh_now : bool;
  categories_filter : list cell;
  locations_filter : list cell;
  limit_display : nat
}.

Definition lower_ascii (a : ascii) : ascii :=
  let n := nat_of_ascii a in
  if Nat.leb 65 n && Nat.leb n 90 then ascii_of_nat (n + 32) else a.

Fixpoint lower (s : string) : string :=
  match s with
  | EmptyString => EmptyString
  | String a s' => String (lower_ascii a) (lower s')
  end.

(** [needle in hay] *)
Definition contains (needle hay : string) : bool :=
  match String.index 0 needle hay with
  | Some _ => true
  | None => false
  end.

(** [px.bar(df, x=..., y=..., ...)] and the like: a column name that the
    frame does not have is refused. *)
Definition px_chart (title : string) (df : DataFrame) (cols : list string) : M unit :=
  match missing_columns cols df with
  | c :: _ => raise (ValueError ("Value of argument is not the name of a column: " ++ c))
  | [] => emit (StPlot title)
  end.

Definition when (b : bool) (m : M unit) : M unit :=
  if b then m else ret tt.

Section Script.
Context (E : env).

Definition relation_name (t : string) : string :=
  PROJECT_ID E ++ "." ++ DATASET E ++ "." ++ t.

(** Client creation, from the point where the secrets have been read:
    [auth E] is the outcome of the three credential options, and a refusal
    is reported and raised again (the outer [except], lines 121 to 157).
    The two messages that a malformed secrets file gets before that
    (lines 59 and 60) are not modelled. *)
Definition init_bigquery_client : M unit :=
  match auth E with
  | None => ret tt
  | Some e =>
    let error_msg := str_of_exn e in
    emit (StError ("❌ Erreur d'authentification BigQuery: " ++ error_msg)) >>
    when (negb (contains "secrets.toml" error_msg || contains "parsing" (lower error_msg)
                || contains "TOML" error_msg)
          && (contains "403" error_msg || contains "401" error_msg
              || contains "CREDENTIALS" error_msg))
         (emit (StError "**Problème d'authentification détecté**")) >>
    raise e
  end.

Definition orders_columns : list string :=
  ["customer_id"; "age"; "gender"; "category"; "item_purchased";
   "purchase_amount_usd"; "location"; "review_rating"; "subscription_status";
   "payment_method"; "processed_time"; "final_amount_usd"; "amount_category";
   "customer_segment"; "satisfaction_level"; "is_anomaly"; "estimated_clv";
   "frequency_category"; "estimated_profit_usd"; "season_type"; "loyalty_score"].

Definition orders_query (limit : Z) : select :=
  mkSelect (Some orders_columns) (relation_name (TABLE E))
           (Some ("processed_time", Desc)) (Some limit).

(** The body of [fetch_latest_orders]: the client is created outside the
    [try], the query runs inside it. *)
Definition fetch_latest_orders_body (limit : Z) : M DataFrame :=
  init_bigquery_client >>
  match run_query (wh E) (orders_query limit) with
  | Ok df => ret df
  | Raise e =>
    let error_msg := str_of_exn e in
    (if contains "db-dtypes" (lower error_msg)
     then emit (StError "❌ **Package manquant : db-dtypes**")
     else emit (StError ("Erreur lors de la récupération des commandes: " ++ error_msg))) >>
    ret empty_frame
  end.

(** [def fetch_latest_orders(limit=1000)] *)
Definition fetch_latest_orders_default_limit : Z := 1000.

(** [@st.cache_data(ttl=10)] *)
Definition orders_ttl : Z := 10.

(** [@st.cache_data(ttl=30)] on each of the four view fetches. *)
Definition view_ttl : Z := 30.

Definition fetch_latest_orders (limit : option Z) : M DataFrame :=
  let limit := default fetch_latest_orders_default_limit limit in
  cache_data (now E) orders_ttl ("fetch_latest_orders", [limit])
             (fetch_latest_orders_body limit).

Definition view_body (view : string) (order : option (string * direction))
    (limit : option Z) : M DataFrame :=
  init_bigquery_client >>
  match run_query (wh E) (mkSelect None (relation_name view) order limit) with
  | Ok df => ret df
  | Raise e =>
    emit (StWarning ("Vue " ++ view ++ " non disponible: " ++ str_of_exn e)) >>
    ret empty_frame
  end.

Definition fetch_age_preferences : M DataFrame :=
  cache_data (now E) view_ttl ("fetch_age_preferences", [])
    (view_body "v_age_preferences" (Some ("age_bucket", Asc)) None).

Definition fetch_gender_preferences : M DataFrame :=
  cache_data (now E) view_ttl ("fetch_gender_preferences", [])
    (view_body "v_gender_preferences" None None).

Definition fetch_location_preferences : M DataFrame :=
  cache_data (now E) view_ttl ("fetch_location_preferences", [])
    (view_body "v_location_preferences" (Some ("orders", Desc)) None).

Definition fetch_age_gender_category : M DataFrame :=
  cache_data (now E) view_ttl ("fetch_age_gender_category", [])
    (view_body "v_age_gender_category" (Some ("orders", Desc)) (Some 50%Z)).

(** *** Headline metrics *)

Definition total_orders (df : DataFrame) : nat := len df.

Definition total_revenue (df : DataFrame) : Q :=
  if has_column "purchase_amount_usd" df then sum (col df "purchase_amount_usd") else 0%Q.

Definition avg_order_value (df : DataFrame) : cell :=
  if has_column "purchase_amount_usd" df then mean (col df "purchase_amount_usd") else Num 0.

Definition avg_rating (df : DataFrame) : cell :=
  if has_column "review_rating" df then mean (col df "review_rating") else Num 0.

Definition anomalies_count (df : DataFrame) : Q :=
  if has_column "is_anomaly" df then sum (col df "is_anomaly") else 0%Q.

Definition total_profit (df : DataFrame) : Q :=
  if has_column "estimated_profit_usd" df then sum (col df "estimated_profit_usd") else 0%Q.

Definition is_ (c : string) (v : cell) (r : row) : bool :=
  cell_eqb (at_ r c) v.

Definition vip_customers (df : DataFrame) : nat :=
  if has_column "customer_segment" df
  then len (mask_rows (is_ "customer_segment" (Str "VIP")) df)
  else 0.

Definition final_revenue (df : DataFrame) : Q :=
  if has_column "final_amount_usd" df then sum (col df "final_amount_usd")
  else total_revenue df.

Definition Qnat (n : nat) : Q := inject_Z (Z.of_nat n).

(** The delta under the anomaly count: its share of the orders, in percent. *)
Definition anomalies_delta (df : DataFrame) : result cell :=
  if Nat.ltb 0 (total_orders df)
  then rbind (truediv (anomalies_count df) (Qnat (total_orders df)))
             (fun share => Ok (Num (share * 100)))
  else Ok (Str "0%").

Definition headline (orders_df : loc) : M unit :=
  let* df := deref orders_df in
  emit (StMetric "Total Commandes" (Num (Qnat (total_orders df))) None) >>
  emit (StMetric "Revenus Total" (Num (total_revenue df)) None) >>
  emit (StMetric "Panier Moyen" (avg_order_value df) None) >>
  emit (StMetric "Note Moyenne" (avg_rating df) None) >>
  let* delta := lift (anomalies_delta df) in
  emit (StMetric "🚨 Anomalies" (Num (anomalies_count df)) (Some delta)) >>
  emit (StMetric "💰 Profit Estimé" (Num (total_profit df)) None) >>
  emit (StMetric "👑 Clients VIP" (Num (Qnat (vip_customers df))) None) >>
  emit (StMetric "💵 Revenus Finaux" (Num (final_revenue df)) None).

Definition headline_labels : list string :=
  ["Total Commandes"; "Revenus Total"; "Panier Moyen"; "Note Moyenne";
   "🚨 Anomalies"; "💰 Profit Estimé"; "👑 Clients VIP"; "💵 Revenus Finaux"].

(** The headline metrics among the events of a run. *)
Definition is_headline (e : event) : bool :=
  match e with
  | StMetric label _ _ => existsb (String.eqb label) headline_labels
  | _ => false
  end.

Definition headline_of (s : state) : list event :=
  List.filter is_headline (log s).

(** *** Tab 1: overview *)

(** The hourly series are built on the fetched frame itself: the timestamp
    column is converted and a column [hour] is added to [orders_df]. *)
Definition tab1 (orders_df : loc) : M unit :=
  let* df := deref orders_df in
  when (has_column "processed_time" df)
    (let* ts := lift (traverse to_datetime (col df "processed_time")) in
     assign orders_df (setitem "processed_time" ts df) >>
     let* df := deref orders_df in
     assign orders_df (setitem "hour" (map floor_hour (col df "processed_time")) df) >>
     let* df := deref orders_df in
     let* hourly_orders :=
       lift (groupby_agg ["hour"] [("purchase_amount_usd", [AggCount; AggSum])]
                         ["hour"; "count"; "revenue"] df) in
     emit (StPlot "Évolution du nombre de commandes (par heure)") >>
     emit (StPlot "Évolution des revenus (par heure)")) >>
  let* df := deref orders_df in
  let* category := lift (getitem df "category") in
  let category_counts := firstn 10 (value_counts category) in
  emit (StPlot "Top 10 Catégories (Volume)") >>
  let* category_revenue :=
    lift (rbind (groupby_agg ["category"] [("purchase_amount_usd", [AggSum])]
                             ["category"; "purchase_amount_usd"] df)
                (fun t => rbind (sort_values_desc "purchase_amount_usd" t)
                                (fun t => Ok (head 10 t)))) in
  emit (StPlot "Top 10 Catégories (Revenus)") >>
  px_chart "Distribution des montants de commandes" df ["purchase_amount_usd"].

(** *** Tabs 2 to 5: the pre-aggregated views *)

Definition tab2 : M unit :=
  let* age_df := fetch_age_preferences in
  if negb (empty age_df) then
    px_chart "Nombre de commandes par tranche d'âge" age_df ["age_bucket"; "orders"] >>
    px_chart "Dépense moyenne par tranche d'âge" age_df ["age_bucket"; "avg_spend"] >>
    px_chart "Note moyenne par tranche d'âge" age_df ["age_bucket"; "avg_rating"] >>
    when (has_column "top_category" age_df)
      (px_chart "Catégorie préférée par tranche d'âge" age_df ["age_bucket"; "top_category"]) >>
    emit (StDataframe age_df)
  else
    emit (StInfo "Les vues analytiques ne sont pas encore disponibles. Assurez-vous que les vues BigQuery sont créées.").

Definition tab3 : M unit :=
  let* gender_df := fetch_gender_preferences in
  if negb (empty gender_df) then
    px_chart "Répartition des commandes par genre" gender_df ["orders"; "gender"] >>
    px_chart "Dépense moyenne par genre" gender_df ["gender"; "avg_spend"] >>
    px_chart "Note moyenne par genre" gender_df ["gender"; "avg_rating"] >>
    when (has_column "top_category" gender_df)
      (px_chart "Catégorie préférée par genre" gender_df ["gender"; "top_category"]) >>
    emit (StDataframe gender_df)
  else
    emit (StInfo "Les vues analytiques ne sont pas encore disponibles.").

Definition tab4 : M unit :=
  let* location_df := fetch_location_preferences in
  if negb (empty location_df) then
    px_chart "Top 20 Localisations (Nombre de commandes)" (head 20 location_df)
             ["location"; "orders"] >>
    px_chart "Dépense moyenne par localisation (Top 15)" (head 15 location_df)
             ["location"; "avg_spend"] >>
    when (Nat.ltb 0 (len location_df))
      (px_chart "Répartition des commandes par localisation (Treemap)" (head 20 location_df)
                ["location"; "orders"; "avg_spend"]) >>
    emit (StDataframe location_df)
  else
    emit (StInfo "Les vues analytiques ne sont pas encore disponibles.").

Definition tab5 : M unit :=
  let* age_gender_df := fetch_age_gender_category in
  if negb (empty age_gender_df) then
    let* pivot_df := lift (pivot_table "age_bucket" "gender" "orders" age_gender_df) in
    emit (StPlot "Heatmap: Commandes par Âge et Genre") >>
    px_chart "Commandes par Catégorie, Genre et Âge (Top 30)" (head 30 age_gender_df)
             ["category"; "orders"; "gender"; "age_bucket"] >>
    emit (StDataframe age_gender_df)
  else
    emit (StInfo "Les vues analytiques ne sont pas encore disponibles.").

(** *** Tab 6: VIP customers with Premium purchases *)

Definition vip_premium (df : DataFrame) : DataFrame :=
  mask_rows (fun r => is_ "customer_segment" (Str "VIP") r
                      && is_ "amount_category" (Str "Premium") r) df.

(** The per-category breakdown.  The dictionary names [estimated_clv]
    whether or not the frame has it; only the function asked of it changes. *)
Definition vip_category (vip_premium_df : DataFrame) : result DataFrame :=
  rbind (groupby_agg ["category"]
           [("purchase_amount_usd", [AggCount; AggSum; AggMean]);
            ("estimated_clv",
             [if has_column "estimated_clv" vip_premium_df then AggMean else AggCount])]
           ["category"; "count"; "total_revenue"; "avg_amount"; "avg_clv"]
           vip_premium_df)
        (sort_values_desc "total_revenue").

Definition display_cols_vip : list string :=
  ["processed_time"; "customer_id"; "category"; "item_purchased";
   "purchase_amount_usd"; "estimated_clv"; "loyalty_score";
   "frequency_category"; "location"].

Definition available (cs : list string) (df : DataFrame) : list string :=
  List.filter (fun c => has_column c df) cs.

Definition tab6 (orders_df : loc) : M unit :=
  let* df := deref orders_df in
  if has_column "customer_segment" df && has_column "amount_category" df then
    let vip_premium_df := vip_premium df in
    if negb (empty vip_premium_df) then
      emit (StMetric "Nombre de transactions VIP Premium"
                     (Num (Qnat (len vip_premium_df))) None) >>
      let* amount := lift (getitem vip_premium_df "purchase_amount_usd") in
      emit (StMetric "Revenus VIP Premium" (Num (sum amount)) None) >>
      let avg_vip_premium := mean amount in
      let avg_clv_vip :=
        if has_column "estimated_clv" vip_premium_df
        then mean (col vip_premium_df "estimated_clv") else Num 0 in
      emit (StMetric "Panier Moyen VIP Premium" avg_vip_premium None) >>
      emit (StMetric "CLV Moyen" avg_clv_vip None) >>
      let* by_category := lift (vip_category vip_premium_df) in
      px_chart "Revenus par Catégorie (VIP Premium)" by_category
               ["category"; "total_revenue"] >>
      when (has_column "loyalty_score" vip_premium_df)
        (let loyalty_dist := value_counts (col vip_premium_df "loyalty_score") in
         emit (StPlot "Répartition par Score de Fidélité (VIP Premium)")) >>
      emit (StDataframe
              (head 100 (project (available display_cols_vip vip_premium_df) vip_premium_df)))
    else emit (StInfo "Aucune transaction VIP Premium trouvée.")
  else
    emit (StWarning "Les colonnes customer_segment et amount_category ne sont pas disponibles.").

(** *** Tab 7: anomalies *)

Definition anomalies (df : DataFrame) : DataFrame :=
  mask_rows (is_ "is_anomaly" (Bool true)) df.

(** [(len(anomalies_df) / len(orders_df)) * 100 if len(orders_df) > 0 else 0] *)
Definition anomaly_rate (anomalies_df orders_df : DataFrame) : result Q :=
  if Nat.ltb 0 (len orders_df)
  then rbind (truediv (Qnat (len anomalies_df)) (Qnat (len orders_df)))
             (fun share => Ok (share * 100)%Q)
  else Ok 0%Q.

Definition anom_by (c : string) (anomalies_df : DataFrame) : result DataFrame :=
  rbind (groupby_agg [c] [("purchase_amount_usd", [AggCount; AggSum])]
                     [c; "count"; "total"] anomalies_df)
        (sort_values_desc "total").

Definition display_cols_anom : list string :=
  ["processed_time"; "customer_id"; "category"; "purchase_amount_usd";
   "amount_category"; "location"; "customer_segment"; "payment_method"].

Definition tab7 (orders_df : loc) : M unit :=
  let* df := deref orders_df in
  if has_column "is_anomaly" df then
    let anomalies_df := anomalies df in
    if negb (empty anomalies_df) then
      emit (StMetric "🚨 Transactions Anormales" (Num (Qnat (len anomalies_df))) None) >>
      let* rate := lift (anomaly_rate anomalies_df df) in
      emit (StMetric "Taux d'Anomalies" (Num rate) None) >>
      let* amount := lift (getitem anomalies_df "purchase_amount_usd") in
      emit (StMetric "Montant Total Anormal" (Num (sum amount)) None) >>
      let* anom_by_category := lift (anom_by "category" anomalies_df) in
      px_chart "Montant des Anomalies par Catégorie" anom_by_category ["category"; "total"] >>
      px_chart "Distribution des Montants d'Anomalies" anomalies_df ["purchase_amount_usd"] >>
      when (has_column "location" anomalies_df)
        (let* anom_by_location :=
           lift (rbind (anom_by "location" anomalies_df) (fun t => Ok (head 15 t))) in
         px_chart "Nombre d'Anomalies par Localisation (Top 15)" anom_by_location
                  ["location"; "count"]) >>
      emit (StDataframe (project (available display_cols_anom anomalies_df) anomalies_df))
    else emit (StSuccess "✅ Aucune anomalie détectée dans les données.")
  else emit (StWarning "La colonne is_anomaly n'est pas disponible.").

(** *** Tab 8: segments and satisfaction *)

(** The revenue table by customer segment.  As in [vip_category], the
    dictionary names [estimated_profit_usd] whether or not it is there. *)
Definition revenue_by_segment (df : DataFrame) : result DataFrame :=
  rbind (groupby_agg ["customer_segment"]
           [("purchase_amount_usd", [AggSum; AggMean; AggCount]);
            ("estimated_profit_usd",
             [if has_column "estimated_profit_usd" df then AggSum else AggCount])]
           ["segment"; "total_revenue"; "avg_revenue"; "count"; "total_profit"]
           df)
        (sort_values_desc "total_revenue").

Definition satisfaction_by_category (df : DataFrame) : result DataFrame :=
  groupby_agg ["category"; "satisfaction_level"]
    [("purchase_amount_usd", [AggCount; AggSum])]
    ["category"; "satisfaction_level"; "count"; "revenue"] df.

Definition satisfaction_order : list string :=
  ["Very Satisfied"; "Satisfied"; "Neutral"; "Dissatisfied"].

(** The satisfaction heat map's table: the pivot, then its columns put in
    the fixed order when at least one of the four levels is among them. *)
Definition pivot_satisfaction (by_cat : DataFrame) : result Pivot :=
  rbind (pivot_table "category" "satisfaction_level" "count" by_cat) (fun pivot =>
  let available_levels :=
    List.filter (fun level => existsb (cell_eqb (Str level)) (pcolumns pivot))
                satisfaction_order in
  match available_levels with
  | [] => Ok pivot
  | _ => Ok (pivot_select (map Str available_levels) pivot)
  end).

Definition tab8 (orders_df : loc) : M unit :=
  let* df := deref orders_df in
  (if has_column "customer_segment" df then
     let* by_segment := lift (revenue_by_segment df) in
     px_chart "Revenus Totaux par Segment" by_segment ["segment"; "total_revenue"] >>
     px_chart "Nombre de Commandes par Segment" by_segment ["segment"; "count"] >>
     emit (StDataframe by_segment)
   else emit (StWarning "La colonne customer_segment n'est pas disponible.")) >>
  (if has_column "satisfaction_level" df && has_column "category" df then
     let* by_cat := lift (satisfaction_by_category df) in
     let* pivot := lift (pivot_satisfaction by_cat) in
     emit (StPlot "Heatmap: Satisfaction par Catégorie") >>
     let satisfaction_dist := value_counts (col df "satisfaction_level") in
     emit (StPlot "Répartition Globale de la Satisfaction") >>
     px_chart "Nombre de Commandes par Catégorie et Niveau de Satisfaction" by_cat
              ["category"; "count"; "satisfaction_level"] >>
     let* sorted := lift (sort_values_desc "count" by_cat) in
     emit (StDataframe sorted)
   else emit (StWarning "Les colonnes satisfaction_level et category ne sont pas disponibles.")) >>
  when (has_column "amount_category" df)
    (let amount_cat_dist := value_counts (col df "amount_category") in
     emit (StPlot "Répartition des Commandes par Catégorie de Montant")) >>
  when (has_column "frequency_category" df)
    (let freq_dist := value_counts (col df "frequency_category") in
     emit (StPlot "Répartition par Catégorie de Fréquence")).

(** *** The table of the latest orders: filters and display *)

Definition display_columns : list string :=
  ["processed_time"; "customer_id"; "category"; "item_purchased";
   "purchase_amount_usd"; "final_amount_usd"; "amount_category";
   "customer_segment"; "satisfaction_level"; "is_anomaly";
   "location"; "review_rating"].

(** [df = df[df[c].isin(subset)]] when the subset is not empty. *)
Definition filter_isin (c : string) (subset : list cell) (filtered_df : loc) : M loc :=
  match subset with
  | [] => ret filtered_df
  | _ =>
    let* f := deref filtered_df in
    let* _ := lift (getitem f c) in
    alloc (mask_rows (fun r => isin subset (at_ r c)) f)
  end.

(** The filter engine: a copy of the fetched frame, narrowed by each
    non-empty subset. *)
Definition apply_filters (orders_df : loc) (cats locs : list cell) : M loc :=
  let* filtered_df := copy orders_df in
  let* filtered_df := filter_isin "category" cats filtered_df in
  filter_isin "location" locs filtered_df.

Definition latest_orders (orders_df : loc) (W : widgets) : M unit :=
  let* filtered_df := apply_filters orders_df (categories_filter W) (locations_filter W) in
  let* f := deref filtered_df in
  emit (StDataframe (head (limit_display W) (project (available display_columns f) f))) >>
  emit (StCaption (Nat.min (limit_display W) (len f)) (len f)).

(** *** One run of the script *)

Definition sidebar (W : widgets) : M unit :=
  when (refresh_now W)
    (cache_clear >> emit (StSuccess "Données actualisées!")).

Definition no_data : string :=
  "⚠️ Aucune donnée trouvée dans BigQuery. Vérifiez que le Consumer a traité des fichiers.".

Definition render (orders_df : loc) (W : widgets) : M unit :=
  headline orders_df >>
  tab1 orders_df >> tab2 >> tab3 >> tab4 >> tab5 >>
  tab6 orders_df >> tab7 orders_df >> tab8 orders_df >>
  latest_orders orders_df W.

Definition metrics (W : widgets) : M unit :=
  let* df := fetch_latest_orders (Some 10000%Z) in
  let* orders_df := alloc df in
  if empty df then emit (StWarning no_data)
  else render orders_df W.

Definition on_error (e : exn) : M unit :=
  emit (StError ("Erreur lors de la récupération des données: " ++ str_of_exn e)) >>
  emit (StException e) >>
  emit (StInfo "💡 Vérifiez votre configuration BigQuery et vos credentials GCP").

Definition script (W : widgets) : M unit :=
  sidebar W >> try_except (metrics W) on_error.

(** [time.sleep(refresh_interval); st.rerun()]: the time of the next run,
    when there is one without a user action. *)
Definition rerun_at (W : widgets) : option Z :=
  if auto_refresh W then Some (now E + refresh_interval W)%Z else None.

End Script.
End Dashboard.

(** * Properties *)

Import Pandas BigQuery Streamlit Dashboard.

(** ** The object store *)

Section Store.

(** A computation keeps the object at [l] when it leaves it as it found it,
    however it ends. *)
Definition keeps {A} (l : loc) (m : M A) : Prop :=
  forall s df, heap s !! l = Some df -> heap (snd (m s)) !! l = Some df.

Lemma keeps_ret {A} l (a : A) : keeps l (ret a).
Proof. intros s df H. exact H. Qed.

Lemma keeps_raise {A} l e : keeps l (@raise A e).
Proof. intros s df H. exact H. Qed.

Lemma keeps_lift {A} l (r : result A) : keeps l (lift r).
Proof. intros s df H. exact H. Qed.

Lemma keeps_emit l e : keeps l (emit e).
Proof. intros s df H. exact H. Qed.

Lemma keeps_deref l l' : keeps l (deref l').
Proof. intros s df H. exact H. Qed.

Lemma keeps_alloc l df' : keeps l (alloc df').
Proof.
  intros s df H. cbn.
  rewrite lookup_insert_ne; [exact H|].
  intros Heq. pose proof (is_fresh (dom (heap s))) as Hf.
  rewrite Heq in Hf. apply Hf, elem_of_dom. eauto.
Qed.

Lemma keeps_bind {A B} l (m : M A) (k : A -> M B) :
  keeps l m -> (forall a, keeps l (k a)) -> keeps l (bind m k).
Proof.
  intros Hm Hk s df H. unfold bind.
  specialize (Hm s df H). destruct (m s) as [[a|e] s']; cbn in *.
  - apply Hk, Hm.
  - exact Hm.
Qed.

Lemma keeps_copy l l' : keeps l (copy l').
Proof. apply keeps_bind; [apply keeps_deref | intros; apply keeps_alloc]. Qed.

Lemma keeps_filter_isin l c subset f : keeps l (filter_isin c subset f).
Proof.
  destruct subset; cbn; [apply keeps_ret|].
  apply keeps_bind; [apply keeps_deref|]; intros.
  apply keeps_bind; [apply keeps_lift|]; intros.
  apply keeps_alloc.
Qed.

Lemma keeps_apply_filters l orders_df cats locs :
  keeps l (apply_filters orders_df cats locs).
Proof.
  apply keeps_bind; [apply keeps_copy|]; intros.
  apply keeps_bind; apply keeps_filter_isin || (intros; apply keeps_filter_isin).
Qed.

Lemma keeps_latest_orders l orders_df W : keeps l (latest_orders orders_df W).
Proof.
  apply keeps_bind; [apply keeps_apply_filters|]; intros.
  apply keeps_bind; [apply keeps_deref|]; intros.
  apply keeps_bind; [apply keeps_emit|]; intros.
  apply keeps_emit.
Qed.

End Store.

(** A one-order table with a timestamp, and a run over it. *)
Definition one_order : DataFrame :=
  mkDF ["processed_time"; "category"; "purchase_amount_usd"]
       [[("processed_time", Time 7200); ("category", Str "Shoes");
         ("purchase_amount_usd", Num 10)]].

Definition one_order_store : state := mkState {[ 0 := one_order ]} [] ∅.

(** C7, as stated, fails: the overview tab converts [processed_time] and adds
    the column [hour] on the fetched frame itself, so the object bound to
    [orders_df] is changed in place after the fetch. *)
Lemma raw_table_mutated_by_overview :
  heap (snd (tab1 0 one_order_store)) !! 0 <> heap one_order_store !! 0.
Proof. vm_compute. discriminate. Qed.

(** C7 (amended): the filter engine and the display truncation leave the
    object bound to [orders_df] as it was, whatever the subsets and the row
    cap and however the step ends; any metric read from it afterwards is
    the metric of the same table. *)
Theorem filters_keep_raw_table (orders_df : loc) (df : DataFrame) (W : widgets) (s : state) :
  heap s !! orders_df = Some df ->
  let s' := snd (latest_orders orders_df W s) in
  heap s' !! orders_df = Some df /\
  fst (deref orders_df s') = Ok df /\
  forall cats locs, heap (snd (apply_filters orders_df cats locs s)) !! orders_df = Some df.
Proof.
  intros H s'. split; [|split].
  - apply keeps_latest_orders, H.
  - unfold deref; cbn. f_equal.
    pose proof (keeps_latest_orders orders_df orders_df W s df H) as H'.
    fold s' in H'. rewrite H'. reflexivity.
  - intros. apply keeps_apply_filters, H.
Qed.

Lemma filters_keep_raw_table_witness :
  heap (snd (latest_orders 0 (mkWidgets true 15 false [Str "Shoes"] [] 10) one_order_store)) !! 0
  = Some one_order.
Proof.
  apply (filters_keep_raw_table 0 one_order
           (mkWidgets true 15 false [Str "Shoes"] [] 10) one_order_store).
  reflexivity.
Defined.

(** ** The filter engine *)

(** C8: with an empty category subset and an empty location subset the
    filter engine returns a new object whose content is the input table,
    row for row and column for column; the input object stays where it
    was. *)
Theorem apply_filters_empty_subsets (orders_df : loc) (df : DataFrame) (s : state) :
  heap s !! orders_df = Some df ->
  exists filtered_df : loc,
    apply_filters orders_df [] [] s
      = (Ok filtered_df, mkState (<[filtered_df := df]> (heap s)) (log s) (cache s))
    /\ filtered_df <> orders_df
    /\ fst (deref filtered_df (snd (apply_filters orders_df [] [] s))) = Ok df.
Proof.
  intros H. exists (fresh (dom (heap s))).
  assert (Hrun : apply_filters orders_df [] [] s
                 = (Ok (fresh (dom (heap s))),
                    mkState (<[fresh (dom (heap s)) := df]> (heap s)) (log s) (cache s))).
  { unfold apply_filters, copy, bind, deref, alloc, filter_isin, ret.
    rewrite H. reflexivity. }
  split; [exact Hrun|]. split.
  - intros Heq. pose proof (is_fresh (dom (heap s))) as Hf.
    rewrite Heq in Hf. apply Hf, elem_of_dom. eauto.
  - rewrite Hrun. unfold deref; cbn. rewrite lookup_insert_eq. reflexivity.
Qed.

Lemma apply_filters_empty_subsets_witness :
  exists filtered_df : loc,
    apply_filters 0 [] [] one_order_store
      = (Ok filtered_df,
         mkState (<[filtered_df := one_order]> (heap one_order_store)) [] ∅)
    /\ filtered_df <> 0
    /\ fst (deref filtered_df (snd (apply_filters 0 [] [] one_order_store))) = Ok one_order.
Proof.
  apply (apply_filters_empty_subsets 0 one_order one_order_store).
  reflexivity.
Defined.

(** ** A run with no data *)

(** C10: when the fetch hands back an empty table, the body of the run puts
    one warning on the page and does nothing else: the page gains no metric,
    chart or table, the store gains only the fetched frame itself (no
    filtered copy), and the cache is what the fetch left, so no view was
    fetched. *)
Theorem empty_orders_only_warn (E : env) (W : widgets) (s s1 : state) (df : DataFrame) :
  fetch_latest_orders E (Some 10000%Z) s = (Ok df, s1) ->
  empty df = true ->
  metrics E W s
  = (Ok tt,
     mkState (<[fresh (dom (heap s1)) := df]> (heap s1))
             (log s1 ++ [StWarning no_data])
             (cache s1)).
Proof.
  intros Hfetch Hempty.
  unfold metrics, bind. rewrite Hfetch. cbn. rewrite Hempty. reflexivity.
Qed.

(** A warehouse with no relation at all, and the first run against it. *)
Definition bare_env : env :=
  mkEnv "spark-streaming-483317" "shopping_dev" "orders" None ∅ 0.

Definition idle : widgets := mkWidgets false 15 false [] [] 100.

Definition fresh_page : state := mkState ∅ [] ∅.

Lemma empty_orders_only_warn_witness :
  metrics bare_env idle fresh_page
  = (Ok tt,
     mkState (<[fresh (dom (heap (snd (fetch_latest_orders bare_env (Some 10000%Z) fresh_page))))
                := empty_frame]>
                (heap (snd (fetch_latest_orders bare_env (Some 10000%Z) fresh_page))))
             (log (snd (fetch_latest_orders bare_env (Some 10000%Z) fresh_page))
              ++ [StWarning no_data])
             (cache (snd (fetch_latest_orders bare_env (Some 10000%Z) fresh_page)))).
Proof.
  apply (empty_orders_only_warn bare_env idle fresh_page
           (snd (fetch_latest_orders bare_env (Some 10000%Z) fresh_page)) empty_frame).
  - reflexivity.
  - reflexivity.
Defined.

(** ** Groupings over a table with a column missing

    The dictionaries of the two groupings name [estimated_profit_usd] and
    [estimated_clv] whether or not the table has them, so the fallback to
    ['count'] they carry could only raise.  It is never reached: the table
    comes from a SELECT that names both columns. *)

Lemma missing_columns_cons c cs df :
  missing_columns (c :: cs) df
  = if has_column c df then missing_columns cs df else c :: missing_columns cs df.
Proof. unfold missing_columns; cbn. destruct (has_column c df); reflexivity. Qed.

(** Whatever the table, the segment grouping raises as soon as the profit
    column is absent: the dictionary still names it. *)
Lemma revenue_by_segment_needs_profit (df : DataFrame) :
  has_column "customer_segment" df = true ->
  has_column "estimated_profit_usd" df = false ->
  exists what, revenue_by_segment df = Raise (KeyError what).
Proof.
  intros Hseg Hprofit. unfold revenue_by_segment, groupby_agg.
  rewrite missing_columns_cons, Hseg. cbn [missing_columns List.filter map fst].
  rewrite Hprofit. cbn [negb].
  destruct (has_column "purchase_amount_usd" df); cbn; eauto.
Qed.

(** The same for the per-category grouping of the VIP-Premium rows and the
    lifetime-value column. *)
Lemma vip_category_needs_clv (df : DataFrame) :
  has_column "category" df = true ->
  has_column "estimated_clv" df = false ->
  exists what, vip_category df = Raise (KeyError what).
Proof.
  intros Hcat Hclv. unfold vip_category, groupby_agg.
  rewrite missing_columns_cons, Hcat. cbn [missing_columns List.filter map fst].
  rewrite Hclv. cbn [negb].
  destruct (has_column "purchase_amount_usd" df); cbn; eauto.
Qed.

(** One VIP order with a Premium amount, in a table of four columns. *)
Definition order_without_estimates : DataFrame :=
  mkDF ["customer_segment"; "amount_category"; "category"; "purchase_amount_usd"]
       [[("customer_segment", Str "VIP"); ("amount_category", Str "Premium");
         ("category", Str "Shoes"); ("purchase_amount_usd", Num 10)]].

(** ** The anomaly rate *)

Section AnomalyRate.
Local Open Scope Q_scope.

Lemma Qnat_le (a b : nat) : (a <= b)%nat -> Qnat a <= Qnat b.
Proof. intros H. unfold Qnat. rewrite <- Zle_Qle. lia. Qed.

Lemma Qnat_pos (n : nat) : 0 < Qnat (S n).
Proof. unfold Qnat. change 0 with (inject_Z 0). rewrite <- Zlt_Qlt. lia. Qed.

Lemma Qnat_zero (a : nat) : Qnat a == 0 <-> a = 0%nat.
Proof.
  unfold Qnat. change 0 with (inject_Z 0). rewrite inject_Z_injective. lia.
Qed.

Lemma truediv_nonzero (a b : Q) : ~ b == 0 -> truediv a b = Ok (a / b).
Proof.
  intros Hb. unfold truediv.
  destruct (Qeq_bool b 0) eqn:Heq; [|reflexivity].
  apply Qeq_bool_eq in Heq. contradiction.
Qed.

(** A share of a positive whole, as a percentage. *)
Lemma percent_bounds (x y : Q) :
  0 <= x -> x <= y -> 0 < y ->
  0 <= x / y * 100 /\ x / y * 100 <= 100 /\ (x / y * 100 == 0 <-> x == 0).
Proof.
  intros Hx Hxy Hy.
  assert (H0 : 0 <= x / y) by (apply Qle_shift_div_l; [exact Hy | lra]).
  assert (H1 : x / y <= 1) by (apply Qle_shift_div_r; [exact Hy | lra]).
  assert (Hne : ~ y == 0) by lra.
  split; [lra|]. split; [lra|]. split.
  - intros Hz. assert (Ht : x / y == 0) by lra.
    apply Qeq_trans with (x / y * y).
    + field. exact Hne.
    + rewrite Ht. lra.
  - intros Hz. rewrite Hz. unfold Qdiv. lra.
Qed.

Lemma len_mask_rows (p : row -> bool) (df : DataFrame) :
  (len (mask_rows p df) <= len df)%nat.
Proof. unfold len, mask_rows; cbn. apply List.filter_length_le. Qed.

End AnomalyRate.

(** A table with one order that is not an anomaly. *)
Definition one_regular_order : DataFrame :=
  mkDF ["is_anomaly"; "purchase_amount_usd"]
       [[("is_anomaly", Bool false); ("purchase_amount_usd", Num 10)]].

(** C4, as stated, fails: the rate is 0 on a table that is not empty. *)
Lemma anomaly_rate_zero_on_nonempty_table :
  ~ (anomaly_rate (anomalies one_regular_order) one_regular_order = Ok 0%Q
     <-> rows one_regular_order = []).
Proof. intros [H _]. specialize (H eq_refl). discriminate H. Qed.

(** C4 (amended): the rate is computed without a division fault, it is a
    percentage between 0 and 100 (the share anomalies / orders is in [0,1]),
    and it is 0 exactly when no row is an anomaly, which covers the empty
    table.  The headline's delta is computed without a division fault as
    well. *)
Theorem anomaly_rate_in_range (df : DataFrame) :
  exists rate : Q,
    anomaly_rate (anomalies df) df = Ok rate
    /\ (0 <= rate)%Q /\ (rate <= 100)%Q
    /\ ((rate == 0)%Q <-> len (anomalies df) = 0)
    /\ (rows df = [] -> (rate == 0)%Q)
    /\ exists delta, anomalies_delta df = Ok delta.
Proof.
  pose proof (len_mask_rows (is_ "is_anomaly" (Bool true)) df) as Hle.
  fold (anomalies df) in Hle.
  unfold anomaly_rate, anomalies_delta, total_orders.
  destruct (len df) as [|n] eqn:Hlen.
  - exists 0%Q. cbn [Nat.ltb Nat.leb].
    repeat split; try lra; eauto; intros; lia.
  - assert (Hne : ~ (Qnat (S n) == 0)%Q) by (rewrite Qnat_zero; lia).
    cbn [Nat.ltb Nat.leb]. rewrite !truediv_nonzero by exact Hne. cbn [rbind].
    destruct (percent_bounds (Qnat (len (anomalies df))) (Qnat (S n)))
      as (H0 & H1 & Hz).
    { apply (Qnat_le 0). lia. }
    { apply Qnat_le, Hle. }
    { apply Qnat_pos. }
    eexists. split; [reflexivity|]. repeat split; try assumption.
    + intros H. apply Qnat_zero, Hz, H.
    + intros H. apply Hz, Qnat_zero, H.
    + intros Hrows. unfold len in Hlen. rewrite Hrows in Hlen. discriminate.
    + eauto.
Qed.

(** A table with the anomaly flag and no order. *)
Definition no_orders : DataFrame := mkDF ["is_anomaly"; "purchase_amount_usd"] [].

Lemma anomaly_rate_in_range_witness :
  exists rate : Q,
    anomaly_rate (anomalies no_orders) no_orders = Ok rate /\ (rate == 0)%Q.
Proof.
  destruct (anomaly_rate_in_range no_orders) as (rate & Hrate & _ & _ & _ & Hempty & _).
  exists rate. split; [exact Hrate|]. apply Hempty. reflexivity.
Defined.

(** ** The order of the fetched rows *)

Section FetchOrder.

Lemma cell_leb_total (a b : cell) : cell_leb a b = true \/ cell_leb b a = true.
Proof.
  destruct a as [|p|s|x|t], b as [|q|u|y|v]; cbn; auto.
  - rewrite !Qle_bool_iff. destruct (Qlt_le_dec p q) as [H|H]; [left|right]; lra.
  - apply String.leb_total.
  - destruct x, y; cbn; auto.
  - rewrite !Z.leb_le. lia.
Qed.

Lemma cell_geb_nulls_last_total (a b : cell) :
  cell_geb_nulls_last a b = true \/ cell_geb_nulls_last b a = true.
Proof.
  destruct a, b; cbn [cell_geb_nulls_last]; auto; apply cell_leb_total.
Qed.

#[local] Instance by_desc_total c : Total (by_desc c).
Proof. intros r1 r2. apply cell_geb_nulls_last_total. Qed.

Lemma Sorted_firstn {A} (R : relation A) (n : nat) (l : list A) :
  Sorted R l -> Sorted R (firstn n l).
Proof.
  revert l. induction n as [|n IH]; intros l Hs; cbn; [constructor|].
  destruct Hs as [|x l Hs Hhd]; [constructor|].
  constructor; [apply IH, Hs|].
  destruct Hhd as [|y l' Hxy]; [destruct n; constructor|].
  destruct n; cbn; constructor. exact Hxy.
Qed.

(** Projecting a row on a list of columns keeps the cells of these
    columns. *)
Lemma at_project (r : row) (cs : list string) (c : string) :
  existsb (String.eqb c) cs = true ->
  at_ (map (fun c' => (c', at_ r c')) cs) c = at_ r c.
Proof.
  induction cs as [|c' cs IH]; cbn; [discriminate|].
  intros H. destruct (String.eqb_spec c' c) as [->|Hne]; [reflexivity|].
  apply IH. destruct (String.eqb_spec c c'); [congruence|exact H].
Qed.

Lemma run_query_orders_sorted (w : warehouse) (cs : list string) (t c : string)
    (limit : Z) (df : DataFrame) :
  existsb (String.eqb c) cs = true ->
  run_query w (mkSelect (Some cs) t (Some (c, Desc)) (Some limit)) = Ok df ->
  (length (rows df) <= Z.to_nat limit)%nat /\ Sorted (by_desc c) (rows df).
Proof.
  intros Hc. unfold run_query; cbn.
  destruct (w !! t) as [tbl|]; [|discriminate].
  destruct (List.filter _ (cs ++ [c])); [|discriminate].
  destruct limit as [|n|n]; try discriminate; intros [= <-];
    cbn [rows project limit_rows order_rows sel_limit sel_order_by];
    (rewrite length_map; split; [apply firstn_le_length|]);
    (apply (Sorted_fmap _ (by_desc c) (by_desc c));
     [ intros r1 r2; unfold by_desc; rewrite !at_project by exact Hc; auto
     | apply Sorted_firstn, (Sorted_merge_sort (by_desc c)) ]).
Qed.

End FetchOrder.

(** Three orders as the warehouse holds them, oldest first. *)
Definition three_orders : DataFrame :=
  mkDF orders_columns
       [[("customer_id", Num 1); ("processed_time", Time 100); ("purchase_amount_usd", Num 10)];
        [("customer_id", Num 2); ("processed_time", Time 300); ("purchase_amount_usd", Num 20)];
        [("customer_id", Num 3); ("processed_time", Time 200); ("purchase_amount_usd", Num 30)]].

Definition shop_env : env :=
  mkEnv "spark-streaming-483317" "shopping_dev" "orders" None
        {[ "spark-streaming-483317.shopping_dev.orders" := three_orders ]} 0.

Example fetch_two_latest :
  map (fun r => at_ r "customer_id")
      (rows (match fst (fetch_latest_orders shop_env (Some 2%Z) fresh_page) with
             | Ok df => df
             | Raise _ => empty_frame
             end))
  = [Num 2; Num 3].
Proof. vm_compute. reflexivity. Qed.

(** ** The data cache *)

Section Cache.

Lemma cache_lookup_store (t1 t2 ttl : Z) (k : cache_key) (df : DataFrame) (s : state) :
  (t2 - t1 < ttl)%Z ->
  cache_lookup t2 ttl k (cache_store t1 k df s) = Some df.
Proof.
  intros Hlt. unfold cache_lookup, cache_store, live; cbn.
  rewrite lookup_insert_eq; cbn.
  destruct (Z.ltb_spec (t2 - t1) ttl); [reflexivity | lia].
Qed.

(** [invokes] says what it should: a call it excludes returns without
    looking at the function and leaves the state alone, a call it announces
    returns what the function returns. *)
Lemma cache_hit_ignores_function (now ttl : Z) (k : cache_key) (f g : M DataFrame)
    (s : state) :
  invokes now ttl k s = false ->
  cache_data now ttl k f s = cache_data now ttl k g s
  /\ snd (cache_data now ttl k f s) = s.
Proof.
  unfold invokes, cache_data.
  destruct (cache_lookup now ttl k s); [split; reflexivity | discriminate].
Qed.

Lemma cache_miss_runs_function (now ttl : Z) (k : cache_key) (f : M DataFrame)
    (s : state) :
  invokes now ttl k s = true ->
  cache_data now ttl k f s
  = match f s with
    | (Ok df, s') => (Ok df, cache_store now k df s')
    | (Raise e, s') => (Raise e, s')
    end.
Proof.
  unfold invokes, cache_data.
  destruct (cache_lookup now ttl k s); [discriminate | reflexivity].
Qed.

(** A call that ran the function and got a table back leaves an entry that
    answers every call made before the ttl has passed. *)
Lemma cache_data_then_hit (t1 t2 ttl : Z) (k : cache_key) (f : M DataFrame)
    (s : state) (df : DataFrame) :
  (t2 - t1 < ttl)%Z ->
  invokes t1 ttl k s = true ->
  fst (cache_data t1 ttl k f s) = Ok df ->
  invokes t2 ttl k (snd (cache_data t1 ttl k f s)) = false.
Proof.
  intros Hlt Hmiss. unfold invokes in *. unfold cache_data.
  destruct (cache_lookup t1 ttl k s); [discriminate|].
  destruct (f s) as [[df'|e] s']; cbn; [|discriminate].
  intros _. rewrite cache_lookup_store by exact Hlt. reflexivity.
Qed.

End Cache.

(** A client that cannot be created: the credentials are refused. *)
Definition denied_env : env :=
  mkEnv "spark-streaming-483317" "shopping_dev" "orders"
        (Some (AuthError "403 Forbidden")) ∅ 0.

(** C2, as stated, fails: a fetch that raises stores nothing, so of two
    calls five seconds apart neither is served from the cache; both run the
    fetch, and its two error messages are on the page twice. *)
Lemma failed_fetch_runs_twice :
  let k := ("fetch_latest_orders", [10000%Z]) in
  let f := fetch_latest_orders_body denied_env 10000 in
  let s1 := snd (cache_data 0 orders_ttl k f fresh_page) in
  ~ (served 0 orders_ttl k fresh_page \/ served 5 orders_ttl k s1)
  /\ cache_data 0 orders_ttl k f fresh_page = f fresh_page
  /\ cache_data 5 orders_ttl k f s1 = f s1
  /\ log (snd (cache_data 5 orders_ttl k f s1)) = (log (snd (f fresh_page)) ++ log (snd (f fresh_page)))%list
  /\ length (log (snd (f fresh_page))) = 2.
Proof.
  cbv zeta. split; [|repeat split; vm_compute; reflexivity].
  intros [H|H];
    specialize (H (fetch_latest_orders_body denied_env 10000) (ret empty_frame));
    vm_compute in H; discriminate H.
Qed.

(** C2 (amended): for a positive ttl, of two calls with the same key made
    less than ttl apart at least one is served from the cache, so at most
    one runs the fetch, provided the first call returns a table (a fetch
    that raises is not cached); when the first call ran the fetch, the
    second returns the first call's table whatever function it is given.
    The raw order table is cached for 10 seconds and each of the four
    preference views for 30. *)
Theorem cached_fetch_runs_at_most_once (t1 t2 ttl : Z) (k : cache_key)
    (f : M DataFrame) (s : state) (df : DataFrame) :
  (0 < ttl)%Z -> (t1 <= t2)%Z -> (t2 - t1 < ttl)%Z ->
  fst (cache_data t1 ttl k f s) = Ok df ->
  let s1 := snd (cache_data t1 ttl k f s) in
  (served t1 ttl k s \/ served t2 ttl k s1)
  /\ (~ served t1 ttl k s -> forall g, cache_data t2 ttl k g s1 = (Ok df, s1))
  /\ (forall E limit,
        fetch_latest_orders E (Some limit)
        = cache_data (now E) 10 ("fetch_latest_orders", [limit])
                     (fetch_latest_orders_body E limit))
  /\ (forall E,
        fetch_age_preferences E
        = cache_data (now E) 30 ("fetch_age_preferences", [])
            (view_body E "v_age_preferences" (Some ("age_bucket", Asc)) None)
        /\ fetch_gender_preferences E
        = cache_data (now E) 30 ("fetch_gender_preferences", [])
            (view_body E "v_gender_preferences" None None)
        /\ fetch_location_preferences E
        = cache_data (now E) 30 ("fetch_location_preferences", [])
            (view_body E "v_location_preferences" (Some ("orders", Desc)) None)
        /\ fetch_age_gender_category E
        = cache_data (now E) 30 ("fetch_age_gender_category", [])
            (view_body E "v_age_gender_category" (Some ("orders", Desc)) (Some 50%Z))).
Proof.
  intros Httl Hle Hlt Hdf s1.
  assert (Hcalls : served t1 ttl k s
                   \/ (forall g, cache_data t2 ttl k g s1 = (Ok df, s1))).
  { subst s1. unfold served.
    destruct (cache_lookup t1 ttl k s) as [hit|] eqn:Hlook.
    - left. intros f0 g0. unfold cache_data. rewrite Hlook. reflexivity.
    - right. intros g.
      assert (Hfirst : cache_data t1 ttl k f s
                       = match f s with
                         | (Ok d, s') => (Ok d, cache_store t1 k d s')
                         | (Raise e, s') => (Raise e, s')
                         end)
        by (unfold cache_data; rewrite Hlook; reflexivity).
      rewrite Hfirst in Hdf |- *.
      destruct (f s) as [[df'|e] s']; cbn [fst snd] in *; [|discriminate].
      injection Hdf as ->. unfold cache_data.
      rewrite cache_lookup_store by exact Hlt. reflexivity. }
  split; [|split; [|split; [reflexivity | repeat split]]].
  - destruct Hcalls as [H|H]; [left; exact H|].
    right. intros f0 g0. rewrite (H f0), (H g0). reflexivity.
  - intros Hrun. destruct Hcalls as [H|H]; [contradiction | exact H].
Qed.

Lemma cached_fetch_runs_at_most_once_witness :
  let k := ("fetch_latest_orders", [10000%Z]) in
  let f := fetch_latest_orders_body shop_env 10000 in
  served 0 10 k fresh_page \/ served 5 10 k (snd (cache_data 0 10 k f fresh_page)).
Proof.
  apply (cached_fetch_runs_at_most_once 0 5 10 ("fetch_latest_orders", [10000%Z])
           (fetch_latest_orders_body shop_env 10000) fresh_page
           (match fst (fetch_latest_orders_body shop_env 10000 fresh_page) with
            | Ok df => df
            | Raise _ => empty_frame
            end)).
  - lia.
  - lia.
  - lia.
  - vm_compute. reflexivity.
Defined.

(** ** Group-by: the groups partition the keyed rows *)

Section GroupBy.
Local Open Scope Q_scope.

Lemma cell_eqb_sym (a b : cell) : cell_eqb a b = cell_eqb b a.
Proof.
  destruct a as [|p|s|[]|t], b as [|q|u|[]|v]; cbn; try reflexivity;
    try apply Qeq_bool_comm.
  - apply String.eqb_sym.
  - apply Z.eqb_sym.
Qed.

Lemma cell_eqb_trans (a b c : cell) :
  cell_eqb a b = true -> cell_eqb b c = true -> cell_eqb a c = true.
Proof.
  destruct a as [|p|s|[]|t], b as [|q|u|[]|v], c as [|r|w|[]|x]; cbn;
    try discriminate; try reflexivity;
    try (intros H1 H2; apply Qeq_bool_iff in H1; apply Qeq_bool_iff in H2;
         apply Qeq_bool_iff; lra).
  - rewrite !String.eqb_eq. congruence.
  - rewrite !Z.eqb_eq. congruence.
Qed.

Lemma cell_eqb_refl (a : cell) : notnull a = true -> cell_eqb a a = true.
Proof.
  destruct a as [|p|s|[]|t]; cbn; try discriminate; intros _;
    try apply Qeq_bool_refl.
  - apply String.eqb_refl.
  - apply Z.eqb_refl.
Qed.

Lemma cell_eqb_notnull (a b : cell) : cell_eqb a b = true -> notnull a = true.
Proof. destruct a; cbn; [discriminate | reflexivity..]. Qed.

Lemma key_eqb_sym (k1 k2 : key) : key_eqb k1 k2 = key_eqb k2 k1.
Proof.
  revert k2. induction k1 as [|a k1 IH]; intros [|b k2]; cbn; try reflexivity.
  rewrite cell_eqb_sym, IH. reflexivity.
Qed.

Lemma key_eqb_trans (k1 k2 k3 : key) :
  key_eqb k1 k2 = true -> key_eqb k2 k3 = true -> key_eqb k1 k3 = true.
Proof.
  revert k2 k3. induction k1 as [|a k1 IH]; intros [|b k2] [|c k3]; cbn;
    try discriminate; try reflexivity.
  rewrite !andb_true_iff. intros [H1 H2] [H3 H4]. split.
  - eapply cell_eqb_trans; eassumption.
  - eapply IH; eassumption.
Qed.

Lemma key_eqb_refl (k : key) : forallb notnull k = true -> key_eqb k k = true.
Proof.
  induction k as [|a k IH]; cbn; [reflexivity|].
  rewrite !andb_true_iff. intros [H1 H2]. split; [apply cell_eqb_refl, H1 | apply IH, H2].
Qed.

Lemma key_eqb_notnull (k1 k2 : key) :
  key_eqb k1 k2 = true -> forallb notnull k1 = true.
Proof.
  revert k2. induction k1 as [|a k1 IH]; intros [|b k2]; cbn;
    try discriminate; try reflexivity.
  rewrite !andb_true_iff. intros [H1 H2]. split;
    [eapply cell_eqb_notnull, H1 | eapply IH, H2].
Qed.

(** Keys that are pairwise different. *)
Inductive distinct : list key -> Prop :=
| distinct_nil : distinct []
| distinct_cons k ks :
    Forall (fun k' => key_eqb k k' = false) ks -> distinct ks -> distinct (k :: ks).

Lemma distinct_filter (p : key -> bool) (ks : list key) :
  distinct ks -> distinct (List.filter p ks).
Proof.
  induction 1 as [|k ks Hk Hd IH]; cbn; [constructor|].
  destruct (p k); [|exact IH].
  constructor; [|exact IH].
  rewrite Forall_forall in *. intros k' Hin.
  apply Hk. apply list_elem_of_In. apply list_elem_of_In in Hin.
  apply List.filter_In in Hin. tauto.
Qed.

Lemma distinct_nub (l : list key) : distinct (nub l).
Proof.
  induction l as [|k l IH]; cbn; constructor.
  - rewrite Forall_forall. intros k' Hin.
    apply list_elem_of_In, List.filter_In in Hin.
    destruct Hin as [_ Hin]. apply negb_true_iff in Hin. exact Hin.
  - apply distinct_filter, IH.
Qed.

Lemma existsb_nub (x : key) (l : list key) :
  existsb (key_eqb x) (nub l) = existsb (key_eqb x) l.
Proof.
  induction l as [|k l IH]; cbn; [reflexivity|].
  destruct (key_eqb x k) eqn:Hxk; cbn; [reflexivity|].
  rewrite <- IH. clear IH.
  induction (nub l) as [|k' N IHN]; cbn; [reflexivity|].
  destruct (key_eqb k k') eqn:Hkk; cbn.
  - rewrite IHN. destruct (key_eqb x k') eqn:Hxk'; [|reflexivity].
    rewrite key_eqb_sym in Hkk.
    rewrite (key_eqb_trans x k' k Hxk' Hkk) in Hxk. discriminate.
  - rewrite IHN. reflexivity.
Qed.

Lemma Qsum_cons (q : Q) (l : list Q) : Qsum (q :: l) = q + Qsum l.
Proof. reflexivity. Qed.

Lemma Qsum_nil : Qsum [] = 0.
Proof. reflexivity. Qed.

#[local] Arguments Qsum : simpl never.

Lemma Qsum_Permutation (l1 l2 : list Q) : l1 ≡ₚ l2 -> Qsum l1 == Qsum l2.
Proof.
  induction 1 as [|q l1 l2 _ IH|p q l|l1 l2 l3 _ IH1 _ IH2];
    rewrite ?Qsum_cons; lra.
Qed.

Variable value : row -> cell.

(** The sum of a column over some rows. *)
Definition total (rs : list row) : Q := sum (map value rs).

Lemma total_cons (r : row) (rs : list row) :
  total (r :: rs) == total [r] + total rs.
Proof.
  unfold total, sum, nums; cbn.
  destruct (to_num (value r)); cbn; rewrite ?Qsum_cons, ?Qsum_nil; lra.
Qed.

Variable by_ : list string.

(** Over pairwise different keys, the groups' sums add up to the sum over
    the rows that fall in one of the groups. *)
Lemma groups_partition_distinct (ks : list key) (rs : list row) :
  distinct ks ->
  Qsum (map (fun k => total (group by_ rs k)) ks)
  == total (List.filter (fun r => existsb (key_eqb (key_of by_ r)) ks) rs).
Proof.
  intros Hd. unfold group. induction rs as [|r rs IH]; cbn [List.filter].
  - induction ks as [|k ks IHk]; cbn [map]; [reflexivity|].
    inversion Hd; subst. rewrite Qsum_cons, IHk by assumption.
    unfold total, sum; cbn. rewrite Qsum_nil. lra.
  - assert (Hsplit :
      Qsum (map (fun k => total (if key_eqb (key_of by_ r) k
                                 then r :: List.filter (fun r' => key_eqb (key_of by_ r') k) rs
                                 else List.filter (fun r' => key_eqb (key_of by_ r') k) rs)) ks)
      == (if existsb (key_eqb (key_of by_ r)) ks then total [r] else 0)
         + Qsum (map (fun k => total (List.filter (fun r' => key_eqb (key_of by_ r') k) rs)) ks)).
    { clear IH. induction Hd as [|k ks Hk Hd IHd]; cbn [map existsb];
        rewrite ?Qsum_cons, ?Qsum_nil; [lra|].
      rewrite IHd. clear IHd.
      destruct (key_eqb (key_of by_ r) k) eqn:Hrk; cbn [orb].
      - assert (Hnone : existsb (key_eqb (key_of by_ r)) ks = false).
        { apply not_true_is_false. intros Hex.
          apply existsb_exists in Hex. destruct Hex as (k' & Hin & Hrk').
          rewrite Forall_forall in Hk. specialize (Hk k' (proj2 (list_elem_of_In _ _) Hin)).
          rewrite key_eqb_sym in Hrk.
          rewrite (key_eqb_trans k (key_of by_ r) k' Hrk Hrk') in Hk. discriminate. }
        rewrite Hnone.
        rewrite (total_cons r (List.filter _ rs)). lra.
      - lra. }
    rewrite Hsplit, IH.
    destruct (existsb (key_eqb (key_of by_ r)) ks); [|lra].
    rewrite (total_cons r (List.filter _ rs)). lra.
Qed.

Lemma in_own_group (r : row) (rs : list row) :
  existsb (key_eqb (key_of by_ r)) (map (key_of by_) (List.filter (keyed by_) rs))
  = keyed by_ r && existsb (key_eqb (key_of by_ r)) (map (key_of by_) rs).
Proof.
  destruct (keyed by_ r) eqn:Hr; cbn.
  - induction rs as [|r' rs IH]; cbn; [reflexivity|].
    destruct (keyed by_ r') eqn:Hr'; cbn; [rewrite IH; reflexivity|].
    rewrite IH. destruct (key_eqb (key_of by_ r) (key_of by_ r')) eqn:He; [|reflexivity].
    rewrite key_eqb_sym in He. apply key_eqb_notnull in He.
    unfold keyed in Hr'. congruence.
  - apply not_true_is_false. intros Hex.
    apply existsb_exists in Hex. destruct Hex as (k & _ & Hk).
    apply key_eqb_notnull in Hk. unfold keyed in Hr. congruence.
Qed.

(** The groups of a group-by partition the rows whose key has no missing
    value: the groups' sums add up to the sum over these rows. *)
Lemma groups_partition (rs : list row) :
  Qsum (map (fun k => total (group by_ rs k)) (group_keys by_ rs))
  == total (List.filter (keyed by_) rs).
Proof.
  unfold group_keys.
  rewrite (Qsum_Permutation _
             (map (fun k => total (group by_ rs k))
                  (nub (map (key_of by_) (List.filter (keyed by_) rs))))).
  2:{ apply Permutation_map, merge_sort_Permutation. }
  rewrite groups_partition_distinct by apply distinct_nub.
  assert (Hext : List.filter
            (fun r => existsb (key_eqb (key_of by_ r))
                        (nub (map (key_of by_) (List.filter (keyed by_) rs)))) rs
          = List.filter (keyed by_) rs).
  { apply List.filter_ext_in. intros r Hin.
    rewrite existsb_nub, in_own_group.
    destruct (keyed by_ r) eqn:Hr; cbn; [|reflexivity].
    apply existsb_exists. exists (key_of by_ r). split.
    - apply List.in_map, Hin.
    - apply key_eqb_refl, Hr. }
  rewrite Hext. reflexivity.
Qed.

End GroupBy.

(** ** The segment revenue table *)

Section SegmentRevenue.
Local Open Scope Q_scope.

Lemma total_Permutation (value : row -> cell) (l1 l2 : list row) :
  l1 ≡ₚ l2 -> total value l1 == total value l2.
Proof.
  intros H. unfold total, sum, nums.
  apply Qsum_Permutation. apply omap_Permutation, Permutation_map, H.
Qed.

Lemma sum_Num {A} (f : A -> Q) (l : list A) :
  sum (map (fun a => Num (f a)) l) = Qsum (map f l).
Proof.
  unfold sum, nums. induction l as [|a l IH]; cbn; [reflexivity|].
  unfold Qsum in *; cbn. f_equal. exact IH.
Qed.

Lemma in_nub (k : key) (l : list key) : In k (nub l) -> In k l.
Proof.
  induction l as [|k0 l IH]; cbn; [tauto|].
  intros [->|Hin]; [left; reflexivity|].
  apply List.filter_In in Hin. right. apply IH, Hin.
Qed.

(** Every group key is the key of some row. *)
Lemma group_keys_of_rows (by_ : list string) (rs : list row) (k : key) :
  In k (group_keys by_ rs) -> exists r, In r rs /\ k = key_of by_ r.
Proof.
  intros Hin. unfold group_keys in Hin.
  apply list_elem_of_In in Hin.
  rewrite (merge_sort_Permutation key_le) in Hin.
  apply list_elem_of_In, in_nub, List.in_map_iff in Hin.
  destruct Hin as (r & Hk & Hr). apply List.filter_In in Hr.
  exists r. split; [tauto | congruence].
Qed.

(** What [groupby_agg] returns when it returns. *)
Lemma groupby_agg_ok (by_ : list string) (spec : aggspec) (names : list string)
    (df g : DataFrame) :
  groupby_agg by_ spec names df = Ok g ->
  missing_columns by_ df = [] /\ missing_columns (map fst spec) df = [] /\
  g = mkDF names
        (map (fun k => combine names (k ++ agg_cells spec (group by_ (rows df) k)))
             (group_keys by_ (rows df))).
Proof.
  unfold groupby_agg.
  destruct (missing_columns by_ df); [|discriminate].
  destruct (missing_columns (map fst spec) df); [|discriminate].
  destruct (Nat.eqb _ _); [|discriminate].
  intros [= <-]. auto.
Qed.

Definition amount (r : row) : cell := at_ r "purchase_amount_usd".

Definition has_segment (r : row) : bool := notnull (at_ r "customer_segment").

(** The total-revenue column of the segment table lists the groups' sums. *)
Lemma revenue_by_segment_totals (df t : DataFrame) :
  revenue_by_segment df = Ok t ->
  has_column "purchase_amount_usd" df = true /\
  sum (col t "total_revenue")
  == Qsum (map (fun k => total amount (group ["customer_segment"] (rows df) k))
               (group_keys ["customer_segment"] (rows df))).
Proof.
  unfold revenue_by_segment.
  destruct (groupby_agg _ _ _ df) as [g|e] eqn:Hg; [|discriminate].
  apply groupby_agg_ok in Hg. destruct Hg as (_ & Hcols & ->).
  cbn [rbind]. unfold sort_values_desc. cbn [has_column columns existsb String.eqb].
  change (existsb _ _) with true. cbn [rows]. intros [= <-]. split.
  - cbn [map fst] in Hcols. rewrite missing_columns_cons in Hcols.
    destruct (has_column "purchase_amount_usd" df); [reflexivity | discriminate].
  - unfold col; cbn [rows].
    change (sum (map ?f ?l)) with (total f l).
    rewrite (total_Permutation _ _ _ (merge_sort_Permutation _ _)).
    unfold total. rewrite List.map_map.
    rewrite <- (sum_Num (fun k => total amount (group ["customer_segment"] (rows df) k))).
    f_equiv. apply List.map_ext_in. intros k Hin.
    apply group_keys_of_rows in Hin. destruct Hin as (r & _ & ->).
    reflexivity.
Qed.

End SegmentRevenue.

(** Two orders, the first without a customer segment. *)
Definition unsegmented_order : DataFrame :=
  mkDF ["customer_segment"; "purchase_amount_usd"; "estimated_profit_usd"]
       [[("customer_segment", Null); ("purchase_amount_usd", Num 10);
         ("estimated_profit_usd", Num 1)];
        [("customer_segment", Str "VIP"); ("purchase_amount_usd", Num 20);
         ("estimated_profit_usd", Num 2)]].

(** C3, as stated, fails: the order without a segment is in no group, so the
    segment totals add up to 20 while the headline total revenue is 30. *)
Lemma segment_totals_miss_unsegmented_order :
  exists t,
    revenue_by_segment unsegmented_order = Ok t
    /\ (sum (col t "total_revenue") == 20)%Q
    /\ (total_revenue unsegmented_order == 30)%Q
    /\ ~ (sum (col t "total_revenue") == total_revenue unsegmented_order)%Q.
Proof.
  eexists. split; [vm_compute; reflexivity|].
  repeat split; vm_compute; congruence.
Qed.

(** C3 (amended): when the table has the three columns the grouping reads,
    the segment table is computed; when moreover the purchase amounts add
    exactly (whole amounts, see [exact_amounts]), its total-revenue column
    adds up to the purchase amounts of the orders that have a customer
    segment, and when every order has one, that is the headline total
    revenue. *)
Theorem segment_totals_add_up (df : DataFrame) :
  (has_column "customer_segment" df = true ->
   has_column "purchase_amount_usd" df = true ->
   has_column "estimated_profit_usd" df = true ->
   exists t, revenue_by_segment df = Ok t)
  /\ forall t,
       revenue_by_segment df = Ok t ->
       exact_amounts (col df "purchase_amount_usd") = true ->
       (sum (col t "total_revenue")
        == sum (col (mask_rows has_segment df) "purchase_amount_usd"))%Q
       /\ (forallb has_segment (rows df) = true ->
           (sum (col t "total_revenue") == total_revenue df)%Q).
Proof.
  split.
  - intros Hseg Hamount Hprofit.
    unfold revenue_by_segment, groupby_agg.
    rewrite missing_columns_cons, Hseg. cbn [missing_columns List.filter map fst].
    rewrite Hamount, Hprofit. cbn. eauto.
  - intros t Ht _. apply revenue_by_segment_totals in Ht. destruct Ht as [Hamount Ht].
    assert (Hkeyed : List.filter (keyed ["customer_segment"]) (rows df)
                     = List.filter has_segment (rows df)).
    { apply List.filter_ext. intros r. unfold keyed, has_segment; cbn.
      apply andb_true_r. }
    assert (Hgroups : (sum (col t "total_revenue")
                       == sum (col (mask_rows has_segment df) "purchase_amount_usd"))%Q).
    { rewrite Ht, (groups_partition amount ["customer_segment"] (rows df)), Hkeyed.
      reflexivity. }
    split; [exact Hgroups|].
    intros Hall. rewrite Hgroups. unfold total_revenue. rewrite Hamount.
    unfold col, mask_rows; cbn [rows].
    replace (List.filter has_segment (rows df)) with (rows df); [reflexivity|].
    clear -Hall. induction (rows df) as [|r rs IH]; cbn in *; [reflexivity|].
    apply andb_true_iff in Hall. destruct Hall as [Hr Hrs].
    rewrite Hr. f_equal. apply IH, Hrs.
Qed.

(** Two orders of two segments. *)
Definition two_segments : DataFrame :=
  mkDF ["customer_segment"; "purchase_amount_usd"; "estimated_profit_usd"]
       [[("customer_segment", Str "Regular"); ("purchase_amount_usd", Num 10);
         ("estimated_profit_usd", Num 1)];
        [("customer_segment", Str "VIP"); ("purchase_amount_usd", Num 20);
         ("estimated_profit_usd", Num 2)]].

Lemma segment_totals_add_up_witness :
  exists t,
    revenue_by_segment two_segments = Ok t
    /\ (sum (col t "total_revenue") == total_revenue two_segments)%Q.
Proof.
  destruct (proj1 (segment_totals_add_up two_segments) eq_refl eq_refl eq_refl)
    as [t Ht].
  exists t. split; [exact Ht|].
  apply (proj2 (segment_totals_add_up two_segments) t Ht); reflexivity.
Defined.

(** ** The satisfaction pivot *)

Section SatisfactionPivot.

Lemma existsb_Permutation {A} (p : A -> bool) (l1 l2 : list A) :
  l1 ≡ₚ l2 -> existsb p l1 = existsb p l2.
Proof.
  intros H. apply Bool.eq_iff_eq_true. rewrite !existsb_exists.
  split; intros (x & Hin & Hp); exists x; split; auto.
  - eapply Permutation_in; eassumption.
  - eapply Permutation_in; [symmetry|]; eassumption.
Qed.

Lemma existsb_map {A B} (p : B -> bool) (f : A -> B) (l : list A) :
  existsb p (map f l) = existsb (fun a => p (f a)) l.
Proof. induction l as [|a l IH]; cbn; [reflexivity | rewrite IH; reflexivity]. Qed.

Lemma existsb_filter {A} (p q : A -> bool) (l : list A) :
  existsb p (List.filter q l) = existsb (fun a => q a && p a) l.
Proof.
  induction l as [|a l IH]; cbn; [reflexivity|].
  destruct (q a); cbn; rewrite IH; reflexivity.
Qed.

Lemma existsb_ext_in {A} (p q : A -> bool) (l : list A) :
  (forall a, In a l -> p a = q a) -> existsb p l = existsb q l.
Proof.
  induction l as [|a l IH]; cbn; [reflexivity|].
  intros H. rewrite (H a), IH; auto.
Qed.

(** A test that cannot tell equal keys apart finds a key among the distinct
    keys exactly when it finds one in the list they were taken from. *)
Lemma existsb_nub_proper (P : key -> bool) (l : list key) :
  (forall k k', key_eqb k k' = true -> P k' = true -> P k = true) ->
  existsb P (nub l) = existsb P l.
Proof.
  intros Hcompat. induction l as [|k l IH]; cbn; [reflexivity|].
  destruct (P k) eqn:HPk; cbn; [reflexivity|].
  rewrite <- IH. apply Bool.eq_iff_eq_true. rewrite !existsb_exists.
  split; intros (k' & Hin & HP); exists k'; (split; [|exact HP]).
  - apply List.filter_In in Hin. tauto.
  - apply List.filter_In. split; [exact Hin|].
    apply negb_true_iff, not_true_is_false. intros Heq.
    rewrite (Hcompat k k' Heq HP) in HPk. discriminate.
Qed.

Lemma existsb_group_keys (P : key -> bool) (by_ : list string) (rs : list row) :
  (forall k k', key_eqb k k' = true -> P k' = true -> P k = true) ->
  existsb P (group_keys by_ rs)
  = existsb (fun r => keyed by_ r && P (key_of by_ r)) rs.
Proof.
  intros Hcompat. unfold group_keys.
  rewrite (existsb_Permutation P _ _ (merge_sort_Permutation key_le _)).
  rewrite existsb_nub_proper by exact Hcompat.
  rewrite existsb_map, existsb_filter. reflexivity.
Qed.

Lemma cell_eqb_null_r (x : cell) : cell_eqb x Null = false.
Proof. destruct x as [|q|s|[]|t]; reflexivity. Qed.

(** A value is among the labels taken from a column exactly when some row
    carries it there. *)
Lemma existsb_levels (x : cell) (c : string) (rs : list row) :
  existsb (cell_eqb x) (levels c rs) = existsb (fun r => cell_eqb x (at_ r c)) rs.
Proof.
  unfold levels. rewrite existsb_map.
  rewrite (existsb_group_keys (fun k => cell_eqb x (hd Null k))).
  - apply existsb_ext_in. intros r _. unfold keyed; cbn.
    destruct (cell_eqb x (at_ r c)) eqn:Hx; [|apply andb_false_r].
    rewrite cell_eqb_sym in Hx. apply cell_eqb_notnull in Hx. rewrite Hx. reflexivity.
  - intros [|a k] [|b k']; cbn; try discriminate; try (intros _ H; exact H).
    rewrite andb_true_iff. intros [Hab _] Hxb.
    rewrite cell_eqb_sym in Hab. eapply cell_eqb_trans; eassumption.
Qed.

Definition level_of (r : row) : cell := at_ r "satisfaction_level".

(** An order counts for a level of the pivot when it has a category and
    carries that level. *)
Definition rated (level : string) (r : row) : bool :=
  notnull (at_ r "category") && cell_eqb (level_of r) (Str level).

Definition crosstab (df : DataFrame) : result Pivot :=
  rbind (satisfaction_by_category df) pivot_satisfaction.

(** The pivot's labels before reordering: a level is a column exactly when
    an order with a category carries it. *)
Lemma pivot_levels (df by_cat : DataFrame) (level : string) :
  satisfaction_by_category df = Ok by_cat ->
  existsb (cell_eqb (Str level))
          (levels "satisfaction_level"
                  (List.filter (keyed ["category"; "satisfaction_level"]) (rows by_cat)))
  = existsb (rated level) (rows df).
Proof.
  intros Hby. apply groupby_agg_ok in Hby. destruct Hby as (_ & _ & ->).
  cbn [rows]. rewrite existsb_levels, existsb_filter, existsb_map.
  transitivity
    (existsb (fun k => forallb notnull k && cell_eqb (Str level) (nth 1 k Null))
             (group_keys ["category"; "satisfaction_level"] (rows df))).
  - apply existsb_ext_in. intros k Hin.
    apply group_keys_of_rows in Hin. destruct Hin as (r & _ & ->).
    unfold keyed, key_of; cbn. rewrite !andb_true_r. reflexivity.
  - rewrite existsb_group_keys.
    + apply existsb_ext_in. intros r _. unfold keyed, key_of, rated, level_of; cbn.
      destruct (at_ r "category"), (at_ r "satisfaction_level") as [|?|?|[]|?];
        cbn; try reflexivity; rewrite ?andb_true_r; apply String.eqb_sym.
    + intros k k' Heq. rewrite !andb_true_iff. intros [_ Hl]. split.
      * eapply key_eqb_notnull, Heq.
      * destruct k as [|a [|b k]], k' as [|a' [|b' k']]; cbn [nth key_eqb] in *;
          try congruence; try (rewrite andb_false_r in Heq; congruence).
        apply andb_true_iff in Heq. destruct Heq as [_ Heq].
        apply andb_true_iff in Heq. destruct Heq as [Hbb _].
        rewrite cell_eqb_sym in Hbb. eapply cell_eqb_trans; eassumption.
Qed.

Definition present_levels (df : DataFrame) : list string :=
  List.filter (fun level => existsb (rated level) (rows df)) satisfaction_order.

Lemma crosstab_columns (df : DataFrame) (p : Pivot) :
  crosstab df = Ok p ->
  present_levels df <> [] ->
  pcolumns p = map Str (present_levels df).
Proof.
  unfold crosstab. destruct (satisfaction_by_category df) as [by_cat|e] eqn:Hby;
    [|discriminate].
  cbn [rbind]. unfold pivot_satisfaction, pivot_table.
  destruct (missing_columns _ by_cat); [|discriminate].
  cbn [rbind pcolumns].
  assert (Hav : List.filter
            (fun level => existsb (cell_eqb (Str level))
               (levels "satisfaction_level"
                  (List.filter (keyed ["category"; "satisfaction_level"]) (rows by_cat))))
            satisfaction_order
          = present_levels df).
  { apply List.filter_ext. intros level. apply pivot_levels, Hby. }
  rewrite Hav. destruct (present_levels df) as [|l ls]; [congruence|].
  intros [= <-] _. reflexivity.
Qed.

End SatisfactionPivot.

(** Four orders, one per level; the neutral one has no category. *)
Definition neutral_without_category : DataFrame :=
  mkDF ["category"; "satisfaction_level"; "purchase_amount_usd"]
       [[("category", Str "Shoes"); ("satisfaction_level", Str "Very Satisfied");
         ("purchase_amount_usd", Num 10)];
        [("category", Str "Shoes"); ("satisfaction_level", Str "Satisfied");
         ("purchase_amount_usd", Num 20)];
        [("category", Null); ("satisfaction_level", Str "Neutral");
         ("purchase_amount_usd", Num 30)];
        [("category", Str "Shoes"); ("satisfaction_level", Str "Dissatisfied");
         ("purchase_amount_usd", Num 40)]].

(** C9, as stated, fails: all four levels occur in the table, but the
    neutral order is dropped by the grouping and the pivot has three
    columns. *)
Lemma pivot_lacks_level_of_uncategorised_order :
  forallb (fun level =>
             existsb (fun r => cell_eqb (level_of r) (Str level))
                     (rows neutral_without_category))
          satisfaction_order = true
  /\ exists p,
       crosstab neutral_without_category = Ok p
       /\ pcolumns p = [Str "Very Satisfied"; Str "Satisfied"; Str "Dissatisfied"]
       /\ pcolumns p <> map Str satisfaction_order.
Proof.
  split; [reflexivity|].
  eexists. split; [vm_compute; reflexivity|].
  split; [reflexivity | discriminate].
Qed.

(** C9 (amended): when the table has the columns the cross-tabulation reads,
    the pivot is computed; if at least one of the four levels is carried by
    an order that has a category, the pivot's columns are the fixed sequence
    filtered to the levels carried by such orders, and all four in that
    order when each is. *)
Theorem satisfaction_pivot_column_order (df : DataFrame) :
  (has_column "category" df = true ->
   has_column "satisfaction_level" df = true ->
   has_column "purchase_amount_usd" df = true ->
   exists p, crosstab df = Ok p)
  /\ forall p,
       crosstab df = Ok p ->
       (present_levels df <> [] -> pcolumns p = map Str (present_levels df))
       /\ (forallb (fun level => existsb (rated level) (rows df)) satisfaction_order = true ->
           pcolumns p
           = [Str "Very Satisfied"; Str "Satisfied"; Str "Neutral"; Str "Dissatisfied"]).
Proof.
  split.
  - intros Hcat Hsat Hamount.
    unfold crosstab, satisfaction_by_category, groupby_agg.
    rewrite !missing_columns_cons, Hcat, Hsat. cbn [missing_columns List.filter map fst].
    rewrite Hamount. cbn [negb length flat_map snd app Nat.add Nat.eqb rbind].
    unfold pivot_satisfaction, pivot_table.
    match goal with
    | |- context [missing_columns ?cs (mkDF ?names ?rs)] =>
        change (missing_columns cs (mkDF names rs)) with (@nil string)
    end.
    cbn [rbind].
    match goal with
    | |- exists p, match ?l with [] => _ | _ :: _ => _ end = Ok p => destruct l; eauto
    end.
  - intros p Hp. split; [apply crosstab_columns, Hp|].
    intros Hall.
    assert (Hpresent : present_levels df = satisfaction_order).
    { unfold present_levels. cbn [forallb satisfaction_order] in Hall.
      repeat (apply andb_true_iff in Hall; destruct Hall as [? Hall]).
      cbn [List.filter satisfaction_order].
      repeat match goal with H : existsb _ _ = true |- _ => rewrite H; clear H end.
      reflexivity. }
    rewrite (crosstab_columns df p Hp); rewrite Hpresent; [reflexivity | discriminate].
Qed.

Definition four_levels : DataFrame :=
  mkDF ["category"; "satisfaction_level"; "purchase_amount_usd"]
       [[("category", Str "Shoes"); ("satisfaction_level", Str "Neutral");
         ("purchase_amount_usd", Num 10)];
        [("category", Str "Shoes"); ("satisfaction_level", Str "Dissatisfied");
         ("purchase_amount_usd", Num 20)];
        [("category", Str "Bags"); ("satisfaction_level", Str "Very Satisfied");
         ("purchase_amount_usd", Num 30)];
        [("category", Str "Bags"); ("satisfaction_level", Str "Satisfied");
         ("purchase_amount_usd", Num 40)]].

Lemma satisfaction_pivot_column_order_witness :
  exists p,
    crosstab four_levels = Ok p
    /\ pcolumns p
       = [Str "Very Satisfied"; Str "Satisfied"; Str "Neutral"; Str "Dissatisfied"].
Proof.
  destruct (proj1 (satisfaction_pivot_column_order four_levels) eq_refl eq_refl eq_refl)
    as [p Hp].
  exists p. split; [exact Hp|].
  apply (proj2 (satisfaction_pivot_column_order four_levels) p Hp). reflexivity.
Defined.

(** ** Headline metrics and the preference views *)

Section Headline.

(** A computation is quiet when it adds no headline metric to the page,
    however it ends. *)
Definition quiet {A} (m : M A) : Prop :=
  forall s, headline_of (snd (m s)) = headline_of s.

Lemma quiet_ret {A} (a : A) : quiet (ret a).
Proof. intros s. reflexivity. Qed.

Lemma quiet_raise {A} e : quiet (@raise A e).
Proof. intros s. reflexivity. Qed.

Lemma quiet_lift {A} (r : result A) : quiet (lift r).
Proof. intros s. reflexivity. Qed.

Lemma quiet_deref l : quiet (deref l).
Proof. intros s. reflexivity. Qed.

Lemma quiet_alloc df : quiet (alloc df).
Proof. intros s. reflexivity. Qed.

Lemma quiet_assign l df : quiet (assign l df).
Proof. intros s. reflexivity. Qed.

Lemma quiet_cache_clear : quiet cache_clear.
Proof. intros s. reflexivity. Qed.

Lemma quiet_emit e : is_headline e = false -> quiet (emit e).
Proof.
  intros He s. unfold headline_of, emit; cbn.
  rewrite List.filter_app; cbn. rewrite He. apply app_nil_r.
Qed.

Lemma quiet_bind {A B} (m : M A) (k : A -> M B) :
  quiet m -> (forall a, quiet (k a)) -> quiet (bind m k).
Proof.
  intros Hm Hk s. unfold bind. specialize (Hm s).
  destruct (m s) as [[a|e] s']; cbn in *.
  - rewrite Hk. exact Hm.
  - exact Hm.
Qed.

Lemma quiet_try_except {A} (m : M A) (h : exn -> M A) :
  quiet m -> (forall e, quiet (h e)) -> quiet (try_except m h).
Proof.
  intros Hm Hh s. unfold try_except. specialize (Hm s).
  destruct (m s) as [[a|e] s']; cbn in *.
  - exact Hm.
  - rewrite Hh. exact Hm.
Qed.

Lemma quiet_when b m : quiet m -> quiet (when b m).
Proof. destruct b; cbn; [auto | intros _; apply quiet_ret]. Qed.

Lemma quiet_px_chart title df cols : quiet (px_chart title df cols).
Proof.
  unfold px_chart. destruct (missing_columns cols df);
    [apply quiet_emit; reflexivity | apply quiet_raise].
Qed.

Lemma quiet_cache_data now ttl k f : quiet f -> quiet (cache_data now ttl k f).
Proof.
  intros Hf s. unfold cache_data.
  destruct (cache_lookup now ttl k s); [reflexivity|].
  specialize (Hf s). destruct (f s) as [[df|e] s']; exact Hf.
Qed.

Ltac quiet_step :=
  lazymatch goal with
  | |- quiet (bind _ _) => apply quiet_bind; [|intros]
  | |- quiet (emit _) => apply quiet_emit; reflexivity
  | |- quiet (ret _) => apply quiet_ret
  | |- quiet (raise _) => apply quiet_raise
  | |- quiet (lift _) => apply quiet_lift
  | |- quiet (deref _) => apply quiet_deref
  | |- quiet (alloc _) => apply quiet_alloc
  | |- quiet (assign _ _) => apply quiet_assign
  | |- quiet cache_clear => apply quiet_cache_clear
  | |- quiet (when _ _) => apply quiet_when
  | |- quiet (px_chart _ _ _) => apply quiet_px_chart
  | |- quiet (cache_data _ _ _ _) => apply quiet_cache_data
  | |- quiet (try_except _ _) => apply quiet_try_except; [|intros]
  | |- quiet (if ?b then _ else _) => destruct b
  | |- quiet (match ?x with _ => _ end) => destruct x
  end.

Ltac quiet := cbv zeta; repeat quiet_step.

Lemma quiet_init_bigquery_client E : quiet (init_bigquery_client E).
Proof. unfold init_bigquery_client. quiet. Qed.












Lemma quiet_sidebar W : quiet (sidebar W).
Proof. unfold sidebar. quiet. Qed.

End Headline.

Section Views.











Definition view_warning (E : env) (view : string) : event :=
  StWarning ("Vue " ++ view ++ " non disponible: " ++ "Not found: " ++ relation_name E view).



End Views.

Section HeadlineShown.





End HeadlineShown.

(** ** The specification's three-order scenario *)

Definition scenario : DataFrame :=
  mkDF ["purchase_amount_usd"; "customer_segment"; "amount_category"]
       [[("purchase_amount_usd", Num 10); ("customer_segment", Str "VIP");
         ("amount_category", Str "Premium")];
        [("purchase_amount_usd", Num 20); ("customer_segment", Str "Regular");
         ("amount_category", Str "Standard")];
        [("purchase_amount_usd", Num 30); ("customer_segment", Str "VIP");
         ("amount_category", Str "Premium")]].

Example scenario_metrics :
  (total_revenue scenario == 60)%Q
  /\ (exists q, avg_order_value scenario = Num q /\ (q == 20)%Q)
  /\ len (vip_premium scenario) = 2
  /\ (sum (col (vip_premium scenario) "purchase_amount_usd") == 40)%Q.
Proof.
  split; [reflexivity|]. split; [eexists; split; reflexivity|].
  split; reflexivity.
Qed.

(** * Further properties of the script *)

(** ** What a run does with a failure *)

Section Failures.

Lemma sidebar_returns (W : widgets) (s : state) :
  sidebar W s
  = (Ok tt,
     if refresh_now W
     then mkState (heap s) (log s ++ [StSuccess "Données actualisées!"]) ∅
     else s).
Proof. unfold sidebar, when. destruct (refresh_now W); reflexivity. Qed.

Definition error_report (e : exn) : list event :=
  [ StError ("Erreur lors de la récupération des données: " ++ str_of_exn e);
    StException e;
    StInfo "💡 Vérifiez votre configuration BigQuery et vos credentials GCP" ].

Lemma on_error_returns (e : exn) (s : state) :
  on_error e s = (Ok tt, mkState (heap s) (log s ++ error_report e) (cache s)).
Proof.
  unfold on_error, bind, emit, error_report; cbn [heap log cache].
  rewrite <- !app_assoc. reflexivity.
Qed.

(** The script never lets an exception out: whatever is raised inside the
    [try] block is turned into three messages on the page, after what the
    block had shown, and the run ends normally. *)
Theorem script_never_raises (E : env) (W : widgets) (s : state) :
  fst (script E W s) = Ok tt
  /\ forall e s1,
       metrics E W (snd (sidebar W s)) = (Raise e, s1) ->
       script E W s = (Ok tt, mkState (heap s1) (log s1 ++ error_report e) (cache s1)).
Proof.
  unfold script, bind, try_except. rewrite sidebar_returns. cbn [snd].
  split.
  - destruct (metrics E W _) as [[[]|e] s1]; [reflexivity|].
    rewrite on_error_returns. reflexivity.
  - intros e s1 Hm. rewrite Hm. apply on_error_returns.
Qed.

Lemma script_never_raises_witness :
  script denied_env idle fresh_page
  = (Ok tt,
     mkState (heap (snd (metrics denied_env idle fresh_page)))
             (log (snd (metrics denied_env idle fresh_page))
              ++ error_report (AuthError "403 Forbidden"))
             (cache (snd (metrics denied_env idle fresh_page)))).
Proof.
  apply (proj2 (script_never_raises denied_env idle fresh_page)
           (AuthError "403 Forbidden") (snd (metrics denied_env idle fresh_page))).
  vm_compute. reflexivity.
Defined.

(** When the client cannot be created, a fetch that reaches its body
    raises what the client raised: nothing is cached, no frame is stored,
    the page gains the authentication messages only, and the [try] block of
    the run ends there. *)
Theorem refused_client_aborts_fetch (E : env) (e : exn) (limit : Z) (s : state) :
  auth E = Some e ->
  invokes (now E) orders_ttl ("fetch_latest_orders", [limit]) s = true ->
  fetch_latest_orders E (Some limit) s = (Raise e, snd (init_bigquery_client E s))
  /\ cache (snd (init_bigquery_client E s)) = cache s
  /\ heap (snd (init_bigquery_client E s)) = heap s
  /\ headline_of (snd (init_bigquery_client E s)) = headline_of s
  /\ (limit = 10000%Z ->
      forall W, metrics E W s = (Raise e, snd (init_bigquery_client E s))).
Proof.
  intros Hauth Hmiss.
  assert (Hinit : exists s', init_bigquery_client E s = (Raise e, s')
                             /\ cache s' = cache s /\ heap s' = heap s).
  { unfold init_bigquery_client. rewrite Hauth. unfold bind, when.
    destruct (negb _ && _); cbn; eauto. }
  destruct Hinit as (s' & Hinit & Hcache & Hheap).
  assert (Hfetch : fetch_latest_orders E (Some limit) s = (Raise e, s')).
  { unfold fetch_latest_orders.
    change (default fetch_latest_orders_default_limit (Some limit)) with limit.
    rewrite cache_miss_runs_function by exact Hmiss.
    unfold fetch_latest_orders_body. unfold bind at 1. rewrite Hinit. reflexivity. }
  pose proof (quiet_init_bigquery_client E s) as Hq.
  rewrite Hinit in *. cbn [snd] in *. repeat split; auto.
  intros -> W. unfold metrics. unfold bind at 1. rewrite Hfetch. reflexivity.
Qed.

Lemma refused_client_aborts_fetch_witness :
  metrics denied_env idle fresh_page
  = (Raise (AuthError "403 Forbidden"), snd (init_bigquery_client denied_env fresh_page)).
Proof.
  apply (refused_client_aborts_fetch denied_env (AuthError "403 Forbidden") 10000 fresh_page);
    reflexivity.
Defined.

(** A query that fails is kept inside the fetch: with a client, the body of
    [fetch_latest_orders] returns the empty frame and puts exactly one error
    on the page; the run then shows the no-data warning and stops. *)
Theorem failed_query_gives_empty_frame (E : env) (e : exn) (limit : Z) (s : state) :
  auth E = None ->
  run_query (wh E) (orders_query E limit) = Raise e ->
  invokes (now E) orders_ttl ("fetch_latest_orders", [limit]) s = true ->
  exists msg,
    fetch_latest_orders_body E limit s
    = (Ok empty_frame, mkState (heap s) (log s ++ [StError msg]) (cache s))
    /\ (limit = 10000%Z ->
        forall W,
          fst (metrics E W s) = Ok tt
          /\ log (snd (metrics E W s)) = (log s ++ [StError msg; StWarning no_data])%list).
Proof.
  intros Hauth Hq Hmiss.
  assert (Hbody : exists msg,
             fetch_latest_orders_body E limit s
             = (Ok empty_frame, mkState (heap s) (log s ++ [StError msg]) (cache s))).
  { unfold fetch_latest_orders_body, init_bigquery_client. rewrite Hauth, Hq.
    unfold bind, ret. destruct (contains "db-dtypes" _); cbn; eauto. }
  destruct Hbody as [msg Hbody]. exists msg. split; [exact Hbody|].
  intros -> W. unfold metrics, bind, fetch_latest_orders.
  change (default fetch_latest_orders_default_limit (Some 10000%Z)) with 10000%Z.
  rewrite cache_miss_runs_function by exact Hmiss. rewrite Hbody.
  unfold alloc, emit, cache_store; cbn [fst snd log heap cache empty empty_frame columns].
  split; [reflexivity|]. rewrite <- app_assoc. reflexivity.
Qed.

Lemma failed_query_gives_empty_frame_witness :
  exists msg,
    fetch_latest_orders_body bare_env 10000 fresh_page
    = (Ok empty_frame, mkState ∅ [StError msg] ∅)
    /\ log (snd (metrics bare_env idle fresh_page)) = [StError msg; StWarning no_data].
Proof.
  destruct (failed_query_gives_empty_frame bare_env
              (WarehouseError "Not found: spark-streaming-483317.shopping_dev.orders")
              10000 fresh_page eq_refl eq_refl eq_refl) as (msg & Hbody & Hrun).
  exists msg. split; [exact Hbody|]. apply (Hrun eq_refl idle).
Defined.

End Failures.

(** ** What a fetch returns *)

Section Fetched.

Definition project_row (cs : list string) (r : row) : row :=
  map (fun c => (c, at_ r c)) cs.

Lemma missing_columns_nil (cs : list string) (df : DataFrame) :
  missing_columns cs df = [] <-> forallb (fun c => has_column c df) cs = true.
Proof.
  unfold missing_columns. induction cs as [|c cs IH]; cbn; [tauto|].
  destruct (has_column c df); cbn; [exact IH|]. split; discriminate.
Qed.

Lemma length_limit_rows (l : option Z) (rs : list row) :
  length (limit_rows l rs)
  = match l with
    | Some n => Nat.min (Z.to_nat n) (length rs)
    | None => length rs
    end.
Proof. destruct l; cbn; [apply length_firstn | reflexivity]. Qed.

Lemma order_rows_Permutation ob (rs : list row) : order_rows ob rs ≡ₚ rs.
Proof.
  destruct ob as [[c []]|]; cbn; [apply merge_sort_Permutation.. | reflexivity].
Qed.

Lemma In_firstn {A} (n : nat) (l : list A) (x : A) : In x (firstn n l) -> In x l.
Proof.
  revert l. induction n as [|n IH]; intros [|y l]; cbn; try tauto.
  intros [->|H]; [left; reflexivity | right; apply IH, H].
Qed.

(** A query that succeeds returns the selected columns of rows of the
    relation, as many as the relation has up to the limit: no row is made
    up and none is left out below the limit. *)
Lemma run_query_ok (w : warehouse) (q : select) (df : DataFrame) :
  run_query w q = Ok df ->
  exists t,
    w !! sel_from q = Some t
    /\ forallb (fun c => has_column c t) (referenced q t) = true
    /\ columns df = default (columns t) (sel_columns q)
    /\ length (rows df)
       = match sel_limit q with
         | Some n => Nat.min (Z.to_nat n) (length (rows t))
         | None => length (rows t)
         end
    /\ forall r, In r (rows df) ->
         exists r0, In r0 (rows t) /\ r = project_row (columns df) r0.
Proof.
  unfold run_query. destruct (w !! sel_from q) as [t|]; [|discriminate].
  destruct (missing_columns (referenced q t) t) eqn:Hmiss; [|discriminate].
  apply missing_columns_nil in Hmiss.
  intros Hok. exists t. split; [reflexivity|]. split; [exact Hmiss|].
  assert (Hdf : df = project (default (columns t) (sel_columns q))
                       (mkDF (columns t)
                          (limit_rows (sel_limit q) (order_rows (sel_order_by q) (rows t))))).
  { destruct (sel_limit q) as [[| |]|]; congruence. }
  subst df. cbn [columns rows project]. split; [reflexivity|]. split.
  - rewrite length_map, length_limit_rows.
    rewrite (Permutation_length (order_rows_Permutation _ _)). reflexivity.
  - intros r Hin. apply List.in_map_iff in Hin. destruct Hin as (r0 & <- & Hin).
    exists r0. split; [|reflexivity].
    eapply Permutation_in; [apply order_rows_Permutation|].
    destruct (sel_limit q); cbn in Hin; [eapply In_firstn, Hin | exact Hin].
Qed.

(** With a client, a fetch that reaches the warehouse returns either the
    empty frame (the query failed) or a frame with exactly the 21 selected
    columns, holding min(limit, size of the table) rows, each the selected
    cells of a row of the table. *)
Theorem fetched_orders_shape (E : env) (limit : Z) (s : state) :
  auth E = None ->
  invokes (now E) orders_ttl ("fetch_latest_orders", [limit]) s = true ->
  exists df s',
    fetch_latest_orders E (Some limit) s = (Ok df, s')
    /\ (df = empty_frame
        \/ exists t,
             wh E !! relation_name E (TABLE E) = Some t
             /\ columns df = orders_columns
             /\ len df = Nat.min (Z.to_nat limit) (len t)
             /\ forall r, In r (rows df) ->
                  exists r0, In r0 (rows t) /\ r = project_row orders_columns r0).
Proof.
  intros Hauth Hmiss. unfold fetch_latest_orders.
  change (default fetch_latest_orders_default_limit (Some limit)) with limit.
  rewrite cache_miss_runs_function by exact Hmiss.
  unfold fetch_latest_orders_body, init_bigquery_client. rewrite Hauth.
  unfold bind at 1. cbn [ret].
  destruct (run_query (wh E) (orders_query E limit)) as [df|e] eqn:Hq.
  - exists df. eexists. split; [reflexivity|]. right.
    apply run_query_ok in Hq. destruct Hq as (t & Ht & _ & Hcols & Hlen & Hrows).
    exists t. cbn [orders_query sel_from sel_columns sel_limit default from_option id] in *.
    rewrite Hcols in Hrows. auto.
  - exists empty_frame. unfold bind, ret.
    destruct (contains "db-dtypes" _); cbn; eauto.
Qed.

Lemma fetched_orders_shape_witness :
  exists df s',
    fetch_latest_orders shop_env (Some 2%Z) fresh_page = (Ok df, s')
    /\ (df = empty_frame
        \/ exists t,
             wh shop_env !! relation_name shop_env (TABLE shop_env) = Some t
             /\ columns df = orders_columns
             /\ len df = Nat.min (Z.to_nat 2) (len t)
             /\ forall r, In r (rows df) ->
                  exists r0, In r0 (rows t) /\ r = project_row orders_columns r0).
Proof.
  apply (fetched_orders_shape shop_env 2 fresh_page); reflexivity.
Defined.

End Fetched.

(** ** When the groupings are defined *)

Section Defined.

Lemma has_column_columns (c : string) (df : DataFrame) (cs : list string) :
  columns df = cs -> has_column c df = existsb (String.eqb c) cs.
Proof. intros <-. reflexivity. Qed.

(** [groupby_agg] returns a table exactly when every key column and every
    column of the dictionary exists and the names fit the result; the table
    then has the given names as columns and one row per group key. *)
Theorem groupby_agg_defined (by_ : list string) (spec : aggspec) (names : list string)
    (df : DataFrame) :
  (exists g, groupby_agg by_ spec names df = Ok g)
  <-> (forallb (fun c => has_column c df) (by_ ++ map fst spec) = true
       /\ length names = length by_ + length (flat_map snd spec)).
Proof.
  unfold groupby_agg. rewrite forallb_app, andb_true_iff.
  rewrite <- !missing_columns_nil.
  destruct (missing_columns by_ df); [|split; [intros [g H]; discriminate | intros [[H _] _]; discriminate]].
  destruct (missing_columns (map fst spec) df);
    [|split; [intros [g H]; discriminate | intros [[_ H] _]; discriminate]].
  destruct (Nat.eqb_spec (length names) (length by_ + length (flat_map snd spec))) as [Heq|Hne].
  - split; [auto | eauto].
  - split; [intros [g H]; discriminate | intros [_ H]; contradiction].
Qed.

Lemma groupby_agg_columns (by_ : list string) (spec : aggspec) (names : list string)
    (df g : DataFrame) :
  groupby_agg by_ spec names df = Ok g ->
  columns g = names /\ len g = length (group_keys by_ (rows df)).
Proof.
  intros H. apply groupby_agg_ok in H. destruct H as (_ & _ & ->).
  unfold len; cbn. rewrite length_map. auto.
Qed.

Lemma groupby_then_sort (by_ : list string) (spec : aggspec) (names : list string)
    (c : string) (df : DataFrame) :
  forallb (fun c => has_column c df) (by_ ++ map fst spec) = true ->
  length names = length by_ + length (flat_map snd spec) ->
  existsb (String.eqb c) names = true ->
  exists t, rbind (groupby_agg by_ spec names df) (sort_values_desc c) = Ok t
            /\ columns t = names.
Proof.
  intros Hcols Hlen Hc.
  destruct (proj2 (groupby_agg_defined by_ spec names df) (conj Hcols Hlen)) as [g Hg].
  rewrite Hg. cbn [rbind]. apply groupby_agg_columns in Hg. destruct Hg as [Hg _].
  unfold sort_values_desc. rewrite (has_column_columns c g names Hg), Hc.
  eexists. split; [reflexivity | exact Hg].
Qed.

Lemma pivot_table_defined (i c v : string) (df : DataFrame) :
  forallb (fun x => has_column x df) [v; i; c] = true ->
  exists p, pivot_table i c v df = Ok p.
Proof.
  intros H. apply missing_columns_nil in H. unfold pivot_table. rewrite H. eauto.
Qed.

End Defined.

(** ** The order and size of the preference views *)

Section ViewOrder.

Lemma cell_leb_nulls_first_total (a b : cell) :
  cell_leb_nulls_first a b = true \/ cell_leb_nulls_first b a = true.
Proof.
  destruct a, b; cbn [cell_leb_nulls_first]; auto; apply cell_leb_total.
Qed.

#[local] Instance by_asc_total c : Total (by_asc c).
Proof. intros r1 r2. apply cell_leb_nulls_first_total. Qed.

#[local] Instance by_desc_total' c : Total (by_desc c).
Proof. intros r1 r2. apply cell_geb_nulls_last_total. Qed.

Definition ordered_by (ob : option (string * direction)) (rs : list row) : Prop :=
  match ob with
  | Some (c, Desc) => Sorted (by_desc c) rs
  | Some (c, Asc) => Sorted (by_asc c) rs
  | None => True
  end.

Lemma at_project_row (r : row) (cs : list string) (c : string) :
  existsb (String.eqb c) cs = true -> at_ (project_row cs r) c = at_ r c.
Proof. apply at_project. Qed.

Lemma Sorted_limit_rows (R : relation row) (lim : option Z) (rs : list row) :
  Sorted R rs -> Sorted R (limit_rows lim rs).
Proof. destruct lim; cbn; [apply Sorted_firstn | auto]. Qed.

(** A [SELECT *] that succeeds comes back in the order asked for and
    within the limit asked for. *)
Lemma select_star_ordered (w : warehouse) (t : string) ob lim (df : DataFrame) :
  run_query w (mkSelect None t ob lim) = Ok df ->
  ordered_by ob (rows df)
  /\ match lim with
     | Some n => (len df <= Z.to_nat n)%nat
     | None => True
     end.
Proof.
  unfold run_query. cbn [sel_limit sel_columns sel_order_by sel_from].
  destruct (w !! t) as [tbl|]; [|discriminate].
  destruct (missing_columns _ tbl) eqn:Hmiss; [|discriminate].
  apply missing_columns_nil in Hmiss. unfold referenced in Hmiss.
  cbn [sel_columns sel_order_by default from_option id] in Hmiss.
  rewrite forallb_app, andb_true_iff in Hmiss. destruct Hmiss as [_ Hob].
  intros Hq.
  assert (Hdf : df = project (columns tbl)
                       (mkDF (columns tbl) (limit_rows lim (order_rows ob (rows tbl))))).
  { destruct lim as [[| |]|]; first [discriminate Hq | injection Hq as <-; reflexivity]. }
  subst df. clear Hq. cbn [rows project columns len]. split.
  - destruct ob as [[c dir]|]; [|exact I].
    assert (Hc : existsb (String.eqb c) (columns tbl) = true).
    { cbn in Hob. rewrite andb_true_r in Hob. exact Hob. }
    destruct dir; cbn [ordered_by order_rows].
    + apply (Sorted_fmap _ (by_asc c) (by_asc c)).
      * intros r1 r2. unfold by_asc. rewrite !at_project by exact Hc. auto.
      * apply Sorted_limit_rows, (Sorted_merge_sort (by_asc c)).
    + apply (Sorted_fmap _ (by_desc c) (by_desc c)).
      * intros r1 r2. unfold by_desc. rewrite !at_project by exact Hc. auto.
      * apply Sorted_limit_rows, (Sorted_merge_sort (by_desc c)).
  - destruct lim as [n|]; [|exact I]. unfold len, project; cbn [rows limit_rows].
    rewrite length_map. apply firstn_le_length.
Qed.

Lemma view_body_ordered (E : env) (view : string) ob lim (s s' : state) (df : DataFrame) :
  view_body E view ob lim s = (Ok df, s') ->
  ordered_by ob (rows df)
  /\ match lim with
     | Some n => (len df <= Z.to_nat n)%nat
     | None => True
     end.
Proof.
  unfold view_body. unfold bind at 1.
  destruct (init_bigquery_client E s) as [[[]|e] s0]; [|discriminate].
  destruct (run_query (wh E) _) as [d|e] eqn:Hq.
  - intros [= <- _]. eapply select_star_ordered, Hq.
  - unfold bind, emit, ret. intros [= <- _]. cbn. split.
    + destruct ob as [[c []]|]; cbn; constructor.
    + destruct lim; [apply Nat.le_0_l | exact I].
Qed.

(** What the three ordered view fetches hand back when they reach the
    warehouse: age buckets ascending; locations by orders, descending; the
    age-gender-category combinations by orders, descending, and no more
    than 50 of them. *)
Theorem preference_views_ordered (E : env) (s s' : state) (df : DataFrame) :
  (invokes (now E) view_ttl ("fetch_age_preferences", []) s = true ->
   fetch_age_preferences E s = (Ok df, s') ->
   Sorted (by_asc "age_bucket") (rows df))
  /\ (invokes (now E) view_ttl ("fetch_location_preferences", []) s = true ->
      fetch_location_preferences E s = (Ok df, s') ->
      Sorted (by_desc "orders") (rows df))
  /\ (invokes (now E) view_ttl ("fetch_age_gender_category", []) s = true ->
      fetch_age_gender_category E s = (Ok df, s') ->
      Sorted (by_desc "orders") (rows df) /\ (len df <= 50)%nat).
Proof.
  split; [|split]; intros Hmiss;
    unfold fetch_age_preferences, fetch_location_preferences, fetch_age_gender_category;
    rewrite cache_miss_runs_function by exact Hmiss;
    match goal with
    | |- context [view_body E ?v ?ob ?lim s] =>
        pose proof (view_body_ordered E v ob lim s) as Hv;
        destruct (view_body E v ob lim s) as [[d|e] s0]
    end; intros [= <- _]; try (apply (Hv s0 d eq_refl)).
Qed.

End ViewOrder.

(** A warehouse that also has the location view. *)
Definition location_view : DataFrame :=
  mkDF ["location"; "orders"; "avg_spend"]
       [[("location", Str "Lyon"); ("orders", Num 5); ("avg_spend", Num 40)];
        [("location", Str "Paris"); ("orders", Num 9); ("avg_spend", Num 55)];
        [("location", Str "Lille"); ("orders", Num 7); ("avg_spend", Num 35)]].

Definition views_env : env :=
  mkEnv "spark-streaming-483317" "shopping_dev" "orders" None
        {[ "spark-streaming-483317.shopping_dev.orders" := three_orders;
           "spark-streaming-483317.shopping_dev.v_location_preferences" := location_view ]} 0.

Definition table_of (r : result DataFrame * state) : DataFrame :=
  match fst r with
  | Ok df => df
  | Raise _ => empty_frame
  end.

Lemma preference_views_ordered_witness :
  Sorted (by_desc "orders")
         (rows (table_of (fetch_location_preferences views_env fresh_page))).
Proof.
  apply (proj1 (proj2 (preference_views_ordered views_env fresh_page
                         (snd (fetch_location_preferences views_env fresh_page))
                         (table_of (fetch_location_preferences views_env fresh_page))))).
  - reflexivity.
  - vm_compute. reflexivity.
Defined.

Example location_view_by_orders :
  map (fun r => at_ r "location")
      (rows (table_of (fetch_location_preferences views_env fresh_page)))
  = [Str "Paris"; Str "Lille"; Str "Lyon"].
Proof. vm_compute. reflexivity. Qed.

(** ** The filter engine, in general *)

Section Filters.

(** A row passes a dimension when the subset is empty or holds its value. *)
Definition passes (c : string) (subset : list cell) (r : row) : bool :=
  match subset with
  | [] => true
  | _ => isin subset (at_ r c)
  end.

Example isin_missing_value :
  isin [Null; Str "Shoes"] Null = true
  /\ isin [Str "Shoes"] Null = false
  /\ passes "category" [Null] [("category", Null)] = true
  /\ passes "category" [Null] [("category", Str "Shoes")] = false.
Proof. repeat split. Qed.

Lemma filter_all {A} (l : list A) : List.filter (fun _ => true) l = l.
Proof. induction l as [|a l IH]; cbn; [reflexivity | rewrite IH; reflexivity]. Qed.

Lemma filter_filter {A} (p q : A -> bool) (l : list A) :
  List.filter q (List.filter p l) = List.filter (fun a => p a && q a) l.
Proof.
  induction l as [|a l IH]; cbn; [reflexivity|].
  destruct (p a); cbn; [destruct (q a)|]; rewrite IH; reflexivity.
Qed.

(** A store extends another when it keeps all its objects. *)
Definition extends (s s' : state) : Prop :=
  (forall l d, heap s !! l = Some d -> heap s' !! l = Some d)
  /\ log s' = log s /\ cache s' = cache s.

Lemma extends_refl s : extends s s.
Proof. repeat split; auto. Qed.

Lemma extends_trans s1 s2 s3 : extends s1 s2 -> extends s2 s3 -> extends s1 s3.
Proof.
  intros (H1 & L1 & C1) (H2 & L2 & C2). repeat split; [auto | congruence | congruence].
Qed.

Lemma alloc_extends (df : DataFrame) (s : state) :
  exists l, alloc df s = (Ok l, mkState (<[l := df]> (heap s)) (log s) (cache s))
            /\ heap s !! l = None
            /\ extends s (mkState (<[l := df]> (heap s)) (log s) (cache s)).
Proof.
  exists (fresh (dom (heap s))).
  assert (Hfresh : heap s !! fresh (dom (heap s)) = None).
  { apply not_elem_of_dom, is_fresh. }
  split; [reflexivity|]. split; [exact Hfresh|].
  repeat split. intros l d Hl. cbn. rewrite lookup_insert_ne; [exact Hl|].
  intros Heq. rewrite Heq in Hfresh. congruence.
Qed.

Lemma filter_isin_run (c : string) (subset : list cell) (l : loc) (f : DataFrame) (s : state) :
  heap s !! l = Some f ->
  (subset <> [] -> has_column c f = true) ->
  exists l' s',
    filter_isin c subset l s = (Ok l', s')
    /\ heap s' !! l' = Some (mask_rows (passes c subset) f)
    /\ (l' = l \/ heap s !! l' = None)
    /\ extends s s'.
Proof.
  intros Hl Hcol. destruct subset as [|v vs].
  - exists l, s. split; [reflexivity|]. split; [|split; [auto | apply extends_refl]].
    rewrite Hl. unfold mask_rows, passes. rewrite filter_all. destruct f; reflexivity.
  - specialize (Hcol ltac:(discriminate)).
    destruct (alloc_extends (mask_rows (fun r => isin (v :: vs) (at_ r c)) f) s)
      as (l' & Halloc & Hfresh & Hext).
    exists l'. eexists. split; [|split; [|split; [right; exact Hfresh | exact Hext]]].
    + unfold filter_isin, bind, deref, lift, getitem. rewrite Hl.
      cbn [default from_option id]. rewrite Hcol. exact Halloc.
    + cbn. apply lookup_insert_eq.
Qed.

Lemma apply_filters_run (orders_df : loc) (df : DataFrame)
    (cats locs : list cell) (s : state) :
  heap s !! orders_df = Some df ->
  (cats <> [] -> has_column "category" df = true) ->
  (locs <> [] -> has_column "location" df = true) ->
  exists filtered_df s',
    apply_filters orders_df cats locs s = (Ok filtered_df, s')
    /\ heap s' !! filtered_df
       = Some (mask_rows (fun r => passes "category" cats r && passes "location" locs r) df)
    /\ mask_rows (fun r => passes "category" cats r && passes "location" locs r) df
       = mask_rows (passes "category" cats) (mask_rows (passes "location" locs) df)
    /\ filtered_df <> orders_df
    /\ extends s s'.
Proof.
  intros Hl Hcat Hloc.
  destruct (alloc_extends df s) as (l1 & Halloc & Hfresh & Hext1).
  set (s1 := mkState (<[l1 := df]> (heap s)) (log s) (cache s)) in *.
  destruct (filter_isin_run "category" cats l1 df s1) as (l2 & s2 & Hrun2 & Hl2 & Hnew2 & Hext2).
  { cbn. apply lookup_insert_eq. }
  { exact Hcat. }
  destruct (filter_isin_run "location" locs l2 (mask_rows (passes "category" cats) df) s2)
    as (l3 & s3 & Hrun3 & Hl3 & Hnew3 & Hext3).
  { exact Hl2. }
  { exact Hloc. }
  assert (Hin1 : heap s1 !! orders_df = Some df) by (apply Hext1, Hl).
  assert (Hin2 : heap s2 !! orders_df = Some df) by (apply Hext2, Hin1).
  exists l3, s3. split; [|split; [|split; [|split]]].
  - unfold apply_filters, copy, bind, deref. rewrite Hl. cbn [default from_option id].
    rewrite Halloc. fold s1. rewrite Hrun2. exact Hrun3.
  - rewrite Hl3. unfold mask_rows; cbn [rows columns]. rewrite filter_filter. reflexivity.
  - unfold mask_rows; cbn [rows columns]. rewrite filter_filter. f_equal.
    apply List.filter_ext. intros r. apply andb_comm.
  - intros ->. destruct Hnew3 as [->|Hnone]; [|congruence].
    destruct Hnew2 as [->|Hnone]; congruence.
  - exact (extends_trans _ _ _ Hext1 (extends_trans _ _ _ Hext2 Hext3)).
Qed.

(** The filter engine keeps exactly the rows that pass both dimensions, in
    their order, in a new object; the two filters commute.  It asks for a
    column only when the subset for it is not empty. *)
Theorem apply_filters_conjunctive (orders_df : loc) (df : DataFrame)
    (cats locs : list cell) (s : state) :
  heap s !! orders_df = Some df ->
  (cats <> [] -> has_column "category" df = true) ->
  (locs <> [] -> has_column "location" df = true) ->
  exists filtered_df s',
    apply_filters orders_df cats locs s = (Ok filtered_df, s')
    /\ heap s' !! filtered_df
       = Some (mask_rows (fun r => passes "category" cats r && passes "location" locs r) df)
    /\ mask_rows (fun r => passes "category" cats r && passes "location" locs r) df
       = mask_rows (passes "category" cats) (mask_rows (passes "location" locs) df)
    /\ filtered_df <> orders_df
    /\ extends s s'.
Proof. apply apply_filters_run. Qed.

Lemma apply_filters_conjunctive_witness :
  exists filtered_df s',
    apply_filters 0 [Str "Shoes"] [] one_order_store = (Ok filtered_df, s')
    /\ heap s' !! filtered_df
       = Some (mask_rows (fun r => passes "category" [Str "Shoes"] r && passes "location" [] r)
                         one_order).
Proof.
  destruct (apply_filters_conjunctive 0 one_order [Str "Shoes"] [] one_order_store)
    as (l & s' & Hrun & Hl & _).
  - reflexivity.
  - reflexivity.
  - intros H. contradiction H. reflexivity.
  - exists l, s'. split; assumption.
Defined.

Definition displayed (W : widgets) (df : DataFrame) : DataFrame :=
  mask_rows (fun r => passes "category" (categories_filter W) r
                      && passes "location" (locations_filter W) r) df.

Lemma In_available (c : string) (cs : list string) (df : DataFrame) :
  In c (available cs df) <-> In c cs /\ has_column c df = true.
Proof. unfold available. apply List.filter_In. Qed.

Lemma latest_orders_run (orders_df : loc) (df : DataFrame) (W : widgets) (s : state) :
  heap s !! orders_df = Some df ->
  (categories_filter W <> [] -> has_column "category" df = true) ->
  (locations_filter W <> [] -> has_column "location" df = true) ->
  let f := displayed W df in
  let shown := head (limit_display W) (project (available display_columns f) f) in
  fst (latest_orders orders_df W s) = Ok tt
  /\ log (snd (latest_orders orders_df W s))
     = (log s ++ [StDataframe shown; StCaption (len shown) (len f)])%list
  /\ len shown = Nat.min (limit_display W) (len f)
  /\ (len shown <= limit_display W)%nat
  /\ (len f <= len df)%nat
  /\ forall c, In c (columns shown) -> In c display_columns /\ has_column c df = true.
Proof.
  intros Hl Hcat Hloc f shown.
  destruct (apply_filters_run orders_df df (categories_filter W) (locations_filter W) s
              Hl Hcat Hloc) as (l & s' & Hrun & Hcontent & _ & _ & (_ & Hlog & _)).
  fold (displayed W df) in Hcontent. fold f in Hcontent.
  assert (Hshown : len shown = Nat.min (limit_display W) (len f)).
  { unfold shown, len, head, project; cbn [rows]. rewrite length_firstn, length_map.
    reflexivity. }
  split; [|split; [|split; [exact Hshown | split; [|split]]]].
  - unfold latest_orders, bind, deref, emit. rewrite Hrun. reflexivity.
  - unfold latest_orders, bind, deref, emit. rewrite Hrun, Hcontent.
    cbn [default from_option id snd log]. fold shown. rewrite Hlog, Hshown.
    rewrite <- app_assoc. reflexivity.
  - rewrite Hshown. apply Nat.le_min_l.
  - apply len_mask_rows.
  - intros c Hc. unfold shown, head, project in Hc; cbn [columns] in Hc.
    apply In_available in Hc. exact Hc.
Qed.

(** The table of the latest orders shows the rows that pass the filters,
    cut to the row cap, with the display columns the frame has; the caption
    counts what is shown and what passed, and what is shown never exceeds
    the cap or what passed. *)
Theorem latest_orders_shows (orders_df : loc) (df : DataFrame) (W : widgets) (s : state) :
  heap s !! orders_df = Some df ->
  (categories_filter W <> [] -> has_column "category" df = true) ->
  (locations_filter W <> [] -> has_column "location" df = true) ->
  let f := displayed W df in
  let shown := head (limit_display W) (project (available display_columns f) f) in
  fst (latest_orders orders_df W s) = Ok tt
  /\ log (snd (latest_orders orders_df W s))
     = (log s ++ [StDataframe shown; StCaption (len shown) (len f)])%list
  /\ len shown = Nat.min (limit_display W) (len f)
  /\ (len shown <= limit_display W)%nat
  /\ (len f <= len df)%nat
  /\ forall c, In c (columns shown) -> In c display_columns /\ has_column c df = true.
Proof. apply latest_orders_run. Qed.

Lemma latest_orders_shows_witness :
  fst (latest_orders 0 (mkWidgets true 15 false [Str "Shoes"] [] 10) one_order_store) = Ok tt.
Proof.
  apply (latest_orders_shows 0 one_order (mkWidgets true 15 false [Str "Shoes"] [] 10)
           one_order_store).
  - reflexivity.
  - reflexivity.
  - intros H. contradiction H. reflexivity.
Defined.

End Filters.

(** ** How the headline metrics agree with each other and with the tabs *)

Section Agreement.
Local Open Scope Q_scope.

Lemma Qnat_S (n : nat) : Qnat (S n) == 1 + Qnat n.
Proof.
  unfold Qnat. rewrite Nat2Z.inj_succ, <- Z.add_1_l, inject_Z_plus. reflexivity.
Qed.

(** A cell of the anomaly column is a flag when it is a boolean or
    missing. *)
Definition is_flag (c : cell) : bool :=
  match c with
  | Bool _ | Null => true
  | _ => false
  end.

Lemma sum_flags (s : Series) :
  forallb is_flag s = true ->
  sum s == Qnat (length (List.filter (fun c => cell_eqb c (Bool true)) s)).
Proof.
  unfold sum, nums. induction s as [|c s IH]; cbn [forallb]; [reflexivity|].
  rewrite andb_true_iff. intros [Hc Hs]. specialize (IH Hs).
  destruct c as [|q|t|[]|t]; try discriminate; cbn -[Qsum Qnat].
  - exact IH.
  - change (Qeq_bool 1 1) with true. cbn [length]. rewrite Qsum_cons, Qnat_S, IH. reflexivity.
  - change (Qeq_bool 0 1) with false. rewrite Qsum_cons, IH. lra.
Qed.

Lemma filter_map_length {A B} (f : A -> B) (p : B -> bool) (l : list A) :
  length (List.filter p (map f l)) = length (List.filter (fun a => p (f a)) l).
Proof.
  induction l as [|a l IH]; cbn; [reflexivity|].
  destruct (p (f a)); cbn; rewrite IH; reflexivity.
Qed.

(** When the anomaly column holds flags, the headline count is the number
    of rows of the anomaly tab, and the delta under it is the tab's rate. *)
Theorem headline_anomalies_match_tab (df : DataFrame) :
  has_column "is_anomaly" df = true ->
  forallb is_flag (col df "is_anomaly") = true ->
  anomalies_count df == Qnat (len (anomalies df))
  /\ ((0 < len df)%nat ->
      exists d rate,
        anomalies_delta df = Ok (Num d)
        /\ anomaly_rate (anomalies df) df = Ok rate
        /\ d == rate).
Proof.
  intros Hcol Hflags.
  assert (Hcount : anomalies_count df == Qnat (len (anomalies df))).
  { unfold anomalies_count. rewrite Hcol. rewrite (sum_flags _ Hflags).
    unfold col, anomalies, mask_rows, len, is_; cbn [rows].
    rewrite filter_map_length. reflexivity. }
  split; [exact Hcount|].
  intros Hpos. unfold anomalies_delta, anomaly_rate, total_orders.
  destruct (len df) as [|n] eqn:Hlen; [lia|].
  assert (Hne : ~ Qnat (S n) == 0) by (rewrite Qnat_zero; lia).
  cbn [Nat.ltb Nat.leb]. rewrite !truediv_nonzero by exact Hne. cbn [rbind].
  eexists. eexists. split; [reflexivity|]. split; [reflexivity|].
  rewrite Hcount. reflexivity.
Qed.

Lemma headline_anomalies_match_tab_witness :
  anomalies_count one_regular_order == Qnat (len (anomalies one_regular_order)).
Proof.
  apply (headline_anomalies_match_tab one_regular_order); reflexivity.
Defined.

Lemma filter_and_length {A} (p q : A -> bool) (l : list A) :
  (length (List.filter (fun a => p a && q a) l) <= length (List.filter p l))%nat.
Proof.
  induction l as [|a l IH]; cbn; [lia|].
  destruct (p a), (q a); cbn; lia.
Qed.

(** The VIP-Premium transactions are among the VIP orders, which are among
    the orders. *)
Theorem vip_premium_within_vip (df : DataFrame) :
  has_column "customer_segment" df = true ->
  (len (vip_premium df) <= vip_customers df)%nat
  /\ (vip_customers df <= total_orders df)%nat.
Proof.
  intros Hcol. unfold vip_customers, total_orders. rewrite Hcol. split.
  - unfold vip_premium, mask_rows, len; cbn [rows]. apply filter_and_length.
  - apply len_mask_rows.
Qed.

Lemma vip_premium_within_vip_witness :
  (len (vip_premium order_without_estimates) <= vip_customers order_without_estimates)%nat.
Proof.
  apply (vip_premium_within_vip order_without_estimates). reflexivity.
Defined.

End Agreement.

(** ** The grouped tables of the VIP, anomaly and segment tabs *)

Section GroupedTables.
Local Open Scope Q_scope.

#[local] Instance by_desc_is_total c : Total (by_desc c).
Proof. intros r1 r2. apply cell_geb_nulls_last_total. Qed.

#[local] Arguments Qsum : simpl never.

Lemma sort_values_desc_ok (c : string) (df t : DataFrame) :
  sort_values_desc c df = Ok t ->
  columns t = columns df
  /\ rows t ≡ₚ rows df
  /\ Sorted (by_desc c) (rows t).
Proof.
  unfold sort_values_desc. destruct (has_column c df); [|discriminate].
  intros [= <-]. cbn. split; [reflexivity|]. split.
  - apply merge_sort_Permutation.
  - apply (Sorted_merge_sort (by_desc c)).
Qed.

(** The shape of a table grouped on one column and then sorted. *)
Lemma grouped_sorted_ok (c sortcol : string) (spec : aggspec) (names : list string)
    (df t : DataFrame) :
  rbind (groupby_agg [c] spec names df) (sort_values_desc sortcol) = Ok t ->
  columns t = names
  /\ Sorted (by_desc sortcol) (rows t)
  /\ rows t ≡ₚ map (fun k => combine names (k ++ agg_cells spec (group [c] (rows df) k)))
                  (group_keys [c] (rows df))
  /\ forallb (fun x => has_column x df) (c :: map fst spec) = true.
Proof.
  destruct (groupby_agg [c] spec names df) as [g|e] eqn:Hg; [|discriminate].
  cbn [rbind]. intros Hs.
  pose proof (proj1 (groupby_agg_defined [c] spec names df) (ex_intro _ g Hg)) as [Hcols _].
  apply groupby_agg_ok in Hg. destruct Hg as (_ & _ & ->).
  apply sort_values_desc_ok in Hs. cbn [columns rows] in Hs.
  destruct Hs as (Hc & Hp & Hsorted). auto.
Qed.

(** A column of such a table whose cell for a group is a number computed
    from the group adds up to the sum of that number over the groups. *)
Lemma grouped_column_sum (c sortcol out : string) (spec : aggspec) (names : list string)
    (f : list row -> Q) (df t : DataFrame) :
  rbind (groupby_agg [c] spec names df) (sort_values_desc sortcol) = Ok t ->
  (forall k0 g, at_ (combine names ([k0] ++ agg_cells spec g)) out = Num (f g)) ->
  sum (col t out)
  == Qsum (map (fun k => f (group [c] (rows df) k)) (group_keys [c] (rows df))).
Proof.
  intros Ht Hout. apply grouped_sorted_ok in Ht. destruct Ht as (_ & _ & Hperm & _).
  unfold col. change (sum (map ?h ?l)) with (total h l).
  rewrite (total_Permutation _ _ _ Hperm).
  unfold total. rewrite List.map_map.
  rewrite <- (sum_Num (fun k => f (group [c] (rows df) k))).
  f_equiv. apply List.map_ext_in. intros k Hin.
  apply group_keys_of_rows in Hin. destruct Hin as (r & _ & ->).
  apply Hout.
Qed.

(** Counting the amounts of some rows, as a sum of ones. *)
Definition one_if_priced (r : row) : cell :=
  if notnull (amount r) then Num 1 else Null.

Lemma count_as_total (rs : list row) :
  Qnat (count (map amount rs)) == total one_if_priced rs.
Proof.
  unfold count, total, sum, nums, one_if_priced.
  induction rs as [|r rs IH]; cbn -[Qsum Qnat]; [reflexivity|].
  destruct (notnull (amount r)); cbn -[Qsum Qnat]; [|exact IH].
  rewrite Qsum_cons, Qnat_S, IH. reflexivity.
Qed.

Lemma keyed_single (c : string) (rs : list row) :
  List.filter (keyed [c]) rs = List.filter (fun r => notnull (at_ r c)) rs.
Proof.
  apply List.filter_ext. intros r. unfold keyed; cbn. apply andb_true_r.
Qed.

Lemma group_amounts (c : string) (rs : list row) :
  Qsum (map (fun k => sum (map amount (group [c] rs k))) (group_keys [c] rs))
  == sum (map amount (List.filter (fun r => notnull (at_ r c)) rs)).
Proof.
  rewrite <- keyed_single. apply (groups_partition amount [c] rs).
Qed.

Lemma group_counts (c : string) (rs : list row) :
  Qsum (map (fun k => Qnat (count (map amount (group [c] rs k)))) (group_keys [c] rs))
  == Qnat (count (map amount (List.filter (fun r => notnull (at_ r c)) rs))).
Proof.
  rewrite count_as_total, <- keyed_single.
  rewrite <- (groups_partition one_if_priced [c] rs).
  induction (group_keys [c] rs) as [|k ks IH]; cbn -[Qsum Qnat]; [reflexivity|].
  rewrite !Qsum_cons, IH, count_as_total. reflexivity.
Qed.

(** The anomaly tables by category and by location: sorted by amount,
    largest first; their counts add up to the number of anomalies that have
    that dimension and an amount, and, when the amounts add exactly, their
    amounts to the amount of the anomalies that have that dimension.  The
    top 15 shown for locations are at most 15 and still sorted. *)
Theorem anom_by_accounts (c : string) (anomalies_df t : DataFrame) :
  c <> "count" -> c <> "total" ->
  anom_by c anomalies_df = Ok t ->
  columns t = [c; "count"; "total"]
  /\ Sorted (by_desc "total") (rows t)
  /\ (exact_amounts (col anomalies_df "purchase_amount_usd") = true ->
      sum (col t "total")
      == sum (col (mask_rows (fun r => notnull (at_ r c)) anomalies_df)
                  "purchase_amount_usd"))
  /\ sum (col t "count")
     == Qnat (count (col (mask_rows (fun r => notnull (at_ r c)) anomalies_df)
                         "purchase_amount_usd"))
  /\ (len (head 15 t) <= 15)%nat
  /\ Sorted (by_desc "total") (rows (head 15 t)).
Proof.
  intros Hc1 Hc2 Ht. unfold anom_by in Ht.
  apply String.eqb_neq in Hc1, Hc2.
  pose proof (grouped_sorted_ok _ _ _ _ _ _ Ht) as (Hcols & Hsorted & _ & _).
  split; [exact Hcols|]. split; [exact Hsorted|]. split; [|split; [|split]].
  - intros _.
    rewrite (grouped_column_sum c "total" "total" _ _
               (fun g => sum (map amount g)) anomalies_df t Ht).
    + apply group_amounts.
    + intros k0 g. cbn [app agg_cells flat_map map combine at_ agg_apply].
      rewrite Hc2. reflexivity.
  - rewrite (grouped_column_sum c "total" "count" _ _
               (fun g => Qnat (count (map amount g))) anomalies_df t Ht).
    + apply group_counts.
    + intros k0 g. cbn [app agg_cells flat_map map combine at_ agg_apply].
      rewrite Hc1. reflexivity.
  - unfold len, head; cbn [rows]. apply firstn_le_length.
  - unfold head; cbn [rows]. apply Sorted_firstn, Hsorted.
Qed.

Definition frame_of (r : result DataFrame) : DataFrame :=
  match r with
  | Ok df => df
  | Raise _ => empty_frame
  end.

(** Two anomalies in one category, one anomaly without category. *)
Definition some_anomalies : DataFrame :=
  mkDF ["category"; "is_anomaly"; "purchase_amount_usd"]
       [[("category", Str "Shoes"); ("is_anomaly", Bool true); ("purchase_amount_usd", Num 900)];
        [("category", Null); ("is_anomaly", Bool true); ("purchase_amount_usd", Num 500)];
        [("category", Str "Shoes"); ("is_anomaly", Bool true); ("purchase_amount_usd", Num 700)];
        [("category", Str "Bags"); ("is_anomaly", Bool false); ("purchase_amount_usd", Num 20)]].

Lemma anom_by_accounts_witness :
  sum (col (frame_of (anom_by "category" (anomalies some_anomalies))) "total")
  == sum (col (mask_rows (fun r => notnull (at_ r "category")) (anomalies some_anomalies))
              "purchase_amount_usd").
Proof.
  apply (anom_by_accounts "category" (anomalies some_anomalies)
           (frame_of (anom_by "category" (anomalies some_anomalies)))).
  - discriminate.
  - discriminate.
  - vm_compute. reflexivity.
  - reflexivity.
Defined.

Lemma group_sums (value : row -> cell) (c : string) (rs : list row) :
  Qsum (map (fun k => sum (map value (group [c] rs k))) (group_keys [c] rs))
  == sum (map value (List.filter (fun r => notnull (at_ r c)) rs)).
Proof.
  rewrite <- keyed_single. apply (groups_partition value [c] rs).
Qed.

Lemma length_nub (l : list key) : (length (nub l) <= length l)%nat.
Proof.
  induction l as [|k l IH]; cbn; [lia|].
  pose proof (List.filter_length_le (fun k' => negb (key_eqb k k')) (nub l)). lia.
Qed.

Lemma length_group_keys (by_ : list string) (rs : list row) :
  (length (group_keys by_ rs) <= length rs)%nat.
Proof.
  unfold group_keys.
  rewrite (Permutation_length (merge_sort_Permutation key_le _)).
  etransitivity; [apply length_nub|]. rewrite length_map.
  apply List.filter_length_le.
Qed.

(** The segment table beyond its revenue column: it is sorted by revenue,
    largest first, has at most one row per order, its count column adds up
    to the priced orders that have a segment, and, when the profits add
    exactly, its profit column to the profit of the orders that have a
    segment. *)
Theorem segment_table_accounts (df t : DataFrame) :
  revenue_by_segment df = Ok t ->
  columns t = ["segment"; "total_revenue"; "avg_revenue"; "count"; "total_profit"]
  /\ Sorted (by_desc "total_revenue") (rows t)
  /\ (len t <= len df)%nat
  /\ sum (col t "count")
     == Qnat (count (col (mask_rows has_segment df) "purchase_amount_usd"))
  /\ (exact_amounts (col df "estimated_profit_usd") = true ->
      sum (col t "total_profit")
      == sum (col (mask_rows has_segment df) "estimated_profit_usd")).
Proof.
  intros Ht. unfold revenue_by_segment in Ht.
  pose proof (grouped_sorted_ok _ _ _ _ _ _ Ht) as (Hcols & Hsorted & Hperm & Hhas).
  cbn [map fst forallb] in Hhas. rewrite !andb_true_iff in Hhas.
  destruct Hhas as (_ & _ & Hprofit & _). rewrite Hprofit in *.
  split; [exact Hcols|]. split; [exact Hsorted|]. split; [|split].
  - unfold len. rewrite (Permutation_length Hperm), length_map.
    apply length_group_keys.
  - rewrite (grouped_column_sum _ _ "count" _ _
               (fun g => Qnat (count (map amount g))) df t Ht);
      [apply group_counts | reflexivity].
  - intros _.
    rewrite (grouped_column_sum _ _ "total_profit" _ _
               (fun g => sum (map (fun r => at_ r "estimated_profit_usd") g)) df t Ht);
      [apply group_sums | reflexivity].
Qed.

Lemma segment_table_accounts_witness :
  sum (col (frame_of (revenue_by_segment two_segments)) "total_profit")
  == sum (col (mask_rows has_segment two_segments) "estimated_profit_usd").
Proof.
  apply (segment_table_accounts two_segments (frame_of (revenue_by_segment two_segments))).
  - vm_compute. reflexivity.
  - reflexivity.
Defined.

(** The per-category table of the VIP-Premium tab: sorted by revenue,
    largest first; its count column adds up to the number of priced
    transactions of the VIP-Premium rows that have a category, and, when
    the amounts add exactly, its revenue column to their amounts. *)
Theorem vip_category_accounts (vip_premium_df t : DataFrame) :
  vip_category vip_premium_df = Ok t ->
  columns t = ["category"; "count"; "total_revenue"; "avg_amount"; "avg_clv"]
  /\ Sorted (by_desc "total_revenue") (rows t)
  /\ (len t <= len vip_premium_df)%nat
  /\ (exact_amounts (col vip_premium_df "purchase_amount_usd") = true ->
      sum (col t "total_revenue")
      == sum (col (mask_rows (fun r => notnull (at_ r "category")) vip_premium_df)
                  "purchase_amount_usd"))
  /\ sum (col t "count")
     == Qnat (count (col (mask_rows (fun r => notnull (at_ r "category")) vip_premium_df)
                         "purchase_amount_usd")).
Proof.
  intros Ht. unfold vip_category in Ht.
  pose proof (grouped_sorted_ok _ _ _ _ _ _ Ht) as (Hcols & Hsorted & Hperm & _).
  split; [exact Hcols|]. split; [exact Hsorted|]. split; [|split].
  - unfold len. rewrite (Permutation_length Hperm), length_map.
    apply length_group_keys.
  - intros _.
    rewrite (grouped_column_sum _ _ "total_revenue" _ _
               (fun g => sum (map amount g)) vip_premium_df t Ht);
      [apply group_amounts | reflexivity].
  - rewrite (grouped_column_sum _ _ "count" _ _
               (fun g => Qnat (count (map amount g))) vip_premium_df t Ht);
      [apply group_counts | reflexivity].
Qed.

(** Two VIP-Premium orders with a category, and their lifetime values. *)
Definition vip_orders : DataFrame :=
  mkDF ["customer_segment"; "amount_category"; "category"; "purchase_amount_usd";
        "estimated_clv"]
       [[("customer_segment", Str "VIP"); ("amount_category", Str "Premium");
         ("category", Str "Shoes"); ("purchase_amount_usd", Num 10);
         ("estimated_clv", Num 100)];
        [("customer_segment", Str "VIP"); ("amount_category", Str "Premium");
         ("category", Str "Bags"); ("purchase_amount_usd", Num 30);
         ("estimated_clv", Num 300)]].

Lemma vip_category_accounts_witness :
  sum (col (frame_of (vip_category (vip_premium vip_orders))) "total_revenue")
  == sum (col (mask_rows (fun r => notnull (at_ r "category")) (vip_premium vip_orders))
              "purchase_amount_usd").
Proof.
  apply (vip_category_accounts (vip_premium vip_orders)
           (frame_of (vip_category (vip_premium vip_orders)))).
  - vm_compute. reflexivity.
  - reflexivity.
Defined.

End GroupedTables.

(** ** Value frequencies *)

Section ValueCounts.

Lemma list_sum_cons' (n : nat) (l : list nat) : list_sum (n :: l) = n + list_sum l.
Proof. reflexivity. Qed.

(** Over pairwise different keys, the sizes of the classes add up to the
    number of items that fall in one of them. *)
Lemma lengths_partition {A} (f : A -> key) (ks : list key) (l : list A) :
  distinct ks ->
  list_sum (map (fun k => length (List.filter (fun x => key_eqb (f x) k) l)) ks)
  = length (List.filter (fun x => existsb (key_eqb (f x)) ks) l).
Proof.
  intros Hd. induction l as [|x l IH]; cbn [List.filter].
  - cbn. induction ks as [|k ks IHk]; cbn; [reflexivity|].
    inversion Hd; subst. apply IHk. assumption.
  - assert (Hsplit :
      list_sum (map (fun k => length (if key_eqb (f x) k
                                      then x :: List.filter (fun y => key_eqb (f y) k) l
                                      else List.filter (fun y => key_eqb (f y) k) l)) ks)
      = (if existsb (key_eqb (f x)) ks then 1 else 0)
        + list_sum (map (fun k => length (List.filter (fun y => key_eqb (f y) k) l)) ks)).
    { clear IH. induction Hd as [|k ks Hk Hd IHd]; cbn [map existsb]; [reflexivity|].
      rewrite !list_sum_cons', IHd. clear IHd.
      destruct (key_eqb (f x) k) eqn:Hxk; cbn [orb length].
      - assert (Hnone : existsb (key_eqb (f x)) ks = false).
        { apply not_true_is_false. intros Hex.
          apply existsb_exists in Hex. destruct Hex as (k' & Hin & Hxk').
          rewrite Forall_forall in Hk. specialize (Hk k' (proj2 (list_elem_of_In _ _) Hin)).
          rewrite key_eqb_sym in Hxk.
          rewrite (key_eqb_trans k (f x) k' Hxk Hxk') in Hk. discriminate. }
        rewrite Hnone. lia.
      - lia. }
    rewrite Hsplit, IH.
    destruct (existsb (key_eqb (f x)) ks); cbn [length]; lia.
Qed.

#[local] Instance more_frequent_total : Total more_frequent.
Proof.
  intros a b. unfold more_frequent. rewrite !Nat.leb_le. lia.
Qed.

(** The value frequencies behind the distribution charts: the values
    listed are the distinct values present, none missing, each with the
    number of cells that hold it; the most frequent comes first; and the
    frequencies add up to the number of cells that hold a value. *)
Theorem value_counts_accounts (s : Series) :
  list_sum (map snd (value_counts s)) = count s
  /\ Sorted more_frequent (value_counts s)
  /\ (forall v n, In (v, n) (value_counts s) ->
        notnull v = true
        /\ In v s
        /\ n = length (List.filter (fun c => cell_eqb c v) s)
        /\ 1 <= n)
  /\ (forall c, In c s -> notnull c = true ->
        exists v n, In (v, n) (value_counts s) /\ cell_eqb c v = true).
Proof.
  unfold value_counts. cbv zeta.
  set (vals := List.filter notnull s).
  set (ks := nub (map (fun c => [c]) vals)).
  set (entry := fun k : key =>
                  (hd Null k, length (List.filter (fun c => key_eqb [c] k) vals))).
  change (merge_sort more_frequent (map _ ks))
    with (merge_sort more_frequent (map entry ks)).
  assert (Hperm : merge_sort more_frequent (map entry ks) ≡ₚ map entry ks)
    by apply merge_sort_Permutation.
  assert (Hself : forall c, In c vals -> existsb (key_eqb [c]) ks = true).
  { intros c Hc. unfold ks. rewrite existsb_nub. apply existsb_exists.
    exists [c]. split; [exact (List.in_map (fun c => [c]) vals c Hc)|].
    apply List.filter_In in Hc. cbn. rewrite cell_eqb_refl by tauto. reflexivity. }
  assert (Hvals : forall v, notnull v = true ->
            List.filter (fun c => key_eqb [c] [v]) vals
            = List.filter (fun c => cell_eqb c v) s).
  { intros v Hv. unfold vals. rewrite filter_filter. apply List.filter_ext. intros c.
    cbn. rewrite andb_true_r. destruct (cell_eqb c v) eqn:Hcv; [|apply andb_false_r].
    rewrite (cell_eqb_notnull _ _ Hcv). reflexivity. }
  split; [|split; [|split]].
  - rewrite (Permutation_list_sum (Permutation_map snd Hperm)).
    rewrite List.map_map. unfold entry; cbn [snd].
    rewrite (lengths_partition (fun c => [c]) ks vals) by apply distinct_nub.
    unfold count. fold vals. f_equal.
    transitivity (List.filter (fun _ => true) vals); [|apply filter_all].
    apply List.filter_ext_in. intros c Hc. apply Hself, Hc.
  - apply (Sorted_merge_sort more_frequent).
  - intros v n Hin. eapply Permutation_in in Hin; [|exact Hperm].
    apply List.in_map_iff in Hin. destruct Hin as (k & Hk & Hin).
    unfold ks in Hin. apply in_nub, List.in_map_iff in Hin.
    destruct Hin as (c & <- & Hc). unfold entry in Hk. cbn [hd] in Hk.
    injection Hk as <- <-. pose proof Hc as Hc'.
    apply List.filter_In in Hc'. destruct Hc' as [Hcs Hnn].
    split; [exact Hnn|]. split; [exact Hcs|].
    change (List.filter (fun c0 : cell => cell_eqb c0 c && true) vals)
      with (List.filter (fun c0 => key_eqb [c0] [c]) vals).
    rewrite (Hvals c Hnn). split; [reflexivity|].
    assert (Hmem : In c (List.filter (fun c' => cell_eqb c' c) s)).
    { apply List.filter_In. split; [exact Hcs | apply cell_eqb_refl, Hnn]. }
    destruct (List.filter (fun c' => cell_eqb c' c) s); [contradiction | cbn; lia].
  - intros c Hc Hnn.
    assert (Hcv : In c vals) by (apply List.filter_In; auto).
    apply Hself, existsb_exists in Hcv. destruct Hcv as (k & Hk & Hck).
    exists (hd Null k), (length (List.filter (fun c' => key_eqb [c'] k) vals)). split.
    + eapply Permutation_in; [symmetry; exact Hperm|].
      apply List.in_map_iff. exists k. auto.
    + destruct k as [|v [|? ?]]; cbn in Hck; try discriminate.
      * cbn. rewrite andb_true_r in Hck. exact Hck.
      * rewrite andb_false_r in Hck. discriminate.
Qed.

End ValueCounts.

(** ** The hourly series of the overview tab *)

Section Overview.

(** Flooring to the hour: the result is the start of the hour the
    timestamp falls in; anything that is not a timestamp becomes NaT. *)
Theorem floor_hour_bounds (c : cell) :
  match c with
  | Time t =>
      exists h, floor_hour c = Time h
                /\ (h <= t < h + 3600)%Z /\ (h mod 3600 = 0)%Z
                /\ floor_hour (Time h) = Time h
  | _ => floor_hour c = Null
  end.
Proof.
  destruct c as [|q|s|b|t]; try reflexivity.
  exists (t - t mod 3600)%Z. cbn [floor_hour].
  pose proof (Z.mod_pos_bound t 3600 ltac:(lia)) as Hb.
  assert (Hm : ((t - t mod 3600) mod 3600 = 0)%Z).
  { rewrite Zminus_mod, Zmod_mod, Z.sub_diag. reflexivity. }
  repeat split; try lia; try exact Hm.
  rewrite Hm, Z.sub_0_r. reflexivity.
Qed.

Lemma at_row_set_other (c c' : string) (v : cell) (r : row) :
  c <> c' -> at_ (row_set c v r) c' = at_ r c'.
Proof.
  intros Hne. induction r as [|[k w] r IH]; cbn.
  - destruct (String.eqb_spec c c'); [contradiction | reflexivity].
  - destruct (String.eqb_spec k c) as [->|Hkc]; cbn.
    + destruct (String.eqb_spec c c'); [contradiction | reflexivity].
    + destruct (String.eqb k c'); [reflexivity | exact IH].
Qed.

Lemma has_column_setitem_other (c c' : string) (v : Series) (df : DataFrame) :
  c <> c' -> has_column c' (setitem c v df) = has_column c' df.
Proof.
  intros Hne. unfold setitem, has_column; cbn [columns].
  destruct (existsb (String.eqb c) (columns df)); [reflexivity|].
  rewrite existsb_app; cbn. destruct (String.eqb_spec c' c); [congruence|].
  rewrite !orb_false_r. reflexivity.
Qed.

Lemma has_column_setitem_same (c : string) (v : Series) (df : DataFrame) :
  has_column c (setitem c v df) = true.
Proof.
  unfold setitem, has_column; cbn [columns].
  destruct (existsb (String.eqb c) (columns df)) eqn:H; [exact H|].
  rewrite existsb_app; cbn. rewrite String.eqb_refl. apply orb_true_r.
Qed.

Lemma rows_setitem (c : string) (v : Series) (df : DataFrame) :
  length v = len df ->
  len (setitem c v df) = len df
  /\ forall c', c <> c' -> col (setitem c v df) c' = col df c'.
Proof.
  unfold len, col, setitem; cbn [rows]. generalize (rows df). clear df.
  intros rs. revert v. induction rs as [|r rs IH]; intros [|x v] Hlen; cbn in *;
    try discriminate; [split; auto|].
  injection Hlen as Hlen. destruct (IH v Hlen) as [IH1 IH2].
  split; [rewrite IH1; reflexivity|].
  intros c' Hne. rewrite (IH2 c' Hne), at_row_set_other by exact Hne. reflexivity.
Qed.

Lemma traverse_length {A B} (f : A -> result B) (l : list A) (l' : list B) :
  traverse f l = Ok l' -> length l' = length l.
Proof.
  revert l'. induction l as [|a l IH]; intros l'; cbn.
  - intros [= <-]. reflexivity.
  - destruct (f a); [|discriminate]. cbn.
    destruct (traverse f l) as [bs|]; [|discriminate]. cbn.
    intros [= <-]. cbn. rewrite (IH bs eq_refl). reflexivity.
Qed.

(** The frame the overview tab leaves behind when the conversion goes
    through. *)
Definition with_hours (ts : Series) (df : DataFrame) : DataFrame :=
  let df1 := setitem "processed_time" ts df in
  setitem "hour" (map floor_hour (col df1 "processed_time")) df1.

Lemma with_hours_same (ts : Series) (df : DataFrame) :
  length ts = len df ->
  len (with_hours ts df) = len df
  /\ has_column "hour" (with_hours ts df) = true
  /\ forall c, c <> "processed_time" -> c <> "hour" ->
       has_column c (with_hours ts df) = has_column c df
       /\ col (with_hours ts df) c = col df c.
Proof.
  intros Hlen. unfold with_hours. cbv zeta.
  destruct (rows_setitem "processed_time" ts df Hlen) as [Hlen1 Hcol1].
  destruct (rows_setitem "hour"
              (map floor_hour (col (setitem "processed_time" ts df) "processed_time"))
              (setitem "processed_time" ts df)) as [Hlen2 Hcol2].
  { unfold col. rewrite !length_map. reflexivity. }
  split; [congruence|]. split; [apply has_column_setitem_same|].
  intros c Hpt Hh. split.
  - rewrite !has_column_setitem_other by congruence. reflexivity.
  - rewrite Hcol2, Hcol1 by congruence. reflexivity.
Qed.

Ltac keeps_step :=
  lazymatch goal with
  | |- keeps _ (bind _ _) => apply keeps_bind; [|intros]
  | |- keeps _ (emit _) => apply keeps_emit
  | |- keeps _ (ret _) => apply keeps_ret
  | |- keeps _ (raise _) => apply keeps_raise
  | |- keeps _ (lift _) => apply keeps_lift
  | |- keeps _ (deref _) => apply keeps_deref
  | |- keeps _ (alloc _) => apply keeps_alloc
  | |- keeps _ (when ?b _) => destruct b; cbn [when]
  | |- keeps _ (px_chart _ _ _) => unfold px_chart
  | |- keeps _ (if ?b then _ else _) => destruct b
  | |- keeps _ (match ?x with _ => _ end) => destruct x
  end.

Lemma bind_deref {B} (l : loc) (df : DataFrame) (k : DataFrame -> M B) (s : state) :
  heap s !! l = Some df -> bind (deref l) k s = k df s.
Proof. intros H. unfold bind, deref. rewrite H. reflexivity. Qed.

Lemma bind_assign {B} (l : loc) (df : DataFrame) (k : unit -> M B) (s : state) :
  bind (assign l df) k s = k tt (mkState (<[l := df]> (heap s)) (log s) (cache s)).
Proof. reflexivity. Qed.

Lemma bind_lift {A B} (r : result A) (k : A -> M B) (s : state) :
  bind (lift r) k s = match r with Ok a => k a s | Raise e => (Raise e, s) end.
Proof. unfold bind, lift. destruct r; reflexivity. Qed.

Lemma bind_run_eq {A B} (m m' : M A) (k : A -> M B) (s s' : state) :
  m s = m' s' -> bind m k s = bind m' k s'.
Proof. unfold bind. intros ->. reflexivity. Qed.

Lemma bind_keeps {A B} (l : loc) (df : DataFrame) (m : M A) (k : A -> M B) (s : state) :
  keeps l m -> (forall a, keeps l (k a)) ->
  heap s !! l = Some df -> heap (snd (bind m k s)) !! l = Some df.
Proof. intros Hm Hk. apply (keeps_bind l m k Hm Hk). Qed.

(** The parts of the overview tab: the plots after the hourly series, and
    the hourly series once the two columns are set. *)
Definition tab1_plots (orders_df : loc) : M unit :=
  let* df := deref orders_df in
  let* category := lift (getitem df "category") in
  emit (StPlot "Top 10 Catégories (Volume)") >>
  let* category_revenue :=
    lift (rbind (groupby_agg ["category"] [("purchase_amount_usd", [AggSum])]
                             ["category"; "purchase_amount_usd"] df)
                (fun t => rbind (sort_values_desc "purchase_amount_usd" t)
                                (fun t => Ok (head 10 t)))) in
  emit (StPlot "Top 10 Catégories (Revenus)") >>
  px_chart "Distribution des montants de commandes" df ["purchase_amount_usd"].

Definition tab1_hourly (orders_df : loc) : M unit :=
  let* df := deref orders_df in
  let* hourly_orders :=
    lift (groupby_agg ["hour"] [("purchase_amount_usd", [AggCount; AggSum])]
                      ["hour"; "count"; "revenue"] df) in
  emit (StPlot "Évolution du nombre de commandes (par heure)") >>
  emit (StPlot "Évolution des revenus (par heure)").

Lemma tab1_parts (orders_df : loc) :
  tab1 orders_df
  = (let* df := deref orders_df in
     when (has_column "processed_time" df)
       (let* ts := lift (traverse to_datetime (col df "processed_time")) in
        assign orders_df (setitem "processed_time" ts df) >>
        let* df := deref orders_df in
        assign orders_df (setitem "hour" (map floor_hour (col df "processed_time")) df) >>
        tab1_hourly orders_df) >>
     tab1_plots orders_df).
Proof. reflexivity. Qed.

Lemma keeps_tab1_plots l orders_df : keeps l (tab1_plots orders_df).
Proof. unfold tab1_plots. repeat keeps_step. Qed.

Lemma keeps_tab1_hourly l orders_df : keeps l (tab1_hourly orders_df).
Proof. unfold tab1_hourly. repeat keeps_step. Qed.

(** What the overview tab does to the fetched frame: either nothing, or it
    replaces it by the frame with converted timestamps and hours. *)
Lemma tab1_store (orders_df : loc) (df : DataFrame) (s : state) :
  heap s !! orders_df = Some df ->
  heap (snd (tab1 orders_df s)) !! orders_df = Some df
  \/ exists ts,
       traverse to_datetime (col df "processed_time") = Ok ts
       /\ has_column "processed_time" df = true
       /\ heap (snd (tab1 orders_df s)) !! orders_df = Some (with_hours ts df).
Proof.
  intros Hl. rewrite tab1_parts, (bind_deref _ _ _ _ Hl).
  destruct (has_column "processed_time" df) eqn:Hpt; cbn [when].
  - destruct (traverse to_datetime (col df "processed_time")) as [ts|e] eqn:Hts.
    + right. exists ts. split; [reflexivity|]. split; [reflexivity|].
      set (s1 := mkState (<[orders_df := setitem "processed_time" ts df]> (heap s))
                         (log s) (cache s)).
      set (s2 := mkState (<[orders_df := with_hours ts df]> (heap s1)) (log s1) (cache s1)).
      erewrite (bind_run_eq _ (tab1_hourly orders_df) _ s s2).
      * apply bind_keeps;
          [apply keeps_tab1_hourly | intros; apply keeps_tab1_plots |].
        cbn [heap s2]. apply lookup_insert_eq.
      * rewrite bind_lift, bind_assign. fold s1.
        rewrite (bind_deref orders_df (setitem "processed_time" ts df))
          by (cbn [heap s1]; apply lookup_insert_eq).
        rewrite bind_assign. reflexivity.
    + left. erewrite (bind_run_eq _ (raise e) _ s s).
      * exact Hl.
      * rewrite bind_lift. reflexivity.
  - left. apply bind_keeps; [apply keeps_ret | intros; apply keeps_tab1_plots | exact Hl].
Qed.

(** Whatever the overview tab does to the fetched frame, it keeps its rows
    and leaves every column other than [processed_time] and [hour] as it
    was, so the headline metrics read from the frame afterwards are the
    ones shown before; without a [processed_time] column the frame is not
    touched at all. *)
Theorem overview_keeps_other_columns (orders_df : loc) (df : DataFrame) (s : state) :
  heap s !! orders_df = Some df ->
  exists df',
    heap (snd (tab1 orders_df s)) !! orders_df = Some df'
    /\ len df' = len df
    /\ (forall c, c <> "processed_time" -> c <> "hour" ->
          has_column c df' = has_column c df /\ col df' c = col df c)
    /\ (has_column "processed_time" df = false -> df' = df)
    /\ total_orders df' = total_orders df
    /\ total_revenue df' = total_revenue df
    /\ avg_order_value df' = avg_order_value df
    /\ avg_rating df' = avg_rating df
    /\ anomalies_count df' = anomalies_count df
    /\ total_profit df' = total_profit df
    /\ final_revenue df' = final_revenue df.
Proof.
  intros Hl.
  assert (Hcases : exists df',
            heap (snd (tab1 orders_df s)) !! orders_df = Some df'
            /\ len df' = len df
            /\ (forall c, c <> "processed_time" -> c <> "hour" ->
                  has_column c df' = has_column c df /\ col df' c = col df c)
            /\ (has_column "processed_time" df = false -> df' = df)).
  { destruct (tab1_store orders_df df s Hl) as [H|(ts & Hts & Hpt & H)].
    - exists df. repeat split; auto.
    - exists (with_hours ts df).
      apply traverse_length in Hts. unfold col in Hts. rewrite length_map in Hts.
      destruct (with_hours_same ts df Hts) as (Hlen & _ & Hcols).
      split; [exact H|]. split; [exact Hlen|]. split; [exact Hcols|].
      intros Hno. congruence. }
  destruct Hcases as (df' & Hdf' & Hlen & Hcols & Hpt).
  exists df'. split; [exact Hdf'|]. split; [exact Hlen|]. split; [exact Hcols|].
  split; [exact Hpt|].
  assert (Hsame : forall c, c <> "processed_time" -> c <> "hour" ->
            (if has_column c df' then sum (col df' c) else 0%Q)
            = (if has_column c df then sum (col df c) else 0%Q)
            /\ (if has_column c df' then mean (col df' c) else Num 0)
               = (if has_column c df then mean (col df c) else Num 0)).
  { intros c H1 H2. destruct (Hcols c H1 H2) as [-> ->]. auto. }
  unfold total_orders, final_revenue, total_revenue, avg_order_value, avg_rating,
    anomalies_count, total_profit.
  assert (Hother : forall c, String.eqb c "processed_time" = false ->
            String.eqb c "hour" = false ->
            c <> "processed_time" /\ c <> "hour").
  { intros c H1 H2. split; intros ->; discriminate. }
  destruct (Hother "purchase_amount_usd" eq_refl eq_refl) as [P1 P2].
  destruct (Hother "review_rating" eq_refl eq_refl) as [R1 R2].
  destruct (Hother "is_anomaly" eq_refl eq_refl) as [A1 A2].
  destruct (Hother "estimated_profit_usd" eq_refl eq_refl) as [E1 E2].
  destruct (Hother "final_amount_usd" eq_refl eq_refl) as [F1 F2].
  destruct (Hcols _ F1 F2) as [-> ->].
  destruct (Hsame _ P1 P2) as [-> ->].
  destruct (Hsame _ R1 R2) as [_ ->].
  destruct (Hsame _ A1 A2) as [-> _].
  destruct (Hsame _ E1 E2) as [-> _].
  repeat split; auto.
Qed.

Lemma overview_keeps_other_columns_witness :
  exists df',
    heap (snd (tab1 0 one_order_store)) !! 0 = Some df'
    /\ len df' = len one_order
    /\ total_revenue df' = total_revenue one_order.
Proof.
  destruct (overview_keeps_other_columns 0 one_order one_order_store eq_refl)
    as (df' & H & Hlen & _ & _ & _ & Hrev & _).
  exists df'. auto.
Defined.

End Overview.

(** ** The heat maps' tables *)

Section PivotTotals.
Local Open Scope Q_scope.
#[local] Arguments Qsum : simpl never.

Lemma distinct_Permutation (l1 l2 : list key) :
  l1 ≡ₚ l2 -> distinct l1 -> distinct l2.
Proof.
  induction 1 as [|k l1 l2 Hp IH|k1 k2 l|l1 l2 l3 _ IH1 _ IH2]; intros Hd.
  - constructor.
  - inversion Hd as [|? ? Hk Hl]; subst. constructor; [|apply IH, Hl].
    rewrite <- Hp. exact Hk.
  - inversion Hd as [|? ? Hk1 Hl]; subst. inversion Hl as [|? ? Hk2 Hl']; subst.
    inversion Hk1 as [|? ? H12 Hk1']; subst.
    constructor; [constructor|constructor]; auto.
    rewrite key_eqb_sym. exact H12.
  - auto.
Qed.

Lemma distinct_group_keys (by_ : list string) (rs : list row) :
  distinct (group_keys by_ rs).
Proof.
  unfold group_keys.
  eapply distinct_Permutation; [symmetry; apply merge_sort_Permutation|].
  apply distinct_nub.
Qed.

(** Every row with a full key falls under one of the group keys. *)
Lemma group_keys_cover (by_ : list string) (rs : list row) (r : row) :
  In r rs -> keyed by_ r = true ->
  existsb (key_eqb (key_of by_ r)) (group_keys by_ rs) = true.
Proof.
  intros Hin Hr. rewrite existsb_group_keys.
  - apply existsb_exists. exists r. split; [exact Hin|].
    rewrite Hr. apply key_eqb_refl, Hr.
  - intros k k' Hkk Hrk. rewrite key_eqb_sym in Hkk.
    eapply key_eqb_trans; eassumption.
Qed.

Lemma Qsum_map_ext_in {A} (f g : A -> Q) (l : list A) :
  (forall a, In a l -> f a == g a) -> Qsum (map f l) == Qsum (map g l).
Proof.
  induction l as [|a l IH]; intros H; cbn [map]; [reflexivity|].
  rewrite !Qsum_cons, (H a), IH; [reflexivity| |left; reflexivity].
  intros b Hb. apply H. right. exact Hb.
Qed.

Variables i c v : string.

Definition cell_value (r : row) : cell := at_ r v.

(** The rows a pivot reads: those with both labels. *)
Definition labelled (df : DataFrame) : list row :=
  List.filter (keyed [i; c]) (rows df).

Lemma group_pair (rs : list row) (x : cell) (k : key) :
  group [i; c] rs (x :: k) = group [c] (group [i] rs [x]) k.
Proof.
  unfold group. rewrite filter_filter. apply List.filter_ext. intros r.
  unfold key_of; cbn [map key_eqb].
  destruct (cell_eqb (at_ r i) x); cbn [andb]; [|reflexivity].
  destruct k; reflexivity.
Qed.

Lemma single_key (by_ : string) (rs : list row) (k : key) :
  In k (group_keys [by_] rs) -> [hd Null k] = k.
Proof.
  intros Hin. apply group_keys_of_rows in Hin. destruct Hin as (r & _ & ->).
  reflexivity.
Qed.

(** One line of the pivot adds up to the labelled rows of its label. *)
Lemma pivot_row_total (rs : list row) (x : cell) :
  (forall r, In r rs -> keyed [c] r = true) ->
  Qsum (map (fun y => total cell_value (group [i; c] rs [x; y])) (levels c rs))
  == total cell_value (group [i] rs [x]).
Proof.
  intros Hkeyed. unfold levels. rewrite map_map.
  rewrite (Qsum_map_ext_in _ (fun k => total cell_value (group [c] (group [i] rs [x]) k))).
  2:{ intros k Hk. rewrite <- group_pair.
      change [x; hd Null k] with (x :: [hd Null k]).
      rewrite (single_key c rs k Hk). reflexivity. }
  rewrite (groups_partition_distinct cell_value [c]) by apply distinct_group_keys.
  assert (Hall : List.filter
            (fun r => existsb (key_eqb (key_of [c] r)) (group_keys [c] rs))
            (group [i] rs [x]) = group [i] rs [x]).
  { rewrite <- (filter_all (group [i] rs [x])) at 2.
    apply List.filter_ext_in. intros r Hr.
    unfold group in Hr. apply List.filter_In in Hr. destruct Hr as [Hr _].
    apply group_keys_cover; auto. }
  rewrite Hall. reflexivity.
Qed.

(** The lines of the pivot together cover the labelled rows. *)
Lemma pivot_rows_total (rs : list row) :
  (forall r, In r rs -> keyed [i] r = true) ->
  Qsum (map (fun x => total cell_value (group [i] rs [x])) (levels i rs))
  == total cell_value rs.
Proof.
  intros Hkeyed. unfold levels. rewrite map_map.
  rewrite (Qsum_map_ext_in _ (fun k => total cell_value (group [i] rs k))).
  2:{ intros k Hk. rewrite (single_key i rs k Hk). reflexivity. }
  rewrite (groups_partition_distinct cell_value [i]) by apply distinct_group_keys.
  assert (Hall : List.filter
            (fun r => existsb (key_eqb (key_of [i] r)) (group_keys [i] rs)) rs = rs).
  { rewrite <- (filter_all rs) at 2.
    apply List.filter_ext_in. intros r Hr. apply group_keys_cover; auto. }
  rewrite Hall. reflexivity.
Qed.

Lemma labelled_keyed (df : DataFrame) (r : row) :
  In r (labelled df) -> keyed [i] r = true /\ keyed [c] r = true.
Proof.
  unfold labelled. intros Hr. apply List.filter_In in Hr. destruct Hr as [_ Hr].
  unfold keyed in *; cbn [key_of map forallb] in *.
  destruct (notnull (at_ r i)), (notnull (at_ r c)); cbn in *; auto; discriminate.
Qed.

Lemma levels_notnull (by_ : string) (rs : list row) (x : cell) :
  In x (levels by_ rs) -> notnull x = true /\ exists r, In r rs /\ x = at_ r by_.
Proof.
  unfold levels. intros Hx. apply List.in_map_iff in Hx.
  destruct Hx as (k & <- & Hk).
  unfold group_keys in Hk. apply list_elem_of_In in Hk.
  rewrite (merge_sort_Permutation key_le) in Hk.
  apply list_elem_of_In, in_nub, List.in_map_iff in Hk.
  destruct Hk as (r & <- & Hr). apply List.filter_In in Hr. destruct Hr as [Hin Hr].
  cbn [key_of map hd]. split; [|exists r; auto].
  unfold keyed in Hr; cbn in Hr. rewrite andb_true_r in Hr. exact Hr.
Qed.

(** A pivot table with [aggfunc='sum'] and [fill_value=0] keeps what it
    reads: it has one line per index label and one cell per column label,
    no label is missing, each line adds up to the values of the rows that
    carry its label (and a column label), and the whole table to the values
    of the rows that carry both labels. *)
Theorem pivot_table_accounts (df : DataFrame) (p : Pivot) :
  pivot_table i c v df = Ok p ->
  Forall2 (fun x line =>
             length line = length (pcolumns p)
             /\ Qsum line
                == sum (col (mask_rows (fun r => keyed [i; c] r && cell_eqb (at_ r i) x) df) v))
          (pindex p) (pvalues p)
  /\ Forall (fun x => notnull x = true) (pindex p)
  /\ Forall (fun y => notnull y = true) (pcolumns p)
  /\ Qsum (map Qsum (pvalues p)) == sum (col (mask_rows (keyed [i; c]) df) v).
Proof.
  unfold pivot_table. destruct (missing_columns [v; i; c] df); [|discriminate].
  intros Hp. injection Hp as <-. cbn [pindex pcolumns pvalues].
  fold (labelled df). set (rs := labelled df).
  assert (Hi : forall r, In r rs -> keyed [i] r = true)
    by (intros r Hr; apply (labelled_keyed df r Hr)).
  assert (Hc : forall r, In r rs -> keyed [c] r = true)
    by (intros r Hr; apply (labelled_keyed df r Hr)).
  assert (Hline : forall x,
            Qsum (map (fun y => sum (map (fun r => at_ r v) (group [i; c] rs [x; y])))
                      (levels c rs))
            == sum (col (mask_rows (fun r => keyed [i; c] r && cell_eqb (at_ r i) x) df) v)).
  { intros x. rewrite (pivot_row_total rs x Hc).
    unfold total, cell_value, col, mask_rows, group, rs, labelled; cbn [rows].
    rewrite filter_filter.
    erewrite (List.filter_ext _ (fun r => keyed [i; c] r && cell_eqb (at_ r i) x));
      [reflexivity|].
    intros r. unfold key_of; cbn [map key_eqb]. rewrite andb_true_r. reflexivity. }
  split; [|split; [|split]].
  - induction (levels i rs) as [|x xs IH]; cbn [map]; constructor; [|exact IH].
    split; [apply length_map | apply Hline].
  - apply Forall_forall. intros x Hx. apply list_elem_of_In in Hx.
    apply (levels_notnull i rs x Hx).
  - apply Forall_forall. intros y Hy. apply list_elem_of_In in Hy.
    apply (levels_notnull c rs y Hy).
  - rewrite map_map.
    rewrite (Qsum_map_ext_in _ (fun x => total cell_value (group [i] rs [x]))).
    2:{ intros x _. apply (pivot_row_total rs x Hc). }
    rewrite (pivot_rows_total rs Hi). reflexivity.
Qed.

End PivotTotals.

(** A view of orders by age, gender and category; one line has no gender. *)
Definition age_gender_view : DataFrame :=
  mkDF ["age_bucket"; "gender"; "category"; "orders"]
       [[("age_bucket", Str "18-25"); ("gender", Str "Female");
         ("category", Str "Clothing"); ("orders", Num 12)];
        [("age_bucket", Str "18-25"); ("gender", Str "Male");
         ("category", Str "Footwear"); ("orders", Num 7)];
        [("age_bucket", Str "26-35"); ("gender", Str "Female");
         ("category", Str "Footwear"); ("orders", Num 5)];
        [("age_bucket", Str "26-35"); ("gender", Null);
         ("category", Str "Clothing"); ("orders", Num 3)];
        [("age_bucket", Str "18-25"); ("gender", Str "Female");
         ("category", Str "Accessories"); ("orders", Num 4)]].

Definition pivot_of (r : result Pivot) : Pivot :=
  match r with
  | Ok p => p
  | Raise _ => mkPivot [] [] []
  end.

Lemma pivot_table_accounts_witness :
  (Qsum (map Qsum (pvalues (pivot_of (pivot_table "age_bucket" "gender" "orders"
                                                  age_gender_view))))
   == sum (col (mask_rows (keyed ["age_bucket"; "gender"]) age_gender_view) "orders"))%Q.
Proof.
  apply (pivot_table_accounts "age_bucket" "gender" "orders" age_gender_view
           (pivot_of (pivot_table "age_bucket" "gender" "orders" age_gender_view))).
  vm_compute. reflexivity.
Defined.

(** * A run over a fetched table *)

(** ** Steps that only read the fetched frame *)

Section Steps.
















End Steps.

(** The frame has every column of a list. *)
Definition has_columns (cs : list string) (df : DataFrame) : bool :=
  forallb (fun c => has_column c df) cs.

Lemma has_columns_has (cs : list string) (df : DataFrame) (c : string) :
  has_columns cs df = true -> existsb (String.eqb c) cs = true -> has_column c df = true.
Proof.
  unfold has_columns. rewrite forallb_forall. intros H Hc.
  apply existsb_exists in Hc. destruct Hc as (c' & Hin & Heq).
  apply String.eqb_eq in Heq. subst c'. apply H, Hin.
Qed.

Lemma has_column_mask_rows (c : string) (p : row -> bool) (df : DataFrame) :
  has_column c (mask_rows p df) = has_column c df.
Proof. reflexivity. Qed.

(** ** The tabs that only read the fetched frame *)

Section ReadingTabs.
Variables (l : loc) (d : DataFrame).
Hypothesis Hd : has_columns orders_columns d = true.

Lemma fetched_column (c : string) :
  existsb (String.eqb c) orders_columns = true -> has_column c d = true.
Proof. apply has_columns_has, Hd. Qed.

Lemma fetched_columns (cs : list string) (p : row -> bool) :
  forallb (fun c => existsb (String.eqb c) orders_columns) cs = true ->
  missing_columns cs (mask_rows p d) = [].
Proof.
  intros H. apply missing_columns_nil. apply forallb_forall. intros c Hc.
  rewrite has_column_mask_rows. apply fetched_column.
  rewrite forallb_forall in H. apply H, Hc.
Qed.

Lemma named_columns (cs names : list string) (t : DataFrame) :
  columns t = names ->
  forallb (fun c => existsb (String.eqb c) names) cs = true ->
  missing_columns cs t = [].
Proof.
  intros Ht H. apply missing_columns_nil. apply forallb_forall. intros c Hc.
  rewrite (has_column_columns c t names Ht).
  rewrite forallb_forall in H. apply H, Hc.
Qed.


Lemma same_columns (df : DataFrame) (cs : list string) :
  columns df = columns d ->
  forallb (fun c => existsb (String.eqb c) orders_columns) cs = true ->
  missing_columns cs df = [].
Proof.
  intros Hdf H. rewrite <- (fetched_columns cs (fun _ => true) H).
  unfold missing_columns, has_column, mask_rows; cbn [columns]. rewrite Hdf. reflexivity.
Qed.

(** The grouped tables the three tabs build are defined. *)
Lemma grouped_defined (c sortcol : string) (spec : aggspec) (names : list string)
    (df : DataFrame) :
  columns df = columns d ->
  forallb (fun x => existsb (String.eqb x) orders_columns) (c :: map fst spec) = true ->
  length names = 1 + length (flat_map snd spec) ->
  existsb (String.eqb sortcol) names = true ->
  exists t, rbind (groupby_agg [c] spec names df) (sort_values_desc sortcol) = Ok t
            /\ columns t = names.
Proof.
  intros Hdf Hcols Hlen Hsort. apply groupby_then_sort; [|exact Hlen|exact Hsort].
  apply missing_columns_nil. apply same_columns; assumption.
Qed.

Lemma vip_category_defined :
  exists t, vip_category (vip_premium d) = Ok t
            /\ columns t = ["category"; "count"; "total_revenue"; "avg_amount"; "avg_clv"].
Proof. unfold vip_category. apply grouped_defined; reflexivity. Qed.

Lemma revenue_by_segment_defined :
  exists t, revenue_by_segment d = Ok t
            /\ columns t = ["segment"; "total_revenue"; "avg_revenue"; "count"; "total_profit"].
Proof. unfold revenue_by_segment. apply grouped_defined; reflexivity. Qed.

Lemma anom_by_defined (c : string) :
  existsb (String.eqb c) orders_columns = true ->
  exists t, anom_by c (anomalies d) = Ok t /\ columns t = [c; "count"; "total"].
Proof.
  intros Hc. unfold anom_by. apply grouped_defined.
  - reflexivity.
  - cbn [forallb map fst]. rewrite Hc. reflexivity.
  - reflexivity.
  - cbn [existsb]. rewrite String.eqb_refl. apply orb_true_r.
Qed.




Lemma satisfaction_defined :
  exists by_cat p t,
    satisfaction_by_category d = Ok by_cat
    /\ columns by_cat = ["category"; "satisfaction_level"; "count"; "revenue"]
    /\ pivot_satisfaction by_cat = Ok p
    /\ sort_values_desc "count" by_cat = Ok t.
Proof.
  unfold satisfaction_by_category.
  destruct (proj2 (groupby_agg_defined ["category"; "satisfaction_level"]
                     [("purchase_amount_usd", [AggCount; AggSum])]
                     ["category"; "satisfaction_level"; "count"; "revenue"] d))
    as [g Hg].
  { split; [|reflexivity]. apply missing_columns_nil.
    apply same_columns; reflexivity. }
  pose proof (proj1 (groupby_agg_columns _ _ _ _ _ Hg)) as Hcols.
  destruct (pivot_table_defined "category" "satisfaction_level" "count" g) as [p Hp].
  { apply missing_columns_nil. eapply named_columns; [exact Hcols | reflexivity]. }
  exists g. unfold pivot_satisfaction, sort_values_desc.
  rewrite Hp, (has_column_columns "count" g _ Hcols). cbn [rbind].
  destruct (List.filter _ satisfaction_order); eauto 10.
Qed.




End ReadingTabs.

(** ** The overview tab on a fetched table *)

Section OverviewRun.








End OverviewRun.

(** ** The view tabs when the views do not exist *)

Section MissingViews.
Variable E : env.









End MissingViews.

(** ** The whole run *)

Section WholeRun.







End WholeRun.

(** ** What the cache holds for the order fetch *)

Section OrdersCache.

(** A table as the order fetch returns it for [limit]. *)
Definition as_fetched (limit : Z) (df : DataFrame) : Prop :=
  (df = empty_frame \/ columns df = orders_columns)
  /\ (len df <= Z.to_nat limit)%nat
  /\ Sorted (by_desc "processed_time") (rows df).

(** The entries of the order fetch are tables it returned. *)
Definition orders_cache_ok (s : state) : Prop :=
  forall limit e,
    cache s !! ("fetch_latest_orders", [limit]) = Some e -> as_fetched limit (payload e).

(** A computation is steady when it keeps the cache that way, however it
    ends. *)
Definition steady {A} (m : M A) : Prop :=
  forall s, orders_cache_ok s -> orders_cache_ok (snd (m s)).

Lemma steady_same_cache {A} (m : M A) :
  (forall s, cache (snd (m s)) = cache s) -> steady m.
Proof. intros H s Hs limit e. rewrite H. apply Hs. Qed.

Lemma steady_ret {A} (a : A) : steady (ret a).
Proof. apply steady_same_cache. reflexivity. Qed.

Lemma steady_raise {A} e : steady (@raise A e).
Proof. apply steady_same_cache. reflexivity. Qed.

Lemma steady_lift {A} (r : result A) : steady (lift r).
Proof. apply steady_same_cache. reflexivity. Qed.

Lemma steady_emit e : steady (emit e).
Proof. apply steady_same_cache. reflexivity. Qed.

Lemma steady_deref l : steady (deref l).
Proof. apply steady_same_cache. reflexivity. Qed.

Lemma steady_alloc df : steady (alloc df).
Proof. apply steady_same_cache. reflexivity. Qed.

Lemma steady_assign l df : steady (assign l df).
Proof. apply steady_same_cache. reflexivity. Qed.

Lemma steady_cache_clear : steady cache_clear.
Proof. intros s _ limit e. cbn. rewrite lookup_empty. discriminate. Qed.

Lemma steady_bind {A B} (m : M A) (k : A -> M B) :
  steady m -> (forall a, steady (k a)) -> steady (bind m k).
Proof.
  intros Hm Hk s Hs. unfold bind. specialize (Hm s Hs).
  destruct (m s) as [[a|e] s']; cbn [snd] in *; [apply Hk, Hm | exact Hm].
Qed.

Lemma steady_try_except {A} (m : M A) (h : exn -> M A) :
  steady m -> (forall e, steady (h e)) -> steady (try_except m h).
Proof.
  intros Hm Hh s Hs. unfold try_except. specialize (Hm s Hs).
  destruct (m s) as [[a|e] s']; cbn [snd] in *; [exact Hm | apply Hh, Hm].
Qed.

Lemma steady_when b m : steady m -> steady (when b m).
Proof. destruct b; cbn [when]; [auto | intros _; apply steady_ret]. Qed.

Lemma steady_px_chart title df cols : steady (px_chart title df cols).
Proof.
  unfold px_chart. destruct (missing_columns cols df);
    [apply steady_emit | apply steady_raise].
Qed.

(** Caching under another function's name leaves the order entries. *)
Lemma steady_cache_data (now ttl : Z) (k : cache_key) (f : M DataFrame) :
  fst k <> "fetch_latest_orders" -> steady f -> steady (cache_data now ttl k f).
Proof.
  intros Hk Hf s Hs. unfold cache_data.
  destruct (cache_lookup now ttl k s); [exact Hs|].
  specialize (Hf s Hs). destruct (f s) as [[df|e] s']; cbn [snd] in *; [|exact Hf].
  intros limit e. unfold cache_store; cbn [cache].
  rewrite lookup_insert_ne; [apply Hf|].
  intros ->. apply Hk. reflexivity.
Qed.

Ltac steady_step :=
  lazymatch goal with
  | |- steady (bind _ _) => apply steady_bind; [|intros]
  | |- steady (emit _) => apply steady_emit
  | |- steady (ret _) => apply steady_ret
  | |- steady (raise _) => apply steady_raise
  | |- steady (lift _) => apply steady_lift
  | |- steady (deref _) => apply steady_deref
  | |- steady (alloc _) => apply steady_alloc
  | |- steady (assign _ _) => apply steady_assign
  | |- steady cache_clear => apply steady_cache_clear
  | |- steady (when _ _) => apply steady_when
  | |- steady (px_chart _ _ _) => apply steady_px_chart
  | |- steady (cache_data _ _ _ _) => apply steady_cache_data; [discriminate|]
  | |- steady (try_except _ _) => apply steady_try_except; [|intros]
  | |- steady (if ?b then _ else _) => destruct b
  | |- steady (match ?x with _ => _ end) => destruct x
  end.

Ltac steady := cbv zeta; repeat steady_step.

Lemma steady_init_bigquery_client E : steady (init_bigquery_client E).
Proof. unfold init_bigquery_client. steady. Qed.

Lemma steady_view_body E view order limit : steady (view_body E view order limit).
Proof.
  unfold view_body. apply steady_bind; [apply steady_init_bigquery_client | intros].
  steady.
Qed.

Lemma steady_fetch_latest_orders_body E limit : steady (fetch_latest_orders_body E limit).
Proof.
  unfold fetch_latest_orders_body.
  apply steady_bind; [apply steady_init_bigquery_client | intros].
  steady.
Qed.

Lemma as_fetched_empty (limit : Z) : as_fetched limit empty_frame.
Proof. split; [left; reflexivity|]. split; [cbn; lia | constructor]. Qed.

(** What the body of the fetch returns is a table as fetched. *)
Lemma fetch_latest_orders_body_ok (E : env) (limit : Z) (s s' : state) (df : DataFrame) :
  fetch_latest_orders_body E limit s = (Ok df, s') -> as_fetched limit df.
Proof.
  unfold fetch_latest_orders_body, bind.
  destruct (init_bigquery_client E s) as [[[]|e] s0]; [|discriminate].
  destruct (run_query (wh E) (orders_query E limit)) as [t|e] eqn:Hq.
  - destruct (run_query_orders_sorted (wh E) orders_columns (relation_name E (TABLE E))
                "processed_time" limit t eq_refl Hq) as [Hlen Hsorted].
    apply run_query_ok in Hq. destruct Hq as (t0 & _ & _ & Hcols & _).
    intros [= <- _].
    split; [right; exact Hcols | split; assumption].
  - destruct (contains "db-dtypes" _); cbn; intros [= <- _]; apply as_fetched_empty.
Qed.

(** The order fetch returns a table as fetched, from the warehouse or from
    the cache, and keeps the cache that way. *)
Lemma fetch_latest_orders_ok (E : env) (limit : Z) (s : state) :
  orders_cache_ok s ->
  orders_cache_ok (snd (fetch_latest_orders E (Some limit) s))
  /\ forall df s', fetch_latest_orders E (Some limit) s = (Ok df, s') -> as_fetched limit df.
Proof.
  intros Hs. unfold fetch_latest_orders.
  change (default fetch_latest_orders_default_limit (Some limit)) with limit.
  unfold cache_data, cache_lookup.
  destruct (cache s !! ("fetch_latest_orders", [limit])) as [e|] eqn:He.
  - destruct (live (now E) orders_ttl e).
    + split; [exact Hs|]. intros df s' [= <- _]. apply (Hs limit e He).
    + pose proof (steady_fetch_latest_orders_body E limit s Hs) as Hb.
      destruct (fetch_latest_orders_body E limit s) as [[df|e'] s1] eqn:Hbody;
        cbn [snd] in *; [|split; [exact Hb | discriminate]].
      apply fetch_latest_orders_body_ok in Hbody.
      split; [|intros df' s' [= <- _]; exact Hbody].
      intros limit' e'. unfold cache_store; cbn [cache].
      destruct (decide (limit' = limit)) as [->|Hne].
      * rewrite lookup_insert_eq. intros [= <-]. exact Hbody.
      * rewrite lookup_insert_ne by congruence. apply Hb.
  - pose proof (steady_fetch_latest_orders_body E limit s Hs) as Hb.
    destruct (fetch_latest_orders_body E limit s) as [[df|e'] s1] eqn:Hbody;
      cbn [snd] in *; [|split; [exact Hb | discriminate]].
    apply fetch_latest_orders_body_ok in Hbody.
    split; [|intros df' s' [= <- _]; exact Hbody].
    intros limit' e'. unfold cache_store; cbn [cache].
    destruct (decide (limit' = limit)) as [->|Hne].
    + rewrite lookup_insert_eq. intros [= <-]. exact Hbody.
    + rewrite lookup_insert_ne by congruence. apply Hb.
Qed.

Lemma steady_fetch_latest_orders E limit : steady (fetch_latest_orders E (Some limit)).
Proof. intros s Hs. apply fetch_latest_orders_ok, Hs. Qed.

Lemma steady_tab1 l : steady (tab1 l).
Proof. unfold tab1. steady. Qed.

Lemma steady_tab2 E : steady (tab2 E).
Proof.
  unfold tab2, fetch_age_preferences.
  apply steady_bind; [apply steady_cache_data; [discriminate | apply steady_view_body]|intros].
  steady.
Qed.

Lemma steady_tab3 E : steady (tab3 E).
Proof.
  unfold tab3, fetch_gender_preferences.
  apply steady_bind; [apply steady_cache_data; [discriminate | apply steady_view_body]|intros].
  steady.
Qed.

Lemma steady_tab4 E : steady (tab4 E).
Proof.
  unfold tab4, fetch_location_preferences.
  apply steady_bind; [apply steady_cache_data; [discriminate | apply steady_view_body]|intros].
  steady.
Qed.

Lemma steady_tab5 E : steady (tab5 E).
Proof.
  unfold tab5, fetch_age_gender_category.
  apply steady_bind; [apply steady_cache_data; [discriminate | apply steady_view_body]|intros].
  steady.
Qed.

Lemma steady_tab6 l : steady (tab6 l).
Proof. unfold tab6. steady. Qed.

Lemma steady_tab7 l : steady (tab7 l).
Proof. unfold tab7. steady. Qed.

Lemma steady_tab8 l : steady (tab8 l).
Proof. unfold tab8. steady. Qed.

Lemma steady_latest_orders l W : steady (latest_orders l W).
Proof. unfold latest_orders, apply_filters, copy, filter_isin. steady. Qed.

Lemma steady_headline l : steady (headline l).
Proof. unfold headline. steady. Qed.

(** A whole run keeps the cache that way. *)
Lemma steady_script (E : env) (W : widgets) : steady (script E W).
Proof.
  unfold script. apply steady_bind; [unfold sidebar; steady | intros].
  apply steady_try_except; [|intros; unfold on_error; steady].
  unfold metrics.
  apply steady_bind; [apply steady_fetch_latest_orders | intros df].
  apply steady_bind; [apply steady_alloc | intros l].
  destruct (empty df); [apply steady_emit|].
  unfold render.
  apply steady_bind; [apply steady_headline | intros].
  apply steady_bind; [apply steady_tab1 | intros].
  apply steady_bind; [apply steady_tab2 | intros].
  apply steady_bind; [apply steady_tab3 | intros].
  apply steady_bind; [apply steady_tab4 | intros].
  apply steady_bind; [apply steady_tab5 | intros].
  apply steady_bind; [apply steady_tab6 | intros].
  apply steady_bind; [apply steady_tab7 | intros].
  apply steady_bind; [apply steady_tab8 | intros].
  apply steady_latest_orders.
Qed.

Lemma orders_cache_ok_fresh : orders_cache_ok fresh_page.
Proof. intros limit e. cbn. rewrite lookup_empty. discriminate. Qed.

End OrdersCache.

(** ** The claims about a whole run *)

(** Four orders as the warehouse holds them; the last has neither a
    category nor a customer segment. *)
Definition order_of (cells : list cell) : row := combine orders_columns cells.

Definition shop_orders : DataFrame :=
  mkDF orders_columns
    [ order_of [Num 1; Num 25; Str "Female"; Str "Clothing"; Str "Blouse"; Num 60;
                Str "Paris"; Num 4; Str "Yes"; Str "Credit Card"; Time 7300; Num 54;
                Str "Premium"; Str "VIP"; Str "Very Satisfied"; Bool false; Num 900;
                Str "Weekly"; Num 12; Str "Summer"; Num 5];
      order_of [Num 2; Num 41; Str "Male"; Str "Footwear"; Str "Sneakers"; Num 35;
                Str "Lyon"; Num 3; Str "No"; Str "PayPal"; Time 3700; Num 35;
                Str "Standard"; Str "Regular"; Str "Neutral"; Bool true; Num 300;
                Str "Monthly"; Num 7; Str "Summer"; Num 2];
      order_of [Num 3; Num 33; Str "Female"; Str "Clothing"; Str "Dress"; Num 90;
                Str "Paris"; Num 5; Str "Yes"; Str "Credit Card"; Time 9000; Num 81;
                Str "Premium"; Str "VIP"; Str "Satisfied"; Bool true; Num 1200;
                Str "Weekly"; Num 20; Str "Winter"; Num 4];
      order_of [Num 4; Num 58; Str "Male"; Null; Str "Belt"; Num 20;
                Str "Lille"; Null; Str "No"; Str "Cash"; Time 100; Num 20;
                Str "Standard"; Null; Str "Dissatisfied"; Bool false; Num 150;
                Str "Annually"; Num 3; Str "Winter"; Num 1] ].

(** The warehouse with the orders and no view, and the same with the view
    of locations. *)
Definition orders_only : env :=
  mkEnv "spark-streaming-483317" "shopping_dev" "orders" None
        {[ "spark-streaming-483317.shopping_dev.orders" := shop_orders ]} 0.


(** The page after a first run against [orders_only], and the table that
    run fetched. *)
Definition after_first_run : state := snd (script orders_only idle fresh_page).

Definition fetched_table : DataFrame :=
  frame_of (fst (fetch_latest_orders orders_only (Some 10000%Z) fresh_page)).

Definition converted_times : Series :=
  match traverse to_datetime (col fetched_table "processed_time") with
  | Ok ts => ts
  | Raise _ => []
  end.

(** C6: the order fetch returns at most [limit] rows, freshest first
    (processing time descending, missing times last), whether the table
    comes from the warehouse or from the cache; with a client it always
    returns; the run asks for 10,000 rows; and a run leaves the cache
    holding such tables only, so the next run finds it that way. *)
Theorem fetch_latest_orders_freshest_first (E : env) (limit : Z) (s : state) :
  orders_cache_ok s ->
  (forall df s',
     fetch_latest_orders E (Some limit) s = (Ok df, s') ->
     (len df <= Z.to_nat limit)%nat
     /\ Sorted (by_desc "processed_time") (rows df)
     /\ orders_cache_ok s')
  /\ (auth E = None -> exists df s', fetch_latest_orders E (Some limit) s = (Ok df, s'))
  /\ (forall W, exists rest,
        metrics E W = bind (fetch_latest_orders E (Some 10000%Z)) rest)
  /\ (forall W, orders_cache_ok (snd (script E W s))).
Proof.
  intros Hs. destruct (fetch_latest_orders_ok E limit s Hs) as [Hkeep Hret].
  split; [|split; [|split]].
  - intros df s' Hfetch. destruct (Hret df s' Hfetch) as (_ & Hlen & Hsorted).
    rewrite Hfetch in Hkeep. auto.
  - intros Hauth. unfold fetch_latest_orders, cache_data.
    destruct (cache_lookup _ _ _ s); [eauto|].
    unfold fetch_latest_orders_body, init_bigquery_client, bind. rewrite Hauth. cbn [ret].
    destruct (run_query _ _); [eauto|].
    destruct (contains "db-dtypes" _); cbn; eauto.
  - intros W. eexists. reflexivity.
  - intros W. apply steady_script, Hs.
Qed.

Lemma fetch_latest_orders_freshest_first_witness :
  invokes (now orders_only) orders_ttl ("fetch_latest_orders", [10000%Z]) after_first_run
  = false
  /\ forall df s',
       fetch_latest_orders orders_only (Some 10000%Z) after_first_run = (Ok df, s') ->
       (len df <= Z.to_nat 10000)%nat
       /\ Sorted (by_desc "processed_time") (rows df)
       /\ orders_cache_ok s'.
Proof.
  split; [vm_compute; reflexivity|].
  apply (fetch_latest_orders_freshest_first orders_only 10000 after_first_run).
  apply steady_script, orders_cache_ok_fresh.
Defined.

Example second_run_served_from_cache :
  fst (fetch_latest_orders orders_only (Some 10000%Z) after_first_run) = Ok fetched_table
  /\ map (fun r => at_ r "customer_id") (rows fetched_table) = [Num 3; Num 1; Num 2; Num 4].
Proof. split; vm_compute; reflexivity. Qed.



Example segment_table_of_the_run :
  map (fun r => (at_ r "segment", at_ r "count"))
      (rows (frame_of (revenue_by_segment (with_hours converted_times fetched_table))))
  = [(Str "VIP", Num 2); (Str "Regular", Num 1)].
Proof. vm_compute. reflexivity. Qed.



Example page_of_the_first_run :
  length (log (snd (script orders_only idle fresh_page))) = 46
  /\ nth_error (log (snd (script orders_only idle fresh_page))) 13
     = Some (view_warning orders_only "v_age_preferences")
  /\ last (log (snd (script orders_only idle fresh_page))) = Some (StCaption 4 4).
Proof. vm_compute. repeat split. Qed.

(** ** The derived tables *)

(** On a table that has the columns of the SELECT list, as the fetched
    table has before and after the overview tab has added its column, none
    of the derived tables of the VIP, anomaly and segment tabs raises. *)
Theorem derived_tables_defined (d : DataFrame) :
  has_columns orders_columns d = true ->
  (exists t, revenue_by_segment d = Ok t)
  /\ (exists t, vip_category (vip_premium d) = Ok t)
  /\ (exists t, anom_by "category" (anomalies d) = Ok t)
  /\ (exists t, anom_by "location" (anomalies d) = Ok t)
  /\ (exists p, crosstab d = Ok p).
Proof.
  intros Hd.
  destruct (revenue_by_segment_defined d Hd) as (t1 & H1 & _).
  destruct (vip_category_defined d Hd) as (t2 & H2 & _).
  destruct (anom_by_defined d Hd "category" eq_refl) as (t3 & H3 & _).
  destruct (anom_by_defined d Hd "location" eq_refl) as (t4 & H4 & _).
  destruct (satisfaction_defined d Hd) as (by_cat & p & _ & Hby & _ & Hp & _).
  repeat split; eauto.
  exists p. unfold crosstab. rewrite Hby. exact Hp.
Qed.

Lemma derived_tables_defined_witness :
  let d := with_hours converted_times fetched_table in
  (exists t, revenue_by_segment d = Ok t)
  /\ (exists t, vip_category (vip_premium d) = Ok t)
  /\ (exists t, anom_by "category" (anomalies d) = Ok t)
  /\ (exists t, anom_by "location" (anomalies d) = Ok t)
  /\ (exists p, crosstab d = Ok p).
Proof.
  apply (derived_tables_defined (with_hours converted_times fetched_table)).
  vm_compute. reflexivity.
Defined.

Example derived_tables_of_the_run :
  let d := with_hours converted_times fetched_table in
  length (columns d) = 22
  /\ len (frame_of (revenue_by_segment d)) = 2
  /\ len (frame_of (vip_category (vip_premium d))) = 1
  /\ len (frame_of (anom_by "location" (anomalies d))) = 2.
Proof. vm_compute. repeat split. Qed.
